(** * Vehicle-Counter: the [useTrafficAI] hook

    A shallow embedding of the realtime hook of the traffic dashboard
    (the four-class variant: [report_vehicle_detection]) and the
    properties of its tool-call interpreter, playback scheduler and
    session life cycle.

    Conventions of the embedding.
    - A JavaScript value of type [any] is a [JsValue].  Numbers are
      followed exactly on the integers of magnitude at most 2^53, where
      the arithmetic of doubles is that of the integers, and on [NaN];
      any other double is kept by its sign alone ([Unsafe]), a counter
      that leaves the range is [Untracked], and a text that would
      render such a number is [Unrendered].
    - Strings are sequences of UTF-8 bytes.
    - A JS object used as a dictionary ([fc.args]) is a [gmap string JsValue].
    - React state ([useState]) and refs ([useRef]) are fields of one
      record, [Hook], together with the part of the browser the hook
      acts on (live media tracks, interval timers, audio contexts,
      messages sent on sessions, buffers handed to the audio clock).
      State setters are applied in program order.
    - An asynchronous function is split at its [await]s: [startStream]
      where it waits for [getUserMedia], [onmessage] where it waits for
      the decoding of an audio chunk, [stopStream] where it waits for
      the closing of each audio context.  [stopStream] itself is the
      stop that nothing interrupts.
    - [decodeAudioData] (utils/audio-utils) is not among the sources:
      the duration of the buffer it yields comes with the event. *)

From Stdlib Require Import ZArith List String Ascii Lia DecimalString Sorted.
From stdpp Require Import base option strings list gmap.

Local Open Scope string_scope.
Local Open Scope list_scope.
Local Open Scope Z_scope.

(** ** JavaScript values *)

Module Js.

(** A number of the language.  [Num z] is the double whose value is the
    integer [z]; it is followed exactly when [z] is at most 2^53 in
    magnitude.  [Unsafe positive] stands for a double that the model
    does not evaluate, the double nearest to a value that is not an
    integer within 2^53 (a fraction, a larger integer, an infinity):
    it is not zero and not [NaN], and its sign is known. *)
Inductive JsNumber : Type :=
| NaN
| Num (z : Z)
| Unsafe (positive : bool).

(** [JObject] stands for a plain object, which is truthy, converts to
    [NaN] and prints as [[object Object]]. *)
Inductive JsValue : Type :=
| JUndefined
| JNull
| JBool (b : bool)
| JNumber (n : JsNumber)
| JString (s : string)
| JObject.

#[global] Instance JsNumber_eq_dec : EqDecision JsNumber.
Proof. solve_decision. Defined.

#[global] Instance JsValue_eq_dec : EqDecision JsValue.
Proof. solve_decision. Defined.

(** The integers every one of which is a double, and whose sums, as
    long as they stay in the range, are exact. *)
Definition isSafe (z : Z) : bool := (- 2 ^ 53 <=? z) && (z <=? 2 ^ 53).

(** An integer outside the range is kept by its sign only. *)
Definition normalize (n : JsNumber) : JsNumber :=
  match n with
  | Num z => if isSafe z then Num z else Unsafe (0 <? z)
  | _ => n
  end.

(** *** White space *)

(** Strings are sequences of UTF-8 bytes.  [spaceLength s] is the
    number of bytes of the white space or line terminator [s] starts
    with, 0 when it starts with none: U+0009 to U+000D, U+0020, U+00A0,
    U+1680, U+2000 to U+200A, U+2028, U+2029, U+202F, U+205F, U+3000
    and U+FEFF. *)
Definition spaceLength (s : string) : nat :=
  match s with
  | String a r =>
      match nat_of_ascii a, r with
      | 9%nat, _ | 10%nat, _ | 11%nat, _ | 12%nat, _ | 13%nat, _ | 32%nat, _ => 1%nat
      | 194%nat, String b _ =>
          if Nat.eqb (nat_of_ascii b) 160 then 2%nat else 0%nat
      | 225%nat, String b (String c _) =>
          if Nat.eqb (nat_of_ascii b) 154 && Nat.eqb (nat_of_ascii c) 128
          then 3%nat else 0%nat
      | 226%nat, String b (String c _) =>
          let c := nat_of_ascii c in
          if Nat.eqb (nat_of_ascii b) 128
             && ((Nat.leb 128 c && Nat.leb c 138) || Nat.eqb c 168
                 || Nat.eqb c 169 || Nat.eqb c 175)
          then 3%nat
          else if Nat.eqb (nat_of_ascii b) 129 && Nat.eqb c 159 then 3%nat
          else 0%nat
      | 227%nat, String b (String c _) =>
          if Nat.eqb (nat_of_ascii b) 128 && Nat.eqb (nat_of_ascii c) 128
          then 3%nat else 0%nat
      | 239%nat, String b (String c _) =>
          if Nat.eqb (nat_of_ascii b) 187 && Nat.eqb (nat_of_ascii c) 191
          then 3%nat else 0%nat
      | _, _ => 0%nat
      end
  | EmptyString => 0%nat
  end.

Fixpoint dropBytes (n : nat) (s : string) : string :=
  match n, s with
  | S n', String _ r => dropBytes n' r
  | _, _ => s
  end.

Fixpoint takeBytes (n : nat) (s : string) : string :=
  match n, s with
  | S n', String c r => String c (takeBytes n' r)
  | _, _ => EmptyString
  end.

(** The characters of a string, as far as trimming tells them apart: a
    white space with its encoding, or one byte of anything else.
    [fuel] bounds the number of characters. *)
Fixpoint characters (fuel : nat) (s : string) : list (bool * string) :=
  match fuel, s with
  | S fuel', String c r =>
      match spaceLength s with
      | O => (false, String c EmptyString) :: characters fuel' r
      | k => (true, takeBytes k s) :: characters fuel' (dropBytes k s)
      end
  | _, _ => []
  end.

Fixpoint dropSpaces (l : list (bool * string)) : list (bool * string) :=
  match l with
  | (true, _) :: rest => dropSpaces rest
  | _ => l
  end.

Fixpoint concatBytes (l : list (bool * string)) : string :=
  match l with
  | [] => EmptyString
  | (_, bytes) :: rest => bytes +:+ concatBytes rest
  end.

(** [String.prototype.trim], which is also the white space that the
    string-to-number conversion skips. *)
Definition trim (s : string) : string :=
  concatBytes
    (rev (dropSpaces (rev (dropSpaces (characters (String.length s) s))))).

(** *** Numeric literals of strings *)

Definition digit_of (radix : Z) (c : ascii) : option Z :=
  let n := Z.of_nat (nat_of_ascii c) in
  let d :=
    if (48 <=? n) && (n <=? 57) then n - 48
    else if (65 <=? n) && (n <=? 70) then n - 55
    else if (97 <=? n) && (n <=? 102) then n - 87
    else radix in
  if d <? radix then Some d else None.

(** A text made of digits only, most significant first. *)
Fixpoint digits_from (radix : Z) (s : string) (acc : Z) : option Z :=
  match s with
  | EmptyString => Some acc
  | String c s' =>
      match digit_of radix c with
      | Some d => digits_from radix s' (radix * acc + d)
      | None => None
      end
  end.

(** One or more digits. *)
Definition unsigned_literal (radix : Z) (s : string) : option Z :=
  match s with
  | EmptyString => None
  | _ => digits_from radix s 0
  end.

(** [SignedInteger], the digits of an exponent. *)
Definition SignedInteger (s : string) : option Z :=
  match s with
  | String "+" r => unsigned_literal 10 r
  | String "-" r => option_map Z.opp (unsigned_literal 10 r)
  | _ => unsigned_literal 10 s
  end.

(** The decimal digits a text starts with: their value after [acc],
    their number, and the rest of the text. *)
Fixpoint leading_digits (s : string) (acc : Z) (len : Z) : Z * Z * string :=
  match s with
  | String c r =>
      match digit_of 10 c with
      | Some d => leading_digits r (10 * acc + d) (len + 1)
      | None => (acc, len, s)
      end
  | EmptyString => (acc, len, EmptyString)
  end.

(** [ExponentPart], optional: the exponent, 0 when the text has ended. *)
Definition ExponentPart (s : string) : option Z :=
  match s with
  | EmptyString => Some 0
  | String "e" r | String "E" r => SignedInteger r
  | _ => None
  end.

(** [StrUnsignedDecimalLiteral] but for [Infinity]: digits with an
    optional fraction and an optional exponent.  The value is
    [m * 10 ^ e], written with [len] digits. *)
Definition DecimalLiteral (s : string) : option (Z * Z * Z) :=
  let '(i, ilen, r1) := leading_digits s 0 0 in
  let '(m, flen, r2) :=
    match r1 with
    | String "." r => leading_digits r i 0
    | _ => (i, 0, r1)
    end in
  if 0 <? ilen + flen then
    match ExponentPart r2 with
    | Some e => Some (m, e - flen, ilen + flen)
    | None => None
    end
  else None.

(** The double nearest to [m * 10 ^ e], for [m] of at most [len]
    digits: an integer of the safe range is itself, a magnitude of at
    most 2^-1075 rounds to zero, and the rest is kept by its sign. *)
Definition decimalValue (negative : bool) (m e len : Z) : JsNumber :=
  let signed (z : Z) := if negative then - z else z in
  if m =? 0 then Num 0
  else if 0 <=? e then
    if 17 <? e then Unsafe (negb negative)
    else normalize (Num (signed (m * 10 ^ e)))
  else if len + e <=? - 400 then Num 0
  else if m mod 10 ^ (- e) =? 0 then normalize (Num (signed (m / 10 ^ (- e))))
  else if m * 2 ^ 1075 <=? 10 ^ (- e) then Num 0
  else Unsafe (negb negative).

Definition StrDecimalLiteral (negative : bool) (s : string) : JsNumber :=
  if String.eqb s "Infinity" then Unsafe (negb negative)
  else
    match DecimalLiteral s with
    | Some (m, e, len) => decimalValue negative m e len
    | None => NaN
    end.

Definition integerValue (literal : option Z) : JsNumber :=
  match literal with
  | Some z => normalize (Num z)
  | None => NaN
  end.

(** [StringToNumber]: white space around the literal is skipped, a
    blank text is 0, a literal is binary, octal or hexadecimal after
    its prefix and decimal otherwise, and any other text is [NaN]. *)
Definition StringToNumber (s : string) : JsNumber :=
  match trim s with
  | EmptyString => Num 0
  | String "0" (String "x" r) | String "0" (String "X" r) =>
      integerValue (unsigned_literal 16 r)
  | String "0" (String "o" r) | String "0" (String "O" r) =>
      integerValue (unsigned_literal 8 r)
  | String "0" (String "b" r) | String "0" (String "B" r) =>
      integerValue (unsigned_literal 2 r)
  | String "+" r => StrDecimalLiteral false r
  | String "-" r => StrDecimalLiteral true r
  | r => StrDecimalLiteral false r
  end.

(** [Number(v)]. *)
Definition ToNumber (v : JsValue) : JsNumber :=
  match v with
  | JUndefined => NaN
  | JNull => Num 0
  | JBool b => Num (if b then 1 else 0)
  | JNumber n => normalize n
  | JString s => StringToNumber s
  | JObject => NaN
  end.

(** [ToBoolean] on numbers and on values. *)
Definition number_truthy (n : JsNumber) : bool :=
  match n with
  | NaN => false
  | Num z => negb (z =? 0)
  | Unsafe _ => true
  end.

Definition truthy (v : JsValue) : bool :=
  match v with
  | JUndefined | JNull => false
  | JBool b => b
  | JNumber n => number_truthy n
  | JString s => negb (String.eqb s "")
  | JObject => true
  end.

(** [x || y] on values. *)
Definition or_else (x y : JsValue) : JsValue := if truthy x then x else y.

(** [n || 0]: a number that is never [NaN]. *)
Definition or_zero (n : JsNumber) : JsNumber :=
  if number_truthy n then n else Num 0.

(** [n > 0]. *)
Definition isPositive (n : JsNumber) : bool :=
  match n with
  | NaN => false
  | Num z => 0 <? z
  | Unsafe positive => positive
  end.

(** [n < 0]. *)
Definition isNegative (n : JsNumber) : bool :=
  match n with
  | NaN => false
  | Num z => z <? 0
  | Unsafe positive => negb positive
  end.

(** The decimal rendering of an integer. *)
Definition Z_to_string (z : Z) : string :=
  NilZero.string_of_int (Z.to_int z).

(** [`${n}`]: an integer of the safe range is rendered by its decimal
    digits; the rendering of a number that is not evaluated is not
    known. *)
Definition number_to_string (n : JsNumber) : option string :=
  match normalize n with
  | NaN => Some "NaN"
  | Num z => Some (Z_to_string z)
  | Unsafe _ => None
  end.

(** [`${v}`]. *)
Definition ToString (v : JsValue) : option string :=
  match v with
  | JUndefined => Some "undefined"
  | JNull => Some "null"
  | JBool b => Some (if b then "true" else "false")
  | JNumber n => number_to_string n
  | JString s => Some s
  | JObject => Some "[object Object]"
  end.

(** [parts.join(sep)]. *)
Fixpoint join (sep : string) (parts : list string) : string :=
  match parts with
  | [] => ""
  | [p] => p
  | p :: rest => p +:+ sep +:+ join sep rest
  end.

End Js.

Import Js.

(** ** Data model ([types.ts]) *)

Inductive StreamState : Type := IDLE | CONNECTING | ACTIVE | ERROR.

#[global] Instance StreamState_eq_dec : EqDecision StreamState.
Proof. solve_decision. Defined.

(** A counter of the statistics: an integer of magnitude at most 2^53,
    or a number that the model does not follow (a fraction, a larger
    magnitude, an infinity or [NaN]). *)
Inductive Counter : Type :=
| Counted (z : Z)
| Untracked.

#[global] Instance Counter_eq_dec : EqDecision Counter.
Proof. solve_decision. Defined.

(** [counter + n].  The sum of two integers of the safe range is exact
    when it is in the range. *)
Definition plus (counter : Counter) (n : JsNumber) : Counter :=
  match counter, n with
  | Counted a, Num b =>
      if isSafe a && isSafe b && isSafe (a + b) then Counted (a + b) else Untracked
  | _, _ => Untracked
  end.

(** [density] is typed ['LOW' | 'MEDIUM' | 'HIGH'], but the type is
    erased at run time and the hook stores what the remote call
    carried, so the field holds a [JsValue].  [lastUpdated] is the
    epoch reading of [new Date()]. *)
Record TrafficStats : Type := {
  twoWheelers : Counter;
  threeWheelers : Counter;
  fourWheelers : Counter;
  heavyVehicles : Counter;
  density : JsValue;
  lastUpdated : Z
}.

Inductive LogType : Type :=
  LogInfo | LogSuccess | LogError | LogVehicle | LogTranscript.

#[global] Instance LogType_eq_dec : EqDecision LogType.
Proof. solve_decision. Defined.

(** The message of a log entry: its text, or [Unrendered] when the
    text contains the rendering of a number that is not evaluated. *)
Inductive LogText : Type :=
| Text (s : string)
| Unrendered.

#[global] Instance LogText_eq_dec : EqDecision LogText.
Proof. solve_decision. Defined.

(** [log_id] is the index of the [Math.random()] draw the identifier
    was rendered from; [log_time] the clock reading behind the label. *)
Record LogEntry : Type := {
  log_id : nat;
  log_time : Z;
  log_message : LogText;
  log_type : LogType
}.

Inductive FacingMode : Type := user | environment.

(** ** Browser objects the hook holds *)

(** A [MediaStream] is known by the handles of its tracks. *)
Record MediaStream : Type := { getTracks : list positive }.

Record VideoElement : Type := { srcObject : option MediaStream }.

(** [context2d] tells whether [getContext('2d')] yields a context. *)
Record CanvasElement : Type := { context2d : bool }.

(** ** Wire records *)

(** A function call of a [toolCall] message; every member is optional
    in the SDK's type. *)
Record FunctionCall : Type := {
  fc_id : option string;
  fc_name : option string;
  fc_args : option (gmap string JsValue)
}.

(** The [functionResponses] member of [sendToolResponse]. *)
Record FunctionResponse : Type := {
  fr_id : option string;
  fr_name : option string;
  fr_result : string
}.

(** An inbound [LiveServerMessage], as far as [onmessage] reads it.
    [toolCall] is [Some None] when the member is present without
    [functionCalls].  [audioData] is the inline base64 payload of the
    first part of the model turn. *)
Record LiveServerMessage : Type := {
  toolCall : option (option (list FunctionCall));
  outputTranscriptionText : option string;
  turnComplete : bool;
  audioData : option string
}.

(** ** The hook's state *)

(** [useState] cells. *)
Record ReactState : Type := {
  streamState : StreamState;
  stats : TrafficStats;
  logs : list LogEntry;
  volume : Z;
  facingMode : FacingMode;
  error : option string
}.

(** [useRef] cells.  Handles of timers, audio contexts and sessions are
    positive integers, as [setInterval] returns them. *)
Record Refs : Type := {
  videoRef : option VideoElement;
  canvasRef : option CanvasElement;
  sessionPromiseRef : option positive;
  streamRef : option MediaStream;
  frameIntervalRef : option positive;
  currentTranscriptRef : string;
  inputAudioContextRef : option positive;
  outputAudioContextRef : option positive;
  nextStartTimeRef : Z
}.

(** The part of the browser the hook acts on: the tracks that are
    live, the interval timers that can still fire, the audio contexts
    that are not closed, the next fresh handle, the tool responses
    sent (session handle, payload) in sending order, the buffers
    started on the output clock (start time, duration) in call order,
    the wall clock and the number of [Math.random()] draws made.
    Times of the audio clock and durations are counted in sample
    frames of the output context. *)
Record Browser : Type := {
  liveTracks : gset positive;
  activeTimers : gset positive;
  openContexts : gset positive;
  nextHandle : positive;
  toolResponses : list (positive * FunctionResponse);
  started : list (Z * Z);
  wallClock : Z;
  randomDraws : nat
}.

Record Hook : Type := {
  react : ReactState;
  refs : Refs;
  browser : Browser
}.

(** *** Field updates *)

Definition set_streamState (v : StreamState) (r : ReactState) : ReactState :=
  {| streamState := v; stats := stats r; logs := logs r; volume := volume r; facingMode := facingMode r; error := error r |}.

Definition set_stats (v : TrafficStats) (r : ReactState) : ReactState :=
  {| streamState := streamState r; stats := v; logs := logs r; volume := volume r; facingMode := facingMode r; error := error r |}.

Definition set_logs (v : list LogEntry) (r : ReactState) : ReactState :=
  {| streamState := streamState r; stats := stats r; logs := v; volume := volume r; facingMode := facingMode r; error := error r |}.

Definition set_volume (v : Z) (r : ReactState) : ReactState :=
  {| streamState := streamState r; stats := stats r; logs := logs r; volume := v; facingMode := facingMode r; error := error r |}.

Definition set_facingMode (v : FacingMode) (r : ReactState) : ReactState :=
  {| streamState := streamState r; stats := stats r; logs := logs r; volume := volume r; facingMode := v; error := error r |}.

Definition set_error (v : option string) (r : ReactState) : ReactState :=
  {| streamState := streamState r; stats := stats r; logs := logs r; volume := volume r; facingMode := facingMode r; error := v |}.

Definition set_videoRef (v : option VideoElement) (r : Refs) : Refs :=
  {| videoRef := v; canvasRef := canvasRef r; sessionPromiseRef := sessionPromiseRef r; streamRef := streamRef r; frameIntervalRef := frameIntervalRef r; currentTranscriptRef := currentTranscriptRef r; inputAudioContextRef := inputAudioContextRef r; outputAudioContextRef := outputAudioContextRef r; nextStartTimeRef := nextStartTimeRef r |}.

Definition set_canvasRef (v : option CanvasElement) (r : Refs) : Refs :=
  {| videoRef := videoRef r; canvasRef := v; sessionPromiseRef := sessionPromiseRef r; streamRef := streamRef r; frameIntervalRef := frameIntervalRef r; currentTranscriptRef := currentTranscriptRef r; inputAudioContextRef := inputAudioContextRef r; outputAudioContextRef := outputAudioContextRef r; nextStartTimeRef := nextStartTimeRef r |}.

Definition set_sessionPromiseRef (v : option positive) (r : Refs) : Refs :=
  {| videoRef := videoRef r; canvasRef := canvasRef r; sessionPromiseRef := v; streamRef := streamRef r; frameIntervalRef := frameIntervalRef r; currentTranscriptRef := currentTranscriptRef r; inputAudioContextRef := inputAudioContextRef r; outputAudioContextRef := outputAudioContextRef r; nextStartTimeRef := nextStartTimeRef r |}.

Definition set_streamRef (v : option MediaStream) (r : Refs) : Refs :=
  {| videoRef := videoRef r; canvasRef := canvasRef r; sessionPromiseRef := sessionPromiseRef r; streamRef := v; frameIntervalRef := frameIntervalRef r; currentTranscriptRef := currentTranscriptRef r; inputAudioContextRef := inputAudioContextRef r; outputAudioContextRef := outputAudioContextRef r; nextStartTimeRef := nextStartTimeRef r |}.

Definition set_frameIntervalRef (v : option positive) (r : Refs) : Refs :=
  {| videoRef := videoRef r; canvasRef := canvasRef r; sessionPromiseRef := sessionPromiseRef r; streamRef := streamRef r; frameIntervalRef := v; currentTranscriptRef := currentTranscriptRef r; inputAudioContextRef := inputAudioContextRef r; outputAudioContextRef := outputAudioContextRef r; nextStartTimeRef := nextStartTimeRef r |}.

Definition set_currentTranscriptRef (v : string) (r : Refs) : Refs :=
  {| videoRef := videoRef r; canvasRef := canvasRef r; sessionPromiseRef := sessionPromiseRef r; streamRef := streamRef r; frameIntervalRef := frameIntervalRef r; currentTranscriptRef := v; inputAudioContextRef := inputAudioContextRef r; outputAudioContextRef := outputAudioContextRef r; nextStartTimeRef := nextStartTimeRef r |}.

Definition set_inputAudioContextRef (v : option positive) (r : Refs) : Refs :=
  {| videoRef := videoRef r; canvasRef := canvasRef r; sessionPromiseRef := sessionPromiseRef r; streamRef := streamRef r; frameIntervalRef := frameIntervalRef r; currentTranscriptRef := currentTranscriptRef r; inputAudioContextRef := v; outputAudioContextRef := outputAudioContextRef r; nextStartTimeRef := nextStartTimeRef r |}.

Definition set_outputAudioContextRef (v : option positive) (r : Refs) : Refs :=
  {| videoRef := videoRef r; canvasRef := canvasRef r; sessionPromiseRef := sessionPromiseRef r; streamRef := streamRef r; frameIntervalRef := frameIntervalRef r; currentTranscriptRef := currentTranscriptRef r; inputAudioContextRef := inputAudioContextRef r; outputAudioContextRef := v; nextStartTimeRef := nextStartTimeRef r |}.

Definition set_nextStartTimeRef (v : Z) (r : Refs) : Refs :=
  {| videoRef := videoRef r; canvasRef := canvasRef r; sessionPromiseRef := sessionPromiseRef r; streamRef := streamRef r; frameIntervalRef := frameIntervalRef r; currentTranscriptRef := currentTranscriptRef r; inputAudioContextRef := inputAudioContextRef r; outputAudioContextRef := outputAudioContextRef r; nextStartTimeRef := v |}.

Definition set_liveTracks (v : gset positive) (r : Browser) : Browser :=
  {| liveTracks := v; activeTimers := activeTimers r; openContexts := openContexts r; nextHandle := nextHandle r; toolResponses := toolResponses r; started := started r; wallClock := wallClock r; randomDraws := randomDraws r |}.

Definition set_activeTimers (v : gset positive) (r : Browser) : Browser :=
  {| liveTracks := liveTracks r; activeTimers := v; openContexts := openContexts r; nextHandle := nextHandle r; toolResponses := toolResponses r; started := started r; wallClock := wallClock r; randomDraws := randomDraws r |}.

Definition set_openContexts (v : gset positive) (r : Browser) : Browser :=
  {| liveTracks := liveTracks r; activeTimers := activeTimers r; openContexts := v; nextHandle := nextHandle r; toolResponses := toolResponses r; started := started r; wallClock := wallClock r; randomDraws := randomDraws r |}.

Definition set_nextHandle (v : positive) (r : Browser) : Browser :=
  {| liveTracks := liveTracks r; activeTimers := activeTimers r; openContexts := openContexts r; nextHandle := v; toolResponses := toolResponses r; started := started r; wallClock := wallClock r; randomDraws := randomDraws r |}.

Definition set_toolResponses (v : list (positive * FunctionResponse)) (r : Browser) : Browser :=
  {| liveTracks := liveTracks r; activeTimers := activeTimers r; openContexts := openContexts r; nextHandle := nextHandle r; toolResponses := v; started := started r; wallClock := wallClock r; randomDraws := randomDraws r |}.

Definition set_started (v : list (Z * Z)) (r : Browser) : Browser :=
  {| liveTracks := liveTracks r; activeTimers := activeTimers r; openContexts := openContexts r; nextHandle := nextHandle r; toolResponses := toolResponses r; started := v; wallClock := wallClock r; randomDraws := randomDraws r |}.

Definition set_wallClock (v : Z) (r : Browser) : Browser :=
  {| liveTracks := liveTracks r; activeTimers := activeTimers r; openContexts := openContexts r; nextHandle := nextHandle r; toolResponses := toolResponses r; started := started r; wallClock := v; randomDraws := randomDraws r |}.

Definition set_randomDraws (v : nat) (r : Browser) : Browser :=
  {| liveTracks := liveTracks r; activeTimers := activeTimers r; openContexts := openContexts r; nextHandle := nextHandle r; toolResponses := toolResponses r; started := started r; wallClock := wallClock r; randomDraws := v |}.

Definition on_react (f : ReactState -> ReactState) (h : Hook) : Hook :=
  {| react := f (react h); refs := refs h; browser := browser h |}.

Definition on_refs (f : Refs -> Refs) (h : Hook) : Hook :=
  {| react := react h; refs := f (refs h); browser := browser h |}.

Definition on_browser (f : Browser -> Browser) (h : Hook) : Hook :=
  {| react := react h; refs := refs h; browser := f (browser h) |}.

(** ** The hook ([useTrafficAI]) *)

Definition TOOL_NAME : string := "report_vehicle_detection".

Definition zeroStats (now : Z) : TrafficStats :=
  {| twoWheelers := Counted 0; threeWheelers := Counted 0; fourWheelers := Counted 0;
     heavyVehicles := Counted 0; density := JString "LOW"; lastUpdated := now |}.

(** *** State setters *)

Definition setStreamState (v : StreamState) : Hook -> Hook :=
  on_react (set_streamState v).

Definition setStats (f : TrafficStats -> TrafficStats) : Hook -> Hook :=
  on_react (fun r => set_stats (f (stats r)) r).

Definition setLogs (f : list LogEntry -> list LogEntry) : Hook -> Hook :=
  on_react (fun r => set_logs (f (logs r)) r).

Definition setVolume (v : Z) : Hook -> Hook := on_react (set_volume v).

Definition setError (v : option string) : Hook -> Hook :=
  on_react (set_error v).

(** [addLog]: the new entry goes first, in front of [prev.slice(0, 49)]. *)
Definition addLog (message : LogText) (type : LogType) (h : Hook) : Hook :=
  let entry :=
    {| log_id := randomDraws (browser h); log_time := wallClock (browser h);
       log_message := message; log_type := type |} in
  on_browser (fun b => set_randomDraws (S (randomDraws b)) b)
    (setLogs (fun prev => entry :: take 49 prev) h).

(** *** Tool-call interpreter ([processToolCall]) *)

(** Outcome of a callback body: it runs to its end, or an exception
    leaves it early; either way with the state reached so far. *)
Inductive Completion : Type :=
| Normal (h : Hook)
| Throw (h : Hook).

Definition final (c : Completion) : Hook :=
  match c with
  | Normal h => h
  | Throw h => h
  end.

(** [args.key], [undefined] when the member is missing. *)
Definition member (args : gmap string JsValue) (key : string) : JsValue :=
  default JUndefined (args !! key).

(** [Number(args.key) || 0]. *)
Definition count (args : gmap string JsValue) (key : string) : JsNumber :=
  or_zero (ToNumber (member args key)).

(** [args.traffic_density as ... || 'LOW']: the cast is erased. *)
Definition densityOf (args : gmap string JsValue) : JsValue :=
  or_else (member args "traffic_density") (JString "LOW").

(** [if (n) parts.push(`${n} label`)]; a part is [None] when the
    rendering of its number is not known. *)
Definition part (n : JsNumber) (label : string) : list (option string) :=
  if number_truthy n
  then [option_map (fun digits => digits +:+ label) (number_to_string n)]
  else [].

Definition detectionParts (newTwo newThree newFour newHeavy : JsNumber)
    : list (option string) :=
  part newTwo " Bike(s)" ++ part newThree " Auto(s)" ++
  part newFour " Car(s)" ++ part newHeavy " Truck/Bus".

(** The parts, when every one of them is rendered. *)
Fixpoint rendered (parts : list (option string)) : option (list string) :=
  match parts with
  | [] => Some []
  | Some p :: rest => option_map (cons p) (rendered rest)
  | None :: _ => None
  end.

(** [desc ? `${parts.join(', ')} - ${desc}` : parts.join(', ')]. *)
Definition detectionMessage (parts : list (option string)) (desc : JsValue)
    : option string :=
  match rendered parts with
  | Some texts =>
      if truthy desc
      then option_map (fun d => join ", " texts +:+ " - " +:+ d) (ToString desc)
      else Some (join ", " texts)
  | None => None
  end.

(** [`Detected: ${msg}`]. *)
Definition detectionLine (msg : option string) : LogText :=
  match msg with
  | Some m => Text ("Detected: " +:+ m)
  | None => Unrendered
  end.

Definition acknowledgment (fc : FunctionCall) : FunctionResponse :=
  {| fr_id := fc_id fc; fr_name := fc_name fc; fr_result := "OK" |}.

(** [sessionPromiseRef.current?.then(session => session.sendToolResponse(..))]:
    responses are recorded in the order the continuations were queued,
    which is the order they run in. *)
Definition sendToolResponse (fr : FunctionResponse) (h : Hook) : Hook :=
  match sessionPromiseRef (refs h) with
  | Some session =>
      on_browser (fun b => set_toolResponses (toolResponses b ++ [(session, fr)]) b) h
  | None => h
  end.

(** The statistics after a call that reports vehicles. *)
Definition addDetections (newTwo newThree newFour newHeavy : JsNumber)
    (d : JsValue) (now : Z) (prev : TrafficStats) : TrafficStats :=
  {| twoWheelers := plus (twoWheelers prev) newTwo;
     threeWheelers := plus (threeWheelers prev) newThree;
     fourWheelers := plus (fourWheelers prev) newFour;
     heavyVehicles := plus (heavyVehicles prev) newHeavy;
     density := d;
     lastUpdated := now |}.

(** [{ ...prev, density }]. *)
Definition withDensity (d : JsValue) (prev : TrafficStats) : TrafficStats :=
  {| twoWheelers := twoWheelers prev;
     threeWheelers := threeWheelers prev;
     fourWheelers := fourWheelers prev;
     heavyVehicles := heavyVehicles prev;
     density := d;
     lastUpdated := lastUpdated prev |}.

Definition isKnown (fc : FunctionCall) : bool :=
  bool_decide (fc_name fc = Some TOOL_NAME).

(** The two branches on [newTwo > 0 || newThree > 0 || newFour > 0 || newHeavy > 0]:
    a detection adds the deltas, stamps the statistics and logs one
    line; otherwise only the density is replaced. *)
Definition recordDetection (newTwo newThree newFour newHeavy : JsNumber)
    (d desc : JsValue) (h : Hook) : Hook :=
  if isPositive newTwo || isPositive newThree || isPositive newFour
     || isPositive newHeavy
  then
    addLog
      (detectionLine
         (detectionMessage (detectionParts newTwo newThree newFour newHeavy) desc))
      LogVehicle
      (setStats
         (addDetections newTwo newThree newFour newHeavy d (wallClock (browser h)))
         h)
  else setStats (withDensity d) h.

(** The body of the [forEach] callback.  Reading a member of a missing
    [fc.args] raises a [TypeError]; the confirmation is sent inside the
    test on the name. *)
Definition processCall (fc : FunctionCall) (h : Hook) : Completion :=
  if isKnown fc then
    match fc_args fc with
    | None => Throw h
    | Some args =>
        Normal
          (sendToolResponse (acknowledgment fc)
             (recordDetection
                (count args "two_wheelers") (count args "three_wheelers")
                (count args "four_wheelers") (count args "heavy_vehicles")
                (densityOf args) (member args "description") h))
    end
  else Normal h.

(** [functionCalls.forEach]: in array order, until an exception. *)
Fixpoint forEachCall (calls : list FunctionCall) (h : Hook) : Completion :=
  match calls with
  | [] => Normal h
  | fc :: rest =>
      match processCall fc h with
      | Normal h' => forEachCall rest h'
      | Throw h' => Throw h'
      end
  end.

Definition processToolCall (functionCalls : option (list FunctionCall))
    (h : Hook) : Completion :=
  match functionCalls with
  | None => Normal h
  | Some calls => forEachCall calls h
  end.

(** *** [resetAnalysis] *)

Definition resetAnalysis (h : Hook) : Hook :=
  addLog (Text "Statistics reset") LogInfo
    (setLogs (fun _ => [])
       (setStats (fun _ => zeroStats (wallClock (browser h))) h)).

(** *** [stopStream] *)

(** [track.stop()] on every track of the stream. *)
Definition stopTracks (s : MediaStream) (b : Browser) : Browser :=
  set_liveTracks (liveTracks b ∖ list_to_set (getTracks s)) b.

Definition clearInterval (t : positive) (b : Browser) : Browser :=
  set_activeTimers (activeTimers b ∖ {[t]}) b.

(** [if (ref.current?.state !== 'closed') await ref.current?.close()]:
    the context counts as closed from the call of [close()]. *)
Definition closeContext (ctx : option positive) (h : Hook) : Hook :=
  match ctx with
  | Some c =>
      if decide (c ∈ openContexts (browser h))
      then on_browser (fun b => set_openContexts (openContexts b ∖ {[c]}) b) h
      else h
  | None => h
  end.

(** [stopStream] up to its first [await]: the tracks are stopped, the
    video element is emptied, the frame timer is cancelled and the
    input context is told to close. *)
Definition stopStream_called (h : Hook) : Hook :=
  let h1 :=
    match streamRef (refs h) with
    | Some s => on_refs (set_streamRef None) (on_browser (stopTracks s) h)
    | None => h
    end in
  let h2 :=
    match videoRef (refs h1) with
    | Some _ => on_refs (set_videoRef (Some {| srcObject := None |})) h1
    | None => h1
    end in
  let h3 :=
    match frameIntervalRef (refs h2) with
    | Some t => on_refs (set_frameIntervalRef None) (on_browser (clearInterval t) h2)
    | None => h2
    end in
  closeContext (inputAudioContextRef (refs h3)) h3.

(** [stopStream] resumed after the first [await], up to the second:
    the output context is told to close. *)
Definition stopStream_inputClosed (h : Hook) : Hook :=
  closeContext (outputAudioContextRef (refs h)) h.

(** [stopStream] resumed after the second [await], to its end. *)
Definition stopStream_outputClosed (h : Hook) : Hook :=
  addLog (Text "Analysis stopped") LogInfo
    (setError None (setVolume 0 (setStreamState IDLE h))).

(** A [stopStream] that runs to its end before anything else does. *)
Definition stopStream (h : Hook) : Hook :=
  stopStream_outputClosed (stopStream_inputClosed (stopStream_called h)).

(** *** [startVideoProcessing] *)

Definition setInterval (h : Hook) : Hook :=
  let t := nextHandle (browser h) in
  on_refs (set_frameIntervalRef (Some t))
    (on_browser
       (fun b => set_nextHandle (Pos.succ t) (set_activeTimers ({[t]} ∪ activeTimers b) b))
       h).

Definition startVideoProcessing (h : Hook) : Hook :=
  match videoRef (refs h), canvasRef (refs h) with
  | Some _, Some canvas =>
      let h1 :=
        match frameIntervalRef (refs h) with
        | Some t => on_browser (clearInterval t) h
        | None => h
        end in
      if context2d canvas then setInterval h1 else h1
  | _, _ => h
  end.

(** *** [startStream] *)

Definition quote : ascii := ascii_of_nat 34.

(** The text of two double quotes, ['""']. *)
Definition emptyQuoted : string := String quote (String quote EmptyString).

(** [!apiKey || apiKey === 'undefined' || apiKey === '""'], negated. *)
Definition usableKey (apiKey : string) : bool :=
  negb (String.eqb apiKey "")
  && negb (String.eqb apiKey "undefined")
  && negb (String.eqb apiKey emptyQuoted).

Definition API_KEY_MISSING : string :=
  "API Key missing. Set 'GEMINI_API_KEY' in Vercel Env Vars.".

(** [message || fallback]. *)
Definition messageOr (message fallback : string) : string :=
  if String.eqb message "" then fallback else message.

(** The [catch] block of [startStream]. *)
Definition startFailed (message : string) (h : Hook) : Hook :=
  let msg := messageOr message "Failed to start. Check API Key." in
  stopStream
    (setStreamState ERROR
       (setError (Some msg) (addLog (Text ("Failed to start: " +:+ msg)) LogError h))).

(** [new AudioContext(..)]: a fresh context, not closed. *)
Definition newAudioContext (store : option positive -> Refs -> Refs) (h : Hook) : Hook :=
  let c := nextHandle (browser h) in
  on_refs (store (Some c))
    (on_browser
       (fun b => set_nextHandle (Pos.succ c) (set_openContexts ({[c]} ∪ openContexts b) b))
       h).

(** [forceMode || facingMode]. *)
Definition modeToUse (forceMode : option FacingMode) (h : Hook) : FacingMode :=
  default (facingMode (react h)) forceMode.

(** [startStream] up to the [await] of [getUserMedia]. *)
Definition startStream (apiKey : string) (h : Hook) : Hook :=
  let h1 := setStreamState CONNECTING (setError None h) in
  if usableKey apiKey then
    newAudioContext set_outputAudioContextRef
      (newAudioContext set_inputAudioContextRef h1)
  else startFailed API_KEY_MISSING h1.

(** [startStream] resumed with the granted stream, whose tracks are
    live: the stream is stored and shown, and [ai.live.connect] yields
    the session promise. *)
Definition startStream_granted (mediaStream : MediaStream) (h : Hook) : Hook :=
  let h1 :=
    on_refs (set_streamRef (Some mediaStream))
      (on_browser
         (fun b => set_liveTracks (list_to_set (getTracks mediaStream) ∪ liveTracks b) b)
         h) in
  let h2 :=
    match videoRef (refs h1) with
    | Some _ => on_refs (set_videoRef (Some {| srcObject := Some mediaStream |})) h1
    | None => h1
    end in
  let session := nextHandle (browser h2) in
  on_refs (set_sessionPromiseRef (Some session))
    (on_browser (set_nextHandle (Pos.succ session)) h2).

(** [startStream] resumed with the rejection of [getUserMedia]. *)
Definition startStream_denied (message : string) (h : Hook) : Hook :=
  startFailed message h.

(** *** Session callbacks *)

Definition facingName (m : FacingMode) : string :=
  match m with
  | user => "user"
  | environment => "environment"
  end.

(** [onopen].  The microphone wiring it installs changes none of the
    cells below and is left out. *)
Definition onopen (mode : FacingMode) (h : Hook) : Hook :=
  startVideoProcessing
    (addLog (Text ("Session started (" +:+ facingName mode +:+ " camera)")) LogSuccess
       (setStreamState ACTIVE h)).

(** The transcript part of [onmessage]. *)
Definition onTranscript (msg : LiveServerMessage) (h : Hook) : Hook :=
  let h1 :=
    match outputTranscriptionText msg with
    | Some text =>
        if String.eqb text "" then h
        else on_refs (fun r => set_currentTranscriptRef (currentTranscriptRef r +:+ text) r) h
    | None => h
    end in
  if turnComplete msg && negb (String.eqb (currentTranscriptRef (refs h1)) "") then
    let text := trim (currentTranscriptRef (refs h1)) in
    on_refs (set_currentTranscriptRef "")
      (if String.eqb text "" then h1 else addLog (Text text) LogTranscript h1)
  else h1.

(** [nextStartTimeRef.current = Math.max(nextStartTimeRef.current, ctx.currentTime)],
    run when the chunk arrives. *)
Definition scheduleArrival (currentTime : Z) (h : Hook) : Hook :=
  on_refs (fun r => set_nextStartTimeRef (Z.max (nextStartTimeRef r) currentTime) r) h.

(** [source.start(nextStartTimeRef.current); nextStartTimeRef.current += buffer.duration],
    run when the chunk is decoded. *)
Definition schedulePlay (duration : Z) (h : Hook) : Hook :=
  let start := nextStartTimeRef (refs h) in
  on_refs (set_nextStartTimeRef (start + duration))
    (on_browser (fun b => set_started (started b ++ [(start, duration)]) b) h).

(** The audio part of [onmessage].  [currentTime] is the reading of the
    output clock when the chunk arrives; [decoded] is the duration of
    the buffer [decodeAudioData] yields, [None] when the handler does
    not get past the [await]. *)
Definition onAudio (msg : LiveServerMessage) (currentTime : Z)
    (decoded : option Z) (h : Hook) : Hook :=
  match audioData msg, outputAudioContextRef (refs h) with
  | Some data, Some _ =>
      if String.eqb data "" then h
      else
        let h1 := scheduleArrival currentTime h in
        match decoded with
        | Some duration => schedulePlay duration h1
        | None => h1
        end
  | _, _ => h
  end.

Definition onmessage (msg : LiveServerMessage) (currentTime : Z)
    (decoded : option Z) (h : Hook) : Hook :=
  let c :=
    match toolCall msg with
    | Some functionCalls => processToolCall functionCalls h
    | None => Normal h
    end in
  match c with
  | Normal h1 => onAudio msg currentTime decoded (onTranscript msg h1)
  | Throw h1 => h1
  end.

Definition onclose (h : Hook) : Hook := setStreamState IDLE h.

Definition onerror (message : string) (h : Hook) : Hook :=
  let msg := messageOr message "Connection failed. Check API Key or Network." in
  stopStream
    (setStreamState ERROR
       (setError (Some msg) (addLog (Text ("Error: " +:+ msg)) LogError h))).

(** *** Dispatch *)

(** What can happen to a mounted hook: calls of its mutators by the
    presentation layer, the settling of [getUserMedia], callbacks of
    the session, and the passing of time.  [toggleCamera] acts on the
    cells below through the [stopStream] and the later [startStream]
    it calls; the callbacks of the microphone and of the frame timer
    only send media; the volume meter is left out.  A message whose audio is
    decoded before anything else runs carries the duration
    ([decoded = Some d]); otherwise [onmessage] stops at its [await]
    ([decoded = None]) and, unless the decoding fails, resumes later as
    [AudioDecoded d].  [CallStop] is a [stopStream] that nothing
    interrupts; one that waits for the audio contexts is [StopCalled],
    then [InputContextClosed] and [OutputContextClosed] when its
    [await]s settle.  The [stopStream] of an error handler is not
    awaited by its caller; it is run to its end there. *)
Inductive Event : Type :=
| CallStart (apiKey : string)
| MediaGranted (mediaStream : MediaStream)
| MediaDenied (message : string)
| SessionOpen (mode : FacingMode)
| SessionMessage (msg : LiveServerMessage) (currentTime : Z) (decoded : option Z)
| AudioDecoded (duration : Z)
| SessionClose
| SessionError (message : string)
| CallStop
| StopCalled
| InputContextClosed
| OutputContextClosed
| CallReset
| ClockAdvance (now : Z).

Definition step (e : Event) (h : Hook) : Hook :=
  match e with
  | CallStart apiKey => startStream apiKey h
  | MediaGranted mediaStream => startStream_granted mediaStream h
  | MediaDenied message => startStream_denied message h
  | SessionOpen mode => onopen mode h
  | SessionMessage msg currentTime decoded => onmessage msg currentTime decoded h
  | AudioDecoded duration => schedulePlay duration h
  | SessionClose => onclose h
  | SessionError message => onerror message h
  | CallStop => stopStream h
  | StopCalled => stopStream_called h
  | InputContextClosed => stopStream_inputClosed h
  | OutputContextClosed => stopStream_outputClosed h
  | CallReset => resetAnalysis h
  | ClockAdvance now => on_browser (set_wallClock now) h
  end.

(** The states a run passes through, oldest first, the start excluded. *)
Fixpoint trace (events : list Event) (h : Hook) : list Hook :=
  match events with
  | [] => []
  | e :: rest => step e h :: trace rest (step e h)
  end.

Definition run (events : list Event) (h : Hook) : Hook :=
  fold_left (fun h e => step e h) events h.

(** *** Initial state *)

(** The hook as [useTrafficAI] creates it, in a browser that holds no
    device yet; [video] and [canvas] are the elements the refs are
    attached to once the component is mounted. *)
Definition initialHook (video : option VideoElement)
    (canvas : option CanvasElement) (now : Z) : Hook :=
  {| react :=
       {| streamState := IDLE; stats := zeroStats now; logs := [];
          volume := 0; facingMode := environment; error := None |};
     refs :=
       {| videoRef := video; canvasRef := canvas; sessionPromiseRef := None;
          streamRef := None; frameIntervalRef := None;
          currentTranscriptRef := ""; inputAudioContextRef := None;
          outputAudioContextRef := None; nextStartTimeRef := 0 |};
     browser :=
       {| liveTracks := ∅; activeTimers := ∅; openContexts := ∅;
          nextHandle := 1%positive; toolResponses := []; started := [];
          wallClock := now; randomDraws := 0 |} |}.

Definition mountedHook : Hook :=
  initialHook (Some {| srcObject := None |}) (Some {| context2d := true |}) 0.

(** ** Observations used in the statements *)

(** The counter [b] is not below the counter [a]: both are followed
    and [b] is at least [a], or [b] is not followed any more. *)
Definition counter_le (a b : Counter) : Prop :=
  match a, b with
  | Counted x, Counted y => x <= y
  | _, Untracked => True
  | Untracked, Counted _ => False
  end.

(** Every counter of [b] is at least the counter of [a]. *)
Definition counters_le (a b : TrafficStats) : Prop :=
  counter_le (twoWheelers a) (twoWheelers b) /\
  counter_le (threeWheelers a) (threeWheelers b) /\
  counter_le (fourWheelers a) (fourWheelers b) /\
  counter_le (heavyVehicles a) (heavyVehicles b).

Definition counters (s : TrafficStats) : Counter * Counter * Counter * Counter :=
  (twoWheelers s, threeWheelers s, fourWheelers s, heavyVehicles s).

(** The four counts a call carries, after coercion. *)
Definition countsOf (args : gmap string JsValue) : list JsNumber :=
  [count args "two_wheelers"; count args "three_wheelers";
   count args "four_wheelers"; count args "heavy_vehicles"].

(** The enumeration of the tool declaration. *)
Definition isDensity (v : JsValue) : bool :=
  match v with
  | JString s => String.eqb s "LOW" || String.eqb s "MEDIUM" || String.eqb s "HIGH"
  | _ => false
  end.

(** A known call does not carry a negative count together with a
    positive one. *)
Definition unmixedCounts (fc : FunctionCall) : bool :=
  negb (isKnown fc) ||
  match fc_args fc with
  | Some args =>
      negb (existsb isPositive (countsOf args))
      || negb (existsb isNegative (countsOf args))
  | None => true
  end.

(** An event none of whose tool calls, if any, mixes the signs of its
    counts. *)
Definition unmixedEvent (e : Event) : bool :=
  match e with
  | SessionMessage msg _ _ =>
      match toolCall msg with
      | Some (Some calls) => forallb unmixedCounts calls
      | _ => true
      end
  | _ => true
  end.

(** A known call carries an argument object. *)
Definition hasArgs (fc : FunctionCall) : bool :=
  negb (isKnown fc) || bool_decide (fc_args fc <> None).

(** The responses sent between two states, oldest first. *)
Definition responsesSince (h h' : Hook) : list FunctionResponse :=
  map snd (drop (length (toolResponses (browser h))) (toolResponses (browser h'))).

(** No media track is live, no interval timer can fire and no audio
    context is open. *)
Definition noDeviceResources (h : Hook) : Prop :=
  liveTracks (browser h) = ∅ /\
  activeTimers (browser h) = ∅ /\
  openContexts (browser h) = ∅.

(** The cells of the hook that [stopStream] is in charge of. *)
Record Teardown : Type := {
  td_tracks : gset positive;
  td_stream : option MediaStream;
  td_video : option VideoElement;
  td_timer : option positive;
  td_timers : gset positive;
  td_contexts : gset positive;
  td_volume : Z;
  td_error : option string;
  td_state : StreamState
}.

Definition teardownOf (h : Hook) : Teardown :=
  {| td_tracks := liveTracks (browser h);
     td_stream := streamRef (refs h);
     td_video := videoRef (refs h);
     td_timer := frameIntervalRef (refs h);
     td_timers := activeTimers (browser h);
     td_contexts := openContexts (browser h);
     td_volume := volume (react h);
     td_error := error (react h);
     td_state := streamState (react h) |}.

(** The hook has nothing left to release: no stream is held, the video
    element shows none, no timer is held, the audio contexts it knows
    are closed, and the visible state is that of rest. *)
Definition tornDown (h : Hook) : Prop :=
  streamRef (refs h) = None /\
  (forall v, videoRef (refs h) = Some v -> srcObject v = None) /\
  frameIntervalRef (refs h) = None /\
  (forall c, inputAudioContextRef (refs h) = Some c -> c ∉ openContexts (browser h)) /\
  (forall c, outputAudioContextRef (refs h) = Some c -> c ∉ openContexts (browser h)) /\
  volume (react h) = 0 /\
  error (react h) = None /\
  streamState (react h) = IDLE.

(** The cells of the playback scheduler: the playback clock and the
    buffers started so far. *)
Definition schedulerOf (h : Hook) : Z * list (Z * Z) :=
  (nextStartTimeRef (refs h), started (browser h)).

(** Buffers handed to the output clock one after the other: every
    buffer starts no earlier than the one before it started, and no
    earlier than the one before it ends. *)
Fixpoint gapless (l : list (Z * Z)) : Prop :=
  match l with
  | [] => True
  | (s1, d1) :: rest =>
      match rest with
      | [] => True
      | (s2, _) :: _ => s1 <= s2 /\ s1 + d1 <= s2
      end /\ gapless rest
  end.

(** The playback clock is not behind the start nor the end of the
    buffer started last. *)
Definition clockCovers (h : Hook) : Prop :=
  forall s d, last (started (browser h)) = Some (s, d) ->
    s <= nextStartTimeRef (refs h) /\ s + d <= nextStartTimeRef (refs h).

(** A decoded buffer has a duration that is not negative. *)
Definition nonnegDuration (e : Event) : bool :=
  match e with
  | SessionMessage _ _ (Some duration) => 0 <=? duration
  | AudioDecoded duration => 0 <=? duration
  | _ => true
  end.

(** The schedule in the words of the specification, for chunks given
    by the clock reading at arrival and the duration: the start of a
    chunk is the larger of the cursor and the clock reading, and the
    cursor then advances by the duration of the chunk. *)
Fixpoint specSchedule (nextStart : Z) (chunks : list (Z * Z)) : list (Z * Z) :=
  match chunks with
  | [] => []
  | (currentTime, duration) :: rest =>
      let start := Z.max nextStart currentTime in
      (start, duration) :: specSchedule (start + duration) rest
  end.

(** ** Sample calls, messages and states *)

Definition detection (callId : string) (args : list (string * JsValue)) : FunctionCall :=
  {| fc_id := Some callId; fc_name := Some TOOL_NAME;
     fc_args := Some (list_to_map args) |}.

(** The calls {two:2, four:1} and {two:1, three:0, four:0, heavy:3}. *)
Definition scenarioFirst (callId : option string) : FunctionCall :=
  {| fc_id := callId; fc_name := Some TOOL_NAME;
     fc_args :=
       Some (list_to_map
               [("two_wheelers", JNumber (Num 2)); ("four_wheelers", JNumber (Num 1))]) |}.

Definition scenarioSecond (callId : option string) : FunctionCall :=
  {| fc_id := callId; fc_name := Some TOOL_NAME;
     fc_args :=
       Some (list_to_map
               [("two_wheelers", JNumber (Num 1)); ("three_wheelers", JNumber (Num 0));
                ("four_wheelers", JNumber (Num 0)); ("heavy_vehicles", JNumber (Num 3))]) |}.

Definition negativeCount : FunctionCall :=
  detection "call-1"
    [("two_wheelers", JNumber (Num (-5))); ("four_wheelers", JNumber (Num 1))].

(** A call under the tool name of the older, two-class hook. *)
Definition unknownCall : FunctionCall :=
  {| fc_id := Some "call-9"; fc_name := Some "update_traffic_count";
     fc_args := Some (list_to_map [("two_wheelers", JNumber (Num 1))]) |}.

Definition mediumDensity : FunctionCall :=
  detection "call-1"
    [("two_wheelers", JNumber (Num 1)); ("traffic_density", JString "MEDIUM")].

Definition extremeDensity : FunctionCall :=
  detection "call-1"
    [("two_wheelers", JNumber (Num 1)); ("traffic_density", JString "EXTREME")].

(** A message that carries a batch of calls and nothing else. *)
Definition inboundCalls (calls : list FunctionCall) : LiveServerMessage :=
  {| toolCall := Some (Some calls); outputTranscriptionText := None;
     turnComplete := false; audioData := None |}.

(** A message that carries an audio chunk and nothing else. *)
Definition audioChunk : LiveServerMessage :=
  {| toolCall := None; outputTranscriptionText := None; turnComplete := false;
     audioData := Some "UklGRg==" |}.

(** The arrival of an audio chunk, given by the clock reading and the
    duration, that is decoded at once. *)
Definition chunkArrives (chunk : Z * Z) : Event :=
  SessionMessage audioChunk (fst chunk) (Some (snd chunk)).

(** A mounted hook whose session is open. *)
Definition connectedHook : Hook :=
  run [CallStart "key"; MediaGranted {| getTracks := [1; 2]%positive |};
       SessionOpen environment] mountedHook.

(** A connected hook that has scheduled one second of speech. *)
Definition playingHook : Hook :=
  step (SessionMessage audioChunk 0 (Some 24000)) connectedHook.

(** Three chunks of 24000, 12000 and 6000 frames whose arrival readings
    are 0, 30000 and 31000, received on a connected session. *)
Definition threeChunks : list Event :=
  [CallStart "key"; MediaGranted {| getTracks := [1; 2]%positive |};
   SessionOpen environment;
   SessionMessage audioChunk 0 (Some 24000);
   SessionMessage audioChunk 30000 (Some 12000);
   SessionMessage audioChunk 31000 (Some 6000)].

(** On a connected session, a chunk of 24000 frames arrives at clock
    reading 0 and its decoding is pending; a chunk of 6000 frames
    arrives at reading 12000 and is decoded at once; then the decoding
    of the first settles. *)
Definition slowFirstDecode : list Event :=
  [SessionMessage audioChunk 0 None;
   SessionMessage audioChunk 12000 (Some 6000);
   AudioDecoded 24000].

(** ** The rest of the hook and its callers *)

(** *** [toggleCamera] *)

Definition setFacingMode (v : FacingMode) : Hook -> Hook :=
  on_react (set_facingMode v).

(** [facingMode === 'environment' ? 'user' : 'environment']. *)
Definition otherFacing (m : FacingMode) : FacingMode :=
  match m with
  | environment => user
  | user => environment
  end.

(** [toggleCamera] up to its [setTimeout], called through the callback
    of the latest render, so that the [facingMode] and [streamState] it
    reads are the current ones.  The second component is the mode of
    the [startStream] it schedules, if it schedules one. *)
Definition toggleCamera (h : Hook) : Hook * option FacingMode :=
  let newMode := otherFacing (facingMode (react h)) in
  let h1 := setFacingMode newMode h in
  match streamState (react h) with
  | ACTIVE | CONNECTING =>
      (stopStream (addLog (Text "Switching camera...") LogInfo h1), Some newMode)
  | _ => (h1, None)
  end.

(** *** The camera overlay ([CameraFeed]) *)

Inductive Overlay : Type :=
| CameraOffline
| ConnectingSpinner
| ConnectionError (text : string)
| LiveBadge.

(** The state overlay [CameraFeed] renders; the error panel shows
    [error || "An unknown error occurred"]. *)
Definition cameraOverlay (state : StreamState) (err : option string) : Overlay :=
  match state with
  | IDLE => CameraOffline
  | CONNECTING => ConnectingSpinner
  | ERROR => ConnectionError (messageOr (default "" err) "An unknown error occurred")
  | ACTIVE => LiveBadge
  end.

(** *** The chart history ([App]) *)

Record ChartDataPoint : Type := {
  cp_time : string;
  cp_twoWheelers : Counter;
  cp_threeWheelers : Counter;
  cp_fourWheelers : Counter;
  cp_heavyVehicles : Counter
}.

(** The point the one-second timer builds from the statistics. *)
Definition newPoint (timeStr : string) (s : TrafficStats) : ChartDataPoint :=
  {| cp_time := timeStr;
     cp_twoWheelers := twoWheelers s;
     cp_threeWheelers := threeWheelers s;
     cp_fourWheelers := fourWheelers s;
     cp_heavyVehicles := heavyVehicles s |}.

(** The updater of [setChartData]:
    [newHistory = [...prev, newPoint]; if (newHistory.length > 30) newHistory.shift()]. *)
Definition appendPoint (prev : list ChartDataPoint) (p : ChartDataPoint)
    : list ChartDataPoint :=
  let newHistory := prev ++ [p] in
  if (30 <? length newHistory)%nat then tail newHistory else newHistory.

(** ** Further observations and samples *)

Definition logBounded (h : Hook) : Prop := (length (logs (react h)) <= 50)%nat.

(** Every interval timer that can fire is the one the hook holds. *)
Definition timersOwned (h : Hook) : Prop :=
  forall t, t ∈ activeTimers (browser h) -> frameIntervalRef (refs h) = Some t.

(** What the interpreter reads and writes: the statistics, the session
    handle, the wall clock and the responses sent. *)
Definition ledgerOf (h : Hook)
    : TrafficStats * option positive * Z * list (positive * FunctionResponse) :=
  (stats (react h), sessionPromiseRef (refs h), wallClock (browser h),
   toolResponses (browser h)).

Definition isNormal (c : Completion) : bool :=
  match c with
  | Normal _ => true
  | Throw _ => false
  end.

(** The fragments of a transcript, put together. *)
Fixpoint concatAll (texts : list string) : string :=
  match texts with
  | [] => ""
  | t :: rest => t +:+ concatAll rest
  end.

(** A message that carries a fragment of the transcript and nothing else. *)
Definition fragment (text : string) : LiveServerMessage :=
  {| toolCall := None; outputTranscriptionText := Some text;
     turnComplete := false; audioData := None |}.

(** A message that carries the end of the turn and nothing else. *)
Definition turnEnds : LiveServerMessage :=
  {| toolCall := None; outputTranscriptionText := None;
     turnComplete := true; audioData := None |}.

Definition fragmentArrives (text : string) : Event :=
  SessionMessage (fragment text) 0 None.

(** The four classes with their labels, in the order of the log line. *)
Definition labelled (newTwo newThree newFour newHeavy : Z) : list (Z * string) :=
  [(newTwo, " Bike(s)"); (newThree, " Auto(s)");
   (newFour, " Car(s)"); (newHeavy, " Truck/Bus")].

(** A hook whose session is open and whose canvas yields no 2D context. *)
Definition withoutContext2d (h : Hook) : Hook :=
  on_refs (set_canvasRef (Some {| context2d := false |})) h.

(** A hook whose session is open and whose video element is gone. *)
Definition withoutVideo (h : Hook) : Hook :=
  on_refs (set_videoRef None) h.

(** A known call without an argument object, and a message that
    carries it after a well-formed call together with a transcript, the
    end of the turn and audio. *)
Definition noArguments : FunctionCall :=
  {| fc_id := Some "call-2"; fc_name := Some TOOL_NAME; fc_args := None |}.

Definition mixedMessage : LiveServerMessage :=
  {| toolCall := Some (Some [scenarioFirst (Some "call-1"); noArguments]);
     outputTranscriptionText := Some "Two bikes";
     turnComplete := true;
     audioData := Some "UklGRg==" |}.

(** * Properties *)

(** ** Conversions *)

Example number_of_text : ToNumber (JString " 12 ") = Num 12.
Proof. reflexivity. Qed.

Example number_of_words : ToNumber (JString "many") = NaN.
Proof. reflexivity. Qed.

Example number_of_negative_text : ToNumber (JString "-5") = Num (-5).
Proof. reflexivity. Qed.

(** Texts that are numeric literals in other notations than a run of
    digits, and texts whose value is not an integer of the safe range. *)
Example number_of_other_literals :
  map StringToNumber ["1e3"; "-1e3"; "0x10"; "0b101"; "0o17"; "5."; "100e-2"; "-0"; "1e-400"] =
  [Num 1000; Num (-1000); Num 16; Num 5; Num 15; Num 5; Num 1; Num 0; Num 0] /\
  map StringToNumber ["3.5"; "-1.5"; "Infinity"; "-Infinity"; "1e300"; "9007199254740993"] =
  [Unsafe true; Unsafe false; Unsafe true; Unsafe false; Unsafe true; Unsafe true] /\
  map StringToNumber ["."; "1e"; "-0x10"; "1_000"; "infinity"; "12px"] =
  [NaN; NaN; NaN; NaN; NaN; NaN].
Proof. repeat split; vm_compute; reflexivity. Qed.

(** Around the smallest magnitude that does not round to zero, 2^-1075,
    and around the largest integer that is followed, 2^53. *)
Example number_at_the_limits :
  map StringToNumber ["2e-324"; "3e-324"; "-2e-324"; "9007199254740992";
                      "-9007199254740992"; "9007199254740994"; "1e999999"; "1e-999999"] =
  [Num 0; Unsafe true; Num 0; Num 9007199254740992;
   Num (-9007199254740992); Unsafe true; Unsafe true; Num 0].
Proof. vm_compute. reflexivity. Qed.

(** The no-break space, in UTF-8. *)
Example trim_unicode_space :
  let nbsp := String (ascii_of_nat 194) (String (ascii_of_nat 160) EmptyString) in
  trim nbsp = "" /\ trim (nbsp +:+ " a b " +:+ nbsp) = "a b" /\
  StringToNumber (nbsp +:+ "7") = Num 7.
Proof. repeat split; vm_compute; reflexivity. Qed.

Example render_numbers :
  (Z_to_string 0, Z_to_string 42, Z_to_string (-7)) = ("0", "42", "-7").
Proof. reflexivity. Qed.

Example join_three : join ", " ["a"; "b"; "c"] = "a, b, c".
Proof. reflexivity. Qed.

Lemma count_missing (args : gmap string JsValue) key :
  args !! key = None -> count args key = Num 0.
Proof. intros H. unfold count, member. rewrite H. reflexivity. Qed.

Lemma count_not_a_number (args : gmap string JsValue) key :
  ToNumber (member args key) = NaN -> count args key = Num 0.
Proof. intros H. unfold count. rewrite H. reflexivity. Qed.

Lemma count_safe (args : gmap string JsValue) key z :
  args !! key = Some (JNumber (Num z)) -> isSafe z = true -> count args key = Num z.
Proof.
  intros H Hz. unfold count, member. rewrite H. cbn. rewrite Hz.
  unfold or_zero. cbn. destruct (z =? 0) eqn:E; [| reflexivity].
  apply Z.eqb_eq in E. subst. reflexivity.
Qed.

(** ** Facts about the setters *)

(** Split on every [match] and [if] of the goal; the branches agree. *)
Ltac by_cases :=
  repeat match goal with
         | |- context [match ?x with _ => _ end] => destruct x
         | |- context [if ?x then _ else _] => destruct x
         end;
  reflexivity.

(** [stopStream] with its three parts laid open. *)
Ltac open_stop :=
  unfold stopStream, stopStream_outputClosed, stopStream_inputClosed,
    stopStream_called.

Lemma react_sendToolResponse fr h : react (sendToolResponse fr h) = react h.
Proof. unfold sendToolResponse. destruct (sessionPromiseRef (refs h)); reflexivity. Qed.

Lemma refs_sendToolResponse fr h : refs (sendToolResponse fr h) = refs h.
Proof. unfold sendToolResponse. destruct (sessionPromiseRef (refs h)); reflexivity. Qed.

Lemma sendToolResponse_session fr h s :
  sessionPromiseRef (refs h) = Some s ->
  toolResponses (browser (sendToolResponse fr h)) = toolResponses (browser h) ++ [(s, fr)].
Proof. intros H. unfold sendToolResponse. rewrite H. reflexivity. Qed.

Lemma counter_le_refl c : counter_le c c.
Proof. destruct c; cbn; [lia | exact I]. Qed.

Lemma counter_le_trans a b c : counter_le a b -> counter_le b c -> counter_le a c.
Proof. destruct a, b, c; cbn; try tauto; lia. Qed.

Lemma counters_le_refl s : counters_le s s.
Proof. unfold counters_le. auto using counter_le_refl. Qed.

Lemma counters_le_trans a b c :
  counters_le a b -> counters_le b c -> counters_le a c.
Proof.
  unfold counters_le. intros (?&?&?&?) (?&?&?&?).
  eauto 8 using counter_le_trans.
Qed.

(** Adding a count that is not negative does not lower a counter. *)
Lemma plus_le c n : isNegative n = false -> counter_le c (plus c n).
Proof.
  intros Hn. destruct c as [a|], n as [|b|p]; cbn; try exact I.
  destruct (isSafe a && isSafe b && isSafe (a + b)); cbn; [| exact I].
  cbn in Hn. apply Z.ltb_ge in Hn. lia.
Qed.

(** The sum of a counter and a count, inside the safe range. *)
Lemma plus_safe a b :
  isSafe a = true -> isSafe b = true -> isSafe (a + b) = true ->
  plus (Counted a) (Num b) = Counted (a + b).
Proof. intros Ha Hb Hab. cbn. rewrite Ha, Hb, Hab. reflexivity. Qed.

(** ** Tool-call interpreter *)

Lemma processCall_unknown fc h : isKnown fc = false -> processCall fc h = Normal h.
Proof. intros H. unfold processCall. rewrite H. reflexivity. Qed.

(** The test of [recordDetection], read on the list of the counts. *)
Lemma anyPositive_countsOf args :
  isPositive (count args "two_wheelers") || isPositive (count args "three_wheelers")
  || isPositive (count args "four_wheelers") || isPositive (count args "heavy_vehicles")
  = existsb isPositive (countsOf args).
Proof.
  unfold countsOf. cbn [existsb]. rewrite orb_false_r, !orb_assoc. reflexivity.
Qed.

Lemma noneNegative_countsOf args :
  existsb isNegative (countsOf args) = false ->
  isNegative (count args "two_wheelers") = false /\
  isNegative (count args "three_wheelers") = false /\
  isNegative (count args "four_wheelers") = false /\
  isNegative (count args "heavy_vehicles") = false.
Proof.
  unfold countsOf. cbn [existsb]. intros H.
  repeat (apply orb_false_elim in H; destruct H as [? H]). auto.
Qed.

Lemma processCall_monotone fc h :
  unmixedCounts fc = true ->
  counters_le (stats (react h)) (stats (react (final (processCall fc h)))).
Proof.
  unfold unmixedCounts, processCall. intros Hnn.
  destruct (isKnown fc); [| apply counters_le_refl].
  destruct (fc_args fc) as [args|]; [| apply counters_le_refl].
  cbn [negb orb] in Hnn.
  cbn [final]. rewrite react_sendToolResponse. unfold recordDetection.
  rewrite anyPositive_countsOf.
  destruct (existsb isPositive (countsOf args)); cbn [negb orb] in Hnn.
  - apply negb_true_iff in Hnn. apply noneNegative_countsOf in Hnn as (H2 & H3 & H4 & Hh).
    cbn. unfold counters_le. cbn. auto using plus_le.
  - cbn. unfold counters_le. cbn. auto using counter_le_refl.
Qed.

Lemma forEachCall_monotone calls : forall h,
  forallb unmixedCounts calls = true ->
  counters_le (stats (react h)) (stats (react (final (forEachCall calls h)))).
Proof.
  induction calls as [|fc rest IH]; intros h Hall; cbn [forEachCall].
  - apply counters_le_refl.
  - cbn [forallb] in Hall. apply andb_prop in Hall as [Hfc Hrest].
    pose proof (processCall_monotone fc h Hfc) as Hstep.
    destruct (processCall fc h) as [h'|h']; cbn [final] in *.
    + eapply counters_le_trans; [exact Hstep | apply IH; assumption].
    + exact Hstep.
Qed.

Lemma stats_stopStream_called h : stats (react (stopStream_called h)) = stats (react h).
Proof. unfold stopStream_called, closeContext. by_cases. Qed.

Lemma stats_stopStream_inputClosed h :
  stats (react (stopStream_inputClosed h)) = stats (react h).
Proof. unfold stopStream_inputClosed, closeContext. by_cases. Qed.

Lemma stats_stopStream h : stats (react (stopStream h)) = stats (react h).
Proof.
  open_stop. unfold closeContext.
  by_cases.
Qed.

Lemma stats_onTranscript msg h : stats (react (onTranscript msg h)) = stats (react h).
Proof.
  unfold onTranscript.
  by_cases.
Qed.

Lemma stats_onAudio msg t d h : stats (react (onAudio msg t d h)) = stats (react h).
Proof.
  unfold onAudio.
  by_cases.
Qed.

Lemma stats_startFailed m h : stats (react (startFailed m h)) = stats (react h).
Proof. unfold startFailed. rewrite stats_stopStream. reflexivity. Qed.

Lemma stats_startStream k h : stats (react (startStream k h)) = stats (react h).
Proof.
  unfold startStream. destruct (usableKey k); [reflexivity |].
  rewrite stats_startFailed. reflexivity.
Qed.

Lemma stats_startStream_granted s h :
  stats (react (startStream_granted s h)) = stats (react h).
Proof. unfold startStream_granted. cbn. destruct (videoRef (refs h)); reflexivity. Qed.

Lemma stats_startVideoProcessing h :
  stats (react (startVideoProcessing h)) = stats (react h).
Proof.
  unfold startVideoProcessing.
  by_cases.
Qed.

Lemma stats_onmessage_monotone msg t d h :
  unmixedEvent (SessionMessage msg t d) = true ->
  counters_le (stats (react h)) (stats (react (onmessage msg t d h))).
Proof.
  unfold unmixedEvent, onmessage. intros Hnn.
  destruct (toolCall msg) as [[calls|]|]; cbn [processToolCall].
  - pose proof (forEachCall_monotone calls h Hnn) as Hc.
    destruct (forEachCall calls h) as [h1|h1]; cbn [final] in Hc.
    + rewrite stats_onAudio, stats_onTranscript. exact Hc.
    + exact Hc.
  - rewrite stats_onAudio, stats_onTranscript. apply counters_le_refl.
  - rewrite stats_onAudio, stats_onTranscript. apply counters_le_refl.
Qed.

(** C3 (as amended).  Whenever no known call of a batch carries a
    negative count together with a positive one, every counter after an
    operation other than the reset is not below what it was before:
    both values are integers within 2^53 and the later one is at least
    the earlier one, or the later one has left the integers the model
    follows.  Each count field is coerced to a number: a missing field
    and a value that is not numeric count as 0, and a negative integer
    is kept as it is. *)
Theorem counters_never_decrease e h :
  e <> CallReset ->
  unmixedEvent e = true ->
  counters_le (stats (react h)) (stats (react (step e h))) /\
  (forall (args : gmap string JsValue) key,
      args !! key = None -> count args key = Num 0) /\
  (forall (args : gmap string JsValue) key v,
      args !! key = Some v ->
      In v [JUndefined; JNull; JObject; JNumber NaN; JBool false;
            JString ""; JString "many"; JString "12px"] ->
      count args key = Num 0) /\
  (forall (args : gmap string JsValue) key z,
      args !! key = Some (JNumber (Num z)) -> isSafe z = true ->
      count args key = Num z).
Proof.
  intros Hreset Hnn. split; [| split; [| split]].
  - destruct e; cbn [step].
    + rewrite stats_startStream. apply counters_le_refl.
    + rewrite stats_startStream_granted. apply counters_le_refl.
    + unfold startStream_denied. rewrite stats_startFailed. apply counters_le_refl.
    + unfold onopen. rewrite stats_startVideoProcessing. apply counters_le_refl.
    + apply stats_onmessage_monotone. exact Hnn.
    + apply counters_le_refl.
    + apply counters_le_refl.
    + unfold onerror. rewrite stats_stopStream. apply counters_le_refl.
    + rewrite stats_stopStream. apply counters_le_refl.
    + rewrite stats_stopStream_called. apply counters_le_refl.
    + rewrite stats_stopStream_inputClosed. apply counters_le_refl.
    + apply counters_le_refl.
    + congruence.
    + apply counters_le_refl.
  - apply count_missing.
  - intros args key v H Hv. unfold count, member. rewrite H. cbn [default].
    cbn [In] in Hv.
    repeat (destruct Hv as [<- | Hv]; [vm_compute; reflexivity |]).
    destruct Hv.
  - apply count_safe.
Qed.

Lemma counters_never_decrease_witness :
  counters_le (stats (react connectedHook))
    (stats (react (step (SessionMessage (inboundCalls [scenarioFirst (Some "call-1")]) 0 None) connectedHook))).
Proof.
  apply (counters_never_decrease
           (SessionMessage (inboundCalls [scenarioFirst (Some "call-1")]) 0 None)
           connectedHook).
  - discriminate.
  - vm_compute. reflexivity.
Defined.

(** C3, counterexample.  A call reporting -5 two-wheelers and 1
    four-wheeler keeps the negative count and lowers the two-wheeler
    counter from 0 to -5. *)
Lemma negative_count_decrements :
  unmixedCounts negativeCount = false /\
  twoWheelers (stats (react connectedHook)) = Counted 0 /\
  twoWheelers (stats (react (final (processToolCall (Some [negativeCount]) connectedHook))))
  = Counted (-5) /\
  ~ counters_le (stats (react connectedHook))
      (stats (react (final (processToolCall (Some [negativeCount]) connectedHook)))).
Proof.
  split; [vm_compute; reflexivity |].
  split; [vm_compute; reflexivity |].
  split; [vm_compute; reflexivity |].
  unfold counters_le. intros [H _]. vm_compute in H. apply H. reflexivity.
Qed.

(** A call whose counts are all negative or zero takes the branch that
    leaves the counters alone. *)
Example negative_counts_alone_change_nothing :
  let call := detection "call-1" [("two_wheelers", JNumber (Num (-5)));
                                  ("four_wheelers", JString "-1e3")] in
  unmixedCounts call = true /\
  counters (stats (react (final (processToolCall (Some [call]) connectedHook))))
  = counters (stats (react connectedHook)).
Proof. split; vm_compute; reflexivity. Qed.

(** A negative count written with an exponent is kept as well. *)
Example negative_exponent_text_decrements :
  let call := detection "call-1" [("two_wheelers", JString "-1e3");
                                  ("four_wheelers", JNumber (Num 1))] in
  unmixedCounts call = false /\
  twoWheelers (stats (react (final (processToolCall (Some [call]) connectedHook))))
  = Counted (-1000).
Proof. split; vm_compute; reflexivity. Qed.

Example coerced_counts :
  let args : gmap string JsValue :=
    list_to_map [("two_wheelers", JString "3"); ("three_wheelers", JString "a few");
                 ("four_wheelers", JBool true); ("heavy_vehicles", JNull)] in
  (count args "two_wheelers", count args "three_wheelers",
   count args "four_wheelers", count args "heavy_vehicles",
   count args "bicycles") = (Num 3, Num 0, Num 1, Num 0, Num 0).
Proof. reflexivity. Qed.

Example message_with_description :
  detectionMessage (detectionParts (Num 2) (Num 0) (Num 1) (Num 0))
    (JString "Red bus and two bikes") =
  Some "2 Bike(s), 1 Car(s) - Red bus and two bikes".
Proof. reflexivity. Qed.

(** A fraction is not rendered, and makes its counter leave the
    integers. *)
Example fraction_is_not_followed :
  let call := detection "call-1" [("two_wheelers", JString "3.5")] in
  let h := final (processToolCall (Some [call]) connectedHook) in
  twoWheelers (stats (react h)) = Untracked /\
  fourWheelers (stats (react h)) = Counted 0 /\
  option_map log_message (head (logs (react h))) = Some Unrendered.
Proof. repeat split; vm_compute; reflexivity. Qed.

Example empty_batch h :
  processToolCall None h = Normal h /\ processToolCall (Some []) h = Normal h.
Proof. split; reflexivity. Qed.

(** A known call without [args] stops the batch: the calls after it
    are neither applied nor acknowledged. *)
Example missing_args_abort_batch :
  let noArgs := {| fc_id := Some "call-1"; fc_name := Some TOOL_NAME; fc_args := None |} in
  processToolCall (Some [noArgs; scenarioFirst (Some "call-2")]) connectedHook =
  Throw connectedHook.
Proof. reflexivity. Qed.
Lemma processCall_known fc args h :
  isKnown fc = true -> fc_args fc = Some args ->
  processCall fc h =
  Normal
    (sendToolResponse (acknowledgment fc)
       (recordDetection
          (count args "two_wheelers") (count args "three_wheelers")
          (count args "four_wheelers") (count args "heavy_vehicles")
          (densityOf args) (member args "description") h)).
Proof. intros Hk Ha. unfold processCall. rewrite Hk, Ha. reflexivity. Qed.

Lemma recordDetection_zero d desc h :
  recordDetection (Num 0) (Num 0) (Num 0) (Num 0) d desc h = setStats (withDensity d) h.
Proof. reflexivity. Qed.

Lemma recordDetection_positive n2 n3 n4 nh d desc h :
  isPositive n2 || isPositive n3 || isPositive n4 || isPositive nh = true ->
  recordDetection n2 n3 n4 nh d desc h =
  addLog (detectionLine (detectionMessage (detectionParts n2 n3 n4 nh) desc))
    LogVehicle
    (setStats (addDetections n2 n3 n4 nh d (wallClock (browser h))) h).
Proof. intros Hpos. unfold recordDetection. rewrite Hpos. reflexivity. Qed.

Lemma refs_recordDetection n2 n3 n4 nh d desc h :
  refs (recordDetection n2 n3 n4 nh d desc h) = refs h.
Proof. unfold recordDetection. destruct (_ || _); reflexivity. Qed.

Lemma toolResponses_recordDetection n2 n3 n4 nh d desc h :
  toolResponses (browser (recordDetection n2 n3 n4 nh d desc h)) =
  toolResponses (browser h).
Proof. unfold recordDetection. destruct (_ || _); reflexivity. Qed.

(** C4.  A known call whose count fields are all zero after coercion
    replaces the density, by the argument of the call or by LOW when
    that is absent or falsy, and nothing else of the statistics: the
    four counters, the timestamp and the log are as before, so no
    vehicle entry is added. *)
Theorem zero_counts_change_only_density fc args h :
  isKnown fc = true ->
  fc_args fc = Some args ->
  count args "two_wheelers" = Num 0 ->
  count args "three_wheelers" = Num 0 ->
  count args "four_wheelers" = Num 0 ->
  count args "heavy_vehicles" = Num 0 ->
  exists h',
    processToolCall (Some [fc]) h = Normal h' /\
    density (stats (react h')) =
      (if truthy (member args "traffic_density")
       then member args "traffic_density" else JString "LOW") /\
    counters (stats (react h')) = counters (stats (react h)) /\
    lastUpdated (stats (react h')) = lastUpdated (stats (react h)) /\
    logs (react h') = logs (react h).
Proof.
  intros Hk Ha H2 H3 H4 Hh.
  cbn [processToolCall forEachCall].
  rewrite (processCall_known fc args h Hk Ha), H2, H3, H4, Hh, recordDetection_zero.
  eexists. split; [reflexivity |].
  rewrite react_sendToolResponse. repeat split.
Qed.

Lemma zero_counts_change_only_density_witness :
  exists h',
    processToolCall
      (Some [detection "call-1" [("two_wheelers", JString "none");
                                 ("four_wheelers", JString "0e0");
                                 ("traffic_density", JString "HIGH")]])
      connectedHook = Normal h' /\
    density (stats (react h')) = JString "HIGH" /\
    counters (stats (react h')) = counters (stats (react connectedHook)) /\
    lastUpdated (stats (react h')) = lastUpdated (stats (react connectedHook)) /\
    logs (react h') = logs (react connectedHook).
Proof.
  exact (zero_counts_change_only_density
           (detection "call-1" [("two_wheelers", JString "none");
                                ("four_wheelers", JString "0e0");
                                ("traffic_density", JString "HIGH")])
           (list_to_map [("two_wheelers", JString "none");
                         ("four_wheelers", JString "0e0");
                         ("traffic_density", JString "HIGH")]) connectedHook
           eq_refl eq_refl eq_refl eq_refl eq_refl eq_refl).
Defined.

(** A count written with an exponent is a number, and positive: the
    call is a detection. *)
Example exponent_text_is_a_detection :
  let call := detection "call-1" [("two_wheelers", JString "1e3")] in
  let h := final (processToolCall (Some [call]) connectedHook) in
  counters (stats (react h)) = (Counted 1000, Counted 0, Counted 0, Counted 0) /\
  option_map log_message (head (logs (react h))) = Some (Text "Detected: 1000 Bike(s)").
Proof. split; vm_compute; reflexivity. Qed.

Lemma refs_processCall fc h : refs (final (processCall fc h)) = refs h.
Proof.
  unfold processCall. destruct (isKnown fc); [| reflexivity].
  destruct (fc_args fc); [| reflexivity].
  cbn [final]. rewrite refs_sendToolResponse. apply refs_recordDetection.
Qed.

Lemma forEachCall_app calls1 calls2 : forall h h1,
  forEachCall calls1 h = Normal h1 ->
  forEachCall (calls1 ++ calls2) h = forEachCall calls2 h1.
Proof.
  induction calls1 as [|fc rest IH]; intros h h1 Hrun; cbn [forEachCall app] in *.
  - congruence.
  - destruct (processCall fc h) as [h'|h']; [| discriminate].
    apply IH. exact Hrun.
Qed.

Lemma forEachCall_acknowledges calls : forall h s,
  sessionPromiseRef (refs h) = Some s ->
  forallb hasArgs calls = true ->
  exists h',
    forEachCall calls h = Normal h' /\
    toolResponses (browser h') =
    toolResponses (browser h) ++
      map (fun fc => (s, acknowledgment fc)) (List.filter isKnown calls).
Proof.
  induction calls as [|fc rest IH]; intros h s Hs Hall; cbn [forEachCall List.filter].
  - exists h. split; [reflexivity |]. cbn [map]. rewrite app_nil_r. reflexivity.
  - cbn [forallb] in Hall. apply andb_prop in Hall as [Hfc Hrest].
    unfold hasArgs in Hfc.
    pose proof (refs_processCall fc h) as Hrefs.
    destruct (isKnown fc) eqn:Hk.
    + cbn [negb orb] in Hfc. apply bool_decide_eq_true in Hfc.
      destruct (fc_args fc) as [args|] eqn:Ha; [| congruence].
      rewrite (processCall_known fc args h Hk Ha) in *. cbn [final] in Hrefs.
      destruct (IH _ s (eq_trans (f_equal sessionPromiseRef Hrefs) Hs) Hrest)
        as (h' & Hrun & Hsent).
      exists h'. split; [exact Hrun |].
      rewrite Hsent, (sendToolResponse_session _ _ s).
      * rewrite toolResponses_recordDetection. cbn [map].
        rewrite <- app_assoc. reflexivity.
      * rewrite refs_recordDetection. exact Hs.
    + rewrite (processCall_unknown fc h Hk). apply IH; assumption.
Qed.

(** C6 (as amended).  While a session handle is held and every known
    call of the batch carries an argument object, the calls are
    processed in array order without an exception and exactly one
    acknowledgment, echoing the identifier and the name with the
    payload OK, is sent for each call named [report_vehicle_detection],
    in array order and whatever its counts; a call with another name is
    ignored without error and is not acknowledged. *)
Theorem one_acknowledgment_per_known_call calls h s :
  sessionPromiseRef (refs h) = Some s ->
  forallb hasArgs calls = true ->
  (exists h',
      processToolCall (Some calls) h = Normal h' /\
      toolResponses (browser h') =
      toolResponses (browser h) ++
        map (fun fc => (s, acknowledgment fc)) (List.filter isKnown calls)) /\
  (forall fc, fr_id (acknowledgment fc) = fc_id fc /\
              fr_name (acknowledgment fc) = fc_name fc /\
              fr_result (acknowledgment fc) = "OK") /\
  (forall fc h0, isKnown fc = false -> processCall fc h0 = Normal h0) /\
  (forall calls1 calls2 h1,
      calls = calls1 ++ calls2 ->
      forEachCall calls1 h = Normal h1 ->
      processToolCall (Some calls) h = forEachCall calls2 h1).
Proof.
  intros Hs Hall. repeat split.
  - cbn [processToolCall]. apply forEachCall_acknowledges; assumption.
  - intros fc h0. apply processCall_unknown.
  - intros calls1 calls2 h1 -> Hrun. cbn [processToolCall].
    apply forEachCall_app. exact Hrun.
Qed.

Lemma one_acknowledgment_per_known_call_witness :
  exists h',
    processToolCall (Some [scenarioFirst (Some "call-1"); unknownCall; scenarioSecond (Some "call-2")]) connectedHook = Normal h' /\
    toolResponses (browser h') =
    toolResponses (browser connectedHook) ++
      [(3%positive, acknowledgment (scenarioFirst (Some "call-1"))); (3%positive, acknowledgment (scenarioSecond (Some "call-2")))].
Proof.
  exact (proj1 (one_acknowledgment_per_known_call
                  [scenarioFirst (Some "call-1"); unknownCall; scenarioSecond (Some "call-2")] connectedHook 3%positive
                  eq_refl eq_refl)).
Defined.

(** C6, counterexample.  A batch of one call with a name other than
    [report_vehicle_detection], delivered while a session is held: no
    response is sent, although one call was received. *)
Lemma unknown_call_not_acknowledged :
  sessionPromiseRef (refs connectedHook) = Some 3%positive /\
  responsesSince connectedHook
    (final (processToolCall (Some [unknownCall]) connectedHook)) = [] /\
  responsesSince connectedHook
    (final (processToolCall (Some [unknownCall]) connectedHook))
  <> map acknowledgment [unknownCall].
Proof.
  split; [reflexivity |]. split; [reflexivity |].
  vm_compute. discriminate.
Qed.

(** The effect of a call that reports at least one vehicle. *)
Lemma detection_adds_deltas fc args h :
  isKnown fc = true ->
  fc_args fc = Some args ->
  existsb isPositive (countsOf args) = true ->
  exists h' entry,
    processCall fc h = Normal h' /\
    stats (react h') =
      addDetections (count args "two_wheelers") (count args "three_wheelers")
        (count args "four_wheelers") (count args "heavy_vehicles")
        (densityOf args) (wallClock (browser h)) (stats (react h)) /\
    logs (react h') = entry :: take 49 (logs (react h)) /\
    log_type entry = LogVehicle.
Proof.
  intros Hk Ha Hpos. rewrite <- anyPositive_countsOf in Hpos.
  rewrite (processCall_known fc args h Hk Ha).
  rewrite (recordDetection_positive _ _ _ _ _ _ _ Hpos).
  eexists. eexists. split; [reflexivity |].
  rewrite react_sendToolResponse. cbn. repeat split.
Qed.

(** C5.  From statistics whose counters are all zero, the calls
    {two:2, four:1} and {two:1, three:0, four:0, heavy:3} in one batch
    leave the counters at 3, 0, 1 and 3 and the density at LOW, which
    neither call replaces, put exactly two vehicle entries at the head
    of the log, one per call, and send exactly two acknowledgments, one
    per call and in call order.  In general a known call with a
    positive count adds each of its four deltas to its counter (the sum
    is the sum of the integers while counter, delta and sum are within
    2^53), overwrites the density by its argument or by LOW, stamps the
    statistics with the current time and adds one vehicle entry, in one
    update. *)
Theorem aggregation_of_two_calls :
  (forall h s id1 id2,
      counters (stats (react h)) = (Counted 0, Counted 0, Counted 0, Counted 0) ->
      sessionPromiseRef (refs h) = Some s ->
      exists h' e1 e2,
        processToolCall (Some [scenarioFirst id1; scenarioSecond id2]) h = Normal h' /\
        counters (stats (react h')) = (Counted 3, Counted 0, Counted 1, Counted 3) /\
        density (stats (react h')) = JString "LOW" /\
        lastUpdated (stats (react h')) = wallClock (browser h) /\
        logs (react h') = e2 :: take 49 (e1 :: take 49 (logs (react h))) /\
        (log_type e1, log_message e1) =
          (LogVehicle, Text "Detected: 2 Bike(s), 1 Car(s)") /\
        (log_type e2, log_message e2) =
          (LogVehicle, Text "Detected: 1 Bike(s), 3 Truck/Bus") /\
        toolResponses (browser h') =
          toolResponses (browser h) ++
            [(s, {| fr_id := id1; fr_name := Some TOOL_NAME; fr_result := "OK" |});
             (s, {| fr_id := id2; fr_name := Some TOOL_NAME; fr_result := "OK" |})]) /\
  (forall fc args h,
      isKnown fc = true ->
      fc_args fc = Some args ->
      existsb isPositive (countsOf args) = true ->
      exists h' entry,
        processCall fc h = Normal h' /\
        (forall field key a d,
            In (field, key)
              [(twoWheelers, "two_wheelers"); (threeWheelers, "three_wheelers");
               (fourWheelers, "four_wheelers"); (heavyVehicles, "heavy_vehicles")] ->
            field (stats (react h)) = Counted a ->
            count args key = Num d ->
            isSafe a = true -> isSafe d = true -> isSafe (a + d) = true ->
            field (stats (react h')) = Counted (a + d)) /\
        density (stats (react h')) =
          (if truthy (member args "traffic_density")
           then member args "traffic_density" else JString "LOW") /\
        lastUpdated (stats (react h')) = wallClock (browser h) /\
        logs (react h') = entry :: take 49 (logs (react h)) /\
        log_type entry = LogVehicle).
Proof.
  split.
  2:{ intros fc args h Hk Ha Hpos.
      destruct (detection_adds_deltas fc args h Hk Ha Hpos)
        as (h' & entry & Hrun & Hstats & Hlogs & Htype).
      exists h', entry. split; [exact Hrun |].
      split; [| rewrite Hstats; repeat split; assumption].
      intros field key a d Hin Ha0 Hd Sa Sd Sad. rewrite Hstats.
      cbn [In] in Hin.
      repeat (destruct Hin as [Hin | Hin];
              [injection Hin as <- <-; cbn; rewrite Ha0, Hd; apply plus_safe; assumption |]).
      destruct Hin. }
  intros h s id1 id2 Hzero Hs.
  unfold counters in Hzero. injection Hzero as H2 H3 H4 Hh.
  cbn [processToolCall forEachCall].
  rewrite (processCall_known (scenarioFirst id1) _ h eq_refl eq_refl).
  change (count _ "two_wheelers") with (Num 2).
  change (count _ "three_wheelers") with (Num 0).
  change (count _ "four_wheelers") with (Num 1).
  change (count _ "heavy_vehicles") with (Num 0).
  change (densityOf _) with (JString "LOW").
  change (member _ "description") with JUndefined.
  rewrite (recordDetection_positive (Num 2) (Num 0) (Num 1) (Num 0)) by reflexivity.
  rewrite (processCall_known (scenarioSecond id2) _ _ eq_refl eq_refl).
  change (count _ "two_wheelers") with (Num 1).
  change (count _ "three_wheelers") with (Num 0).
  change (count _ "four_wheelers") with (Num 0).
  change (count _ "heavy_vehicles") with (Num 3).
  change (densityOf _) with (JString "LOW").
  change (member _ "description") with JUndefined.
  rewrite (recordDetection_positive (Num 1) (Num 0) (Num 0) (Num 3)) by reflexivity.
  eexists. eexists. eexists. split; [reflexivity |].
  rewrite react_sendToolResponse.
  split.
  { cbn -[plus]. rewrite react_sendToolResponse. cbn -[plus].
    unfold counters. cbn -[plus]. rewrite H2, H3, H4, Hh. reflexivity. }
  split; [reflexivity |].
  split.
  { cbn. unfold sendToolResponse. cbn. rewrite Hs. reflexivity. }
  split.
  { cbn. rewrite react_sendToolResponse. cbn. reflexivity. }
  split; [reflexivity |]. split; [reflexivity |].
  rewrite (sendToolResponse_session _ _ s).
  2:{ cbn. rewrite refs_sendToolResponse. exact Hs. }
  cbn. rewrite (sendToolResponse_session _ _ s) by exact Hs.
  cbn. rewrite <- app_assoc. reflexivity.
Qed.

Lemma aggregation_of_two_calls_witness :
  exists h' e1 e2,
    processToolCall
      (Some [scenarioFirst (Some "call-1"); scenarioSecond (Some "call-2")])
      connectedHook = Normal h' /\
    counters (stats (react h')) = (Counted 3, Counted 0, Counted 1, Counted 3) /\
    density (stats (react h')) = JString "LOW" /\
    lastUpdated (stats (react h')) = wallClock (browser connectedHook) /\
    logs (react h') = e2 :: take 49 (e1 :: take 49 (logs (react connectedHook))) /\
    (log_type e1, log_message e1) = (LogVehicle, Text "Detected: 2 Bike(s), 1 Car(s)") /\
    (log_type e2, log_message e2) = (LogVehicle, Text "Detected: 1 Bike(s), 3 Truck/Bus") /\
    toolResponses (browser h') =
      toolResponses (browser connectedHook) ++
        [(3%positive,
          {| fr_id := Some "call-1"; fr_name := Some TOOL_NAME; fr_result := "OK" |});
         (3%positive,
          {| fr_id := Some "call-2"; fr_name := Some TOOL_NAME; fr_result := "OK" |})].
Proof.
  exact (proj1 aggregation_of_two_calls connectedHook 3%positive
           (Some "call-1") (Some "call-2") eq_refl eq_refl).
Defined.

(** A sum that leaves the integers within 2^53 is not followed. *)
Example sum_beyond_the_safe_range :
  let call := detection "call-1" [("two_wheelers", JNumber (Num (2 ^ 53)))] in
  let h := final (processToolCall (Some [call]) connectedHook) in
  twoWheelers (stats (react h)) = Counted (2 ^ 53) /\
  twoWheelers (stats (react (final (processToolCall (Some [scenarioFirst None]) h))))
  = Untracked.
Proof. split; vm_compute; reflexivity. Qed.

Lemma density_recordDetection n2 n3 n4 nh d desc h :
  density (stats (react (recordDetection n2 n3 n4 nh d desc h))) = d.
Proof. unfold recordDetection. destruct (_ || _); reflexivity. Qed.

Lemma isDensity_LOW : isDensity (JString "LOW") = true.
Proof. reflexivity. Qed.

(** C10 (as amended).  The density argument of a known call is not
    checked against the enumeration.  An absent or falsy argument
    ([undefined], [null], the empty string, 0, [NaN], [false]) makes
    the stored density LOW; any other value is stored as it came.  So
    the density field is one of LOW, MEDIUM and HIGH after the call
    whenever the argument was absent, falsy or one of the three. *)
Theorem density_defaults_only_when_falsy fc args h :
  isKnown fc = true ->
  fc_args fc = Some args ->
  exists h',
    processCall fc h = Normal h' /\
    density (stats (react h')) =
      (if truthy (member args "traffic_density")
       then member args "traffic_density" else JString "LOW") /\
    (args !! "traffic_density" = None ->
     density (stats (react h')) = JString "LOW") /\
    (truthy (member args "traffic_density") = false \/
     isDensity (member args "traffic_density") = true ->
     isDensity (density (stats (react h'))) = true).
Proof.
  intros Hk Ha. rewrite (processCall_known fc args h Hk Ha).
  eexists. split; [reflexivity |].
  rewrite react_sendToolResponse, density_recordDetection.
  unfold densityOf, or_else.
  split; [reflexivity |]. split.
  - intros Hnone. unfold member. rewrite Hnone. reflexivity.
  - intros [Hfalsy | Hvalid].
    + rewrite Hfalsy. reflexivity.
    + destruct (truthy _); [exact Hvalid | reflexivity].
Qed.

Lemma density_defaults_only_when_falsy_witness :
  exists h',
    processCall mediumDensity connectedHook = Normal h' /\
    density (stats (react h')) = JString "MEDIUM".
Proof.
  destruct (density_defaults_only_when_falsy mediumDensity
              (list_to_map [("two_wheelers", JNumber (Num 1));
                            ("traffic_density", JString "MEDIUM")])
              connectedHook eq_refl eq_refl) as (h' & Hrun & Hd & _).
  exists h'. split; [exact Hrun | exact Hd].
Defined.

(** C10, counterexample.  A known call whose density argument is the
    text EXTREME: the statistics then hold EXTREME, which is none of
    the three values, instead of LOW. *)
Lemma invalid_density_is_stored :
  density (stats (react (final (processToolCall (Some [extremeDensity]) connectedHook))))
    = JString "EXTREME" /\
  isDensity
    (density (stats (react (final (processToolCall (Some [extremeDensity]) connectedHook)))))
    = false.
Proof. split; reflexivity. Qed.

(** ** [resetAnalysis] *)

(** C7 (as amended).  After [resetAnalysis], whatever was detected
    before, the four counters are 0, the density is LOW and the log
    holds exactly one entry, the information line "Statistics reset"
    written after the log was cleared; the stream state and the session
    handle are as before. *)
Theorem reset_leaves_one_log_entry h :
  counters (stats (react (resetAnalysis h))) =
    (Counted 0, Counted 0, Counted 0, Counted 0) /\
  density (stats (react (resetAnalysis h))) = JString "LOW" /\
  (exists entry,
      logs (react (resetAnalysis h)) = [entry] /\
      log_message entry = Text "Statistics reset" /\
      log_type entry = LogInfo) /\
  streamState (react (resetAnalysis h)) = streamState (react h) /\
  sessionPromiseRef (refs (resetAnalysis h)) = sessionPromiseRef (refs h).
Proof.
  repeat split. eexists. repeat split.
Qed.

(** C7, counterexample.  Resetting a hook that has just been mounted
    leaves a log of length one, not an empty log. *)
Lemma reset_log_not_empty :
  logs (react (resetAnalysis mountedHook)) <> [] /\
  length (logs (react (resetAnalysis mountedHook))) = 1%nat.
Proof. split; [discriminate | reflexivity]. Qed.

(** ** [stopStream] *)

Lemma closeContext_react ctx h : react (closeContext ctx h) = react h.
Proof.
  unfold closeContext. destruct ctx as [c|]; [| reflexivity].
  destruct (decide _); reflexivity.
Qed.

Lemma closeContext_refs ctx h : refs (closeContext ctx h) = refs h.
Proof.
  unfold closeContext. destruct ctx as [c|]; [| reflexivity].
  destruct (decide _); reflexivity.
Qed.

Lemma removed_not_in (X : gset positive) c : c ∉ X ∖ {[c]}.
Proof. intros [_ Hout]%elem_of_difference. apply Hout, elem_of_singleton. reflexivity. Qed.

Lemma removed_stays_out (X : gset positive) c d : c ∉ X -> c ∉ X ∖ {[d]}.
Proof. intros Hout [Hin _]%elem_of_difference. exact (Hout Hin). Qed.

Lemma remove_absent (X : gset positive) c : c ∉ X -> X = X ∖ {[c]}.
Proof.
  intros Hout. apply set_eq. intros x. rewrite elem_of_difference, elem_of_singleton.
  split; [| tauto]. intros Hin. split; [exact Hin |]. intros ->. exact (Hout Hin).
Qed.

Lemma stopped_not_live (X : gset positive) (l : list positive) t :
  t ∈ l -> t ∉ X ∖ list_to_set l.
Proof.
  intros Hin [_ Hout]%elem_of_difference. apply Hout, elem_of_list_to_set. exact Hin.
Qed.

Lemma closeContext_open ctx h :
  openContexts (browser (closeContext ctx h)) =
  match ctx with
  | Some c => openContexts (browser h) ∖ {[c]}
  | None => openContexts (browser h)
  end.
Proof.
  unfold closeContext. destruct ctx as [c|]; [| reflexivity].
  destruct (decide _) as [Hin | Hout]; [reflexivity |].
  apply remove_absent. exact Hout.
Qed.

Lemma closeContext_closed ctx h :
  (forall c, ctx = Some c -> c ∉ openContexts (browser h)) ->
  closeContext ctx h = h.
Proof.
  intros Hclosed. unfold closeContext. destruct ctx as [c|]; [| reflexivity].
  destruct (decide _) as [Hin | Hout]; [| reflexivity].
  exfalso. exact (Hclosed c eq_refl Hin).
Qed.

Lemma closeContext_timers ctx h :
  activeTimers (browser (closeContext ctx h)) = activeTimers (browser h).
Proof.
  unfold closeContext. destruct ctx as [c|]; [| reflexivity].
  destruct (decide _); reflexivity.
Qed.

Lemma closeContext_tracks ctx h :
  liveTracks (browser (closeContext ctx h)) = liveTracks (browser h).
Proof.
  unfold closeContext. destruct ctx as [c|]; [| reflexivity].
  destruct (decide _); reflexivity.
Qed.

(** What [stopStream] leaves in the refs. *)
Lemma stopStream_refs h :
  refs (stopStream h) =
  {| videoRef :=
       match videoRef (refs h) with
       | Some _ => Some {| srcObject := None |}
       | None => None
       end;
     canvasRef := canvasRef (refs h);
     sessionPromiseRef := sessionPromiseRef (refs h);
     streamRef := None;
     frameIntervalRef := None;
     currentTranscriptRef := currentTranscriptRef (refs h);
     inputAudioContextRef := inputAudioContextRef (refs h);
     outputAudioContextRef := outputAudioContextRef (refs h);
     nextStartTimeRef := nextStartTimeRef (refs h) |}.
Proof.
  open_stop. cbn. rewrite !closeContext_refs.
  destruct h as [r [v cv sp st fi ct ic oc ns] b]; cbn.
  destruct st, v, fi; reflexivity.
Qed.

Lemma stopStream_open h :
  openContexts (browser (stopStream h)) =
  match outputAudioContextRef (refs h) with
  | Some c => fun s => s ∖ {[c]}
  | None => fun s => s
  end
    (match inputAudioContextRef (refs h) with
     | Some c => openContexts (browser h) ∖ {[c]}
     | None => openContexts (browser h)
     end).
Proof.
  open_stop. cbn. rewrite closeContext_open, closeContext_refs, closeContext_open.
  destruct h as [r [v cv sp st fi ct ic oc ns] b]; cbn.
  destruct st, v, fi, ic, oc; reflexivity.
Qed.

Lemma stopStream_timers h :
  activeTimers (browser (stopStream h)) =
  match frameIntervalRef (refs h) with
  | Some t => activeTimers (browser h) ∖ {[t]}
  | None => activeTimers (browser h)
  end.
Proof.
  open_stop. cbn. rewrite !closeContext_timers.
  destruct h as [r [v cv sp st fi ct ic oc ns] b]; cbn.
  destruct st, v, fi; reflexivity.
Qed.

Lemma stopStream_tracks h :
  liveTracks (browser (stopStream h)) =
  match streamRef (refs h) with
  | Some s => liveTracks (browser h) ∖ list_to_set (getTracks s)
  | None => liveTracks (browser h)
  end.
Proof.
  open_stop. cbn. rewrite !closeContext_tracks.
  destruct h as [r [v cv sp st fi ct ic oc ns] b]; cbn.
  destruct st, v, fi; reflexivity.
Qed.

Lemma stopStream_react h :
  react (stopStream h) =
  {| streamState := IDLE;
     stats := stats (react h);
     logs :=
       {| log_id := randomDraws (browser h); log_time := wallClock (browser h);
          log_message := Text "Analysis stopped"; log_type := LogInfo |}
       :: take 49 (logs (react h));
     volume := 0;
     facingMode := facingMode (react h);
     error := None |}.
Proof.
  open_stop. unfold closeContext.
  destruct h as [r [v cv sp st fi ct ic oc ns] b]; cbn.
  destruct st, v, fi, ic, oc; cbn;
    repeat (match goal with |- context [decide ?P] => destruct (decide P) end; cbn);
    reflexivity.
Qed.

Lemma stopStream_tornDown h : tornDown (stopStream h).
Proof.
  unfold tornDown. rewrite stopStream_refs, stopStream_react, stopStream_open. cbn.
  repeat split.
  - intros v Hv. destruct (videoRef (refs h)); [| discriminate].
    injection Hv as <-. reflexivity.
  - intros c ->. destruct (outputAudioContextRef (refs h)) as [d|].
    + apply removed_stays_out, removed_not_in.
    + apply removed_not_in.
  - intros c ->. apply removed_not_in.
Qed.

Lemma stop_when_tornDown h :
  tornDown h -> stopStream h = addLog (Text "Analysis stopped") LogInfo h.
Proof.
  intros (Hs & Hv & Ht & Hi & Ho & Hvol & Herr & Hst).
  open_stop. rewrite Hs.
  destruct h as [[ss sts lg vol fm er] [v cv sp st fi ct ic oc ns] b]; cbn in *.
  subst. destruct v as [[src]|]; cbn.
  - pose proof (Hv _ eq_refl) as Hsrc. cbn in Hsrc. subst src.
    rewrite (closeContext_closed ic) by exact Hi.
    rewrite (closeContext_closed oc) by exact Ho.
    reflexivity.
  - rewrite (closeContext_closed ic) by exact Hi.
    rewrite (closeContext_closed oc) by exact Ho.
    reflexivity.
Qed.

Lemma teardownOf_addLog m t h : teardownOf (addLog m t h) = teardownOf h.
Proof. reflexivity. Qed.

(** C9 (as amended).  After one [stopStream], from any state: the
    tracks of the held stream are stopped and the stream handle is
    null, the video element shows no source, the frame timer is
    cancelled and its handle null, both audio contexts are closed
    (nothing is done to one already closed), the volume is 0, the error
    is cleared and the state is Idle.  The playback clock
    [nextStartTimeRef] is not reset: it keeps its value.  A second
    [stopStream] changes none of this; it only adds one more
    "Analysis stopped" line to the log. *)
Theorem stop_is_idempotent h :
  (forall s t, streamRef (refs h) = Some s -> t ∈ getTracks s ->
               t ∉ liveTracks (browser (stopStream h))) /\
  streamRef (refs (stopStream h)) = None /\
  (forall v, videoRef (refs (stopStream h)) = Some v -> srcObject v = None) /\
  (forall t, frameIntervalRef (refs h) = Some t ->
             t ∉ activeTimers (browser (stopStream h))) /\
  frameIntervalRef (refs (stopStream h)) = None /\
  (forall c, inputAudioContextRef (refs h) = Some c \/
             outputAudioContextRef (refs h) = Some c ->
             c ∉ openContexts (browser (stopStream h))) /\
  volume (react (stopStream h)) = 0 /\
  error (react (stopStream h)) = None /\
  streamState (react (stopStream h)) = IDLE /\
  nextStartTimeRef (refs (stopStream h)) = nextStartTimeRef (refs h) /\
  stopStream (stopStream h) = addLog (Text "Analysis stopped") LogInfo (stopStream h) /\
  teardownOf (stopStream (stopStream h)) = teardownOf (stopStream h).
Proof.
  pose proof (stopStream_tornDown h) as Htd.
  pose proof (stop_when_tornDown _ Htd) as Hagain.
  destruct Htd as (Hs & Hv & Ht & Hi & Ho & Hvol & Herr & Hst).
  repeat split; try assumption.
  - intros s t Hstream Hin. rewrite stopStream_tracks, Hstream.
    apply stopped_not_live. exact Hin.
  - intros t Htimer. rewrite stopStream_timers, Htimer. apply removed_not_in.
  - intros c [Hc | Hc]; rewrite stopStream_open, Hc.
    + destruct (outputAudioContextRef (refs h)) as [d|].
      * apply removed_stays_out, removed_not_in.
      * apply removed_not_in.
    + apply removed_not_in.
  - rewrite stopStream_refs. reflexivity.
  - rewrite Hagain. apply teardownOf_addLog.
Qed.

Lemma stop_is_idempotent_witness :
  (1%positive ∉ liveTracks (browser (stopStream playingHook))) /\
  (2%positive ∉ liveTracks (browser (stopStream playingHook))).
Proof.
  split.
  - exact (proj1 (stop_is_idempotent playingHook)
             {| getTracks := [1; 2]%positive |} 1%positive eq_refl
             (list_elem_of_here 1%positive [2%positive])).
  - exact (proj1 (stop_is_idempotent playingHook)
             {| getTracks := [1; 2]%positive |} 2%positive eq_refl
             (list_elem_of_further 2%positive 1%positive [2%positive]
                (list_elem_of_here 2%positive []))).
Defined.

(** C9, counterexample.  A hook that has scheduled one second of speech
    has its playback clock at 24000 frames, and [stopStream] leaves it
    there instead of resetting it to zero. *)
Lemma stop_keeps_playback_clock :
  nextStartTimeRef (refs playingHook) = 24000 /\
  nextStartTimeRef (refs (stopStream playingHook)) = 24000 /\
  nextStartTimeRef (refs (stopStream playingHook)) <> 0.
Proof. split; [reflexivity |]. split; [reflexivity | discriminate]. Qed.

(** ** Session errors *)

(** C1.  What [onerror] does with a remote error of message [m]: it
    writes one error line and one "Analysis stopped" line to the log
    and tears everything down through [stopStream], which also puts
    the stream state back to Idle and clears the error message that
    [onerror] had just set.  The run below is the failing input
    [SessionError "boom"] on a connected hook. *)
Theorem remote_error_ends_idle :
  (forall m h,
      streamState (react (onerror m h)) = IDLE /\
      error (react (onerror m h)) = None /\
      (exists e1 e2,
          logs (react (onerror m h)) = e2 :: take 49 (e1 :: take 49 (logs (react h))) /\
          (log_type e1, log_message e1) =
            (LogError,
             Text ("Error: " +:+
                   messageOr m "Connection failed. Check API Key or Network.")) /\
          (log_type e2, log_message e2) = (LogInfo, Text "Analysis stopped")) /\
      tornDown (onerror m h)) /\
  streamState (react (step (SessionError "boom") connectedHook)) = IDLE /\
  error (react (step (SessionError "boom") connectedHook)) = None /\
  streamState (react (step (SessionError "boom") connectedHook)) <> ERROR /\
  error (react (step (SessionError "boom") connectedHook)) <> Some "boom".
Proof.
  split.
  - intros m h. unfold onerror.
    split; [rewrite stopStream_react; reflexivity |].
    split; [rewrite stopStream_react; reflexivity |].
    split; [| apply stopStream_tornDown].
    rewrite stopStream_react. cbn.
    eexists. eexists. repeat split.
  - split; [reflexivity |]. split; [reflexivity |]. split; discriminate.
Qed.

(** ** Stopping before the session opens *)

Lemma empty_without (X : gset positive) (Y : gset positive) : X = ∅ -> X ∖ Y = ∅.
Proof.
  intros ->. apply set_eq. intros x. rewrite elem_of_difference.
  split; [intros [Hin _]; exact Hin | intros Hin; exfalso; exact (not_elem_of_empty x Hin)].
Qed.

Lemma all_removed (l : list positive) :
  (list_to_set l ∪ ∅ : gset positive) ∖ list_to_set l = ∅.
Proof.
  apply set_eq. intros x. rewrite elem_of_difference, elem_of_union.
  split; [| intros Hin; exfalso; exact (not_elem_of_empty x Hin)].
  intros [[Hin | Hin] Hout]; [exfalso; exact (Hout Hin) | exact Hin].
Qed.

Lemma pair_removed (c d : positive) :
  (({[d]} ∪ ({[c]} ∪ ∅)) ∖ {[c]} : gset positive) ∖ {[d]} = ∅.
Proof.
  apply set_eq. intros x.
  rewrite !elem_of_difference, !elem_of_union, !elem_of_singleton.
  split; [| intros Hin; exfalso; exact (not_elem_of_empty x Hin)].
  intros [[[Hd | [Hc | Hin]] Hnc] Hnd]; [tauto | tauto | exact Hin].
Qed.

Lemma started_then_granted key s h :
  usableKey key = true ->
  let h2 := startStream_granted s (startStream key h) in
  streamState (react h2) = CONNECTING /\
  streamRef (refs h2) = Some s /\
  frameIntervalRef (refs h2) = frameIntervalRef (refs h) /\
  inputAudioContextRef (refs h2) = Some (nextHandle (browser h)) /\
  outputAudioContextRef (refs h2) = Some (Pos.succ (nextHandle (browser h))) /\
  liveTracks (browser h2) = list_to_set (getTracks s) ∪ liveTracks (browser h) /\
  activeTimers (browser h2) = activeTimers (browser h) /\
  openContexts (browser h2) =
    {[Pos.succ (nextHandle (browser h))]} ∪
      ({[nextHandle (browser h)]} ∪ openContexts (browser h)).
Proof.
  intros Hkey. unfold startStream. rewrite Hkey. unfold startStream_granted. cbn.
  destruct (videoRef (refs h)); cbn; repeat split.
Qed.

(** The parts of a [stopStream] that waits for the audio contexts. *)
Lemma stopStream_called_react h : react (stopStream_called h) = react h.
Proof.
  unfold stopStream_called. rewrite closeContext_react.
  by_cases.
Qed.

Lemma stopStream_inputClosed_react h : react (stopStream_inputClosed h) = react h.
Proof. apply closeContext_react. Qed.

Lemma stopStream_inputClosed_refs h : refs (stopStream_inputClosed h) = refs h.
Proof. apply closeContext_refs. Qed.

Lemma stopStream_inputClosed_timers h :
  activeTimers (browser (stopStream_inputClosed h)) = activeTimers (browser h).
Proof. apply closeContext_timers. Qed.

Lemma stopStream_outputClosed_state h :
  streamState (react (stopStream_outputClosed h)) = IDLE.
Proof. reflexivity. Qed.

Lemma stopStream_outputClosed_timers h :
  activeTimers (browser (stopStream_outputClosed h)) = activeTimers (browser h).
Proof. reflexivity. Qed.

Lemma react_startVideoProcessing h : react (startVideoProcessing h) = react h.
Proof. unfold startVideoProcessing. by_cases. Qed.

Lemma onopen_state mode h : streamState (react (onopen mode h)) = ACTIVE.
Proof. unfold onopen. rewrite react_startVideoProcessing. reflexivity. Qed.

(** With a video element and a canvas that yields a context, [onopen]
    starts a frame timer. *)
Lemma onopen_starts_timer mode h v :
  videoRef (refs h) = Some v ->
  canvasRef (refs h) = Some {| context2d := true |} ->
  nextHandle (browser h) ∈ activeTimers (browser (onopen mode h)).
Proof.
  intros Hv Hc. unfold onopen, startVideoProcessing. cbn. rewrite Hv, Hc. cbn.
  destruct (frameIntervalRef (refs h)); cbn;
    apply elem_of_union_l, elem_of_singleton; reflexivity.
Qed.

(** The state of a start that has obtained the media stream and asked
    for the session, once [stopStream] has been called on it. *)
Lemma stopped_while_connecting key s h :
  usableKey key = true ->
  let x := stopStream_called (startStream_granted s (startStream key h)) in
  streamState (react x) = CONNECTING /\
  videoRef (refs x) = option_map (fun _ => {| srcObject := None |}) (videoRef (refs h)) /\
  canvasRef (refs x) = canvasRef (refs h) /\
  outputAudioContextRef (refs x) = Some (Pos.succ (nextHandle (browser h))) /\
  liveTracks (browser x) =
    (list_to_set (getTracks s) ∪ liveTracks (browser h)) ∖ list_to_set (getTracks s) /\
  activeTimers (browser x) =
    match frameIntervalRef (refs h) with
    | Some t => activeTimers (browser h) ∖ {[t]}
    | None => activeTimers (browser h)
    end /\
  openContexts (browser x) =
    ({[Pos.succ (nextHandle (browser h))]} ∪
       ({[nextHandle (browser h)]} ∪ openContexts (browser h)))
      ∖ {[nextHandle (browser h)]}.
Proof.
  intros Hkey x. subst x.
  destruct (started_then_granted key s h Hkey)
    as (Hst & Hs & Hfi & Hic & Hoc & Hlt & Hat & Hoc').
  assert (Hv : videoRef (refs (startStream_granted s (startStream key h))) =
               option_map (fun _ => {| srcObject := Some s |}) (videoRef (refs h))).
  { unfold startStream. rewrite Hkey. unfold startStream_granted.
    destruct h as [r [v cv sp st fi ct ic oc ns] b]; cbn. destruct v; reflexivity. }
  assert (Hc : canvasRef (refs (startStream_granted s (startStream key h))) =
               canvasRef (refs h)).
  { unfold startStream. rewrite Hkey. unfold startStream_granted.
    destruct h as [r [v cv sp st fi ct ic oc ns] b]; cbn. destruct v; reflexivity. }
  remember (startStream_granted s (startStream key h)) as g eqn:Hg. clear Hg.
  rewrite stopStream_called_react.
  unfold stopStream_called.
  rewrite closeContext_refs, closeContext_tracks, closeContext_timers, closeContext_open.
  destruct g as [gr [v cv sp st fi ct ic oc ns] gb]; cbn in *.
  subst. destruct (videoRef (refs h)) as [v0|], (frameIntervalRef (refs h)) as [t|];
    cbn; rewrite ?Hlt, ?Hat, ?Hoc'; repeat split; assumption.
Qed.

(** C2 (as amended).  Let [stopStream] be called after [startStream]
    has obtained the media stream and asked for the session, in a
    browser that held no device before.  If the open callback does not
    fire until [stopStream] has run to its end, the stream state is
    never Active up to that end, where it is Idle and no media track is
    live, no frame timer can fire and no audio context is open.  The
    open callback has no liveness check.  If it fires while
    [stopStream] waits for an audio context to close, the state becomes
    Active and then Idle at the end of [stopStream], which does not
    cancel the frame timer the callback has started: with a video
    element and a canvas, that timer keeps running.  If it fires after
    the end of [stopStream], it sets the state to Active. *)
Theorem stop_before_open key s mode h :
  usableKey key = true ->
  noDeviceResources h ->
  (Forall (fun x => streamState (react x) <> ACTIVE)
     (trace [CallStart key; MediaGranted s;
             StopCalled; InputContextClosed; OutputContextClosed] h) /\
   streamState
     (react (run [CallStart key; MediaGranted s;
                  StopCalled; InputContextClosed; OutputContextClosed] h)) = IDLE /\
   noDeviceResources
     (run [CallStart key; MediaGranted s;
           StopCalled; InputContextClosed; OutputContextClosed] h) /\
   run [CallStart key; MediaGranted s;
        StopCalled; InputContextClosed; OutputContextClosed] h =
   run [CallStart key; MediaGranted s; CallStop] h) /\
  (streamState
     (react (run [CallStart key; MediaGranted s; StopCalled; SessionOpen mode] h))
   = ACTIVE /\
   streamState
     (react (run [CallStart key; MediaGranted s; StopCalled; SessionOpen mode;
                  InputContextClosed; OutputContextClosed] h)) = IDLE /\
   (forall v, videoRef (refs h) = Some v ->
              canvasRef (refs h) = Some {| context2d := true |} ->
              ~ noDeviceResources
                  (run [CallStart key; MediaGranted s; StopCalled; SessionOpen mode;
                        InputContextClosed; OutputContextClosed] h))) /\
  (streamState
     (react (run [CallStart key; MediaGranted s; StopCalled; InputContextClosed;
                  SessionOpen mode] h)) = ACTIVE /\
   streamState
     (react (run [CallStart key; MediaGranted s; StopCalled; InputContextClosed;
                  SessionOpen mode; OutputContextClosed] h)) = IDLE /\
   (forall v, videoRef (refs h) = Some v ->
              canvasRef (refs h) = Some {| context2d := true |} ->
              ~ noDeviceResources
                  (run [CallStart key; MediaGranted s; StopCalled; InputContextClosed;
                        SessionOpen mode; OutputContextClosed] h))) /\
  streamState
    (react (run [CallStart key; MediaGranted s; CallStop; SessionOpen mode] h)) = ACTIVE.
Proof.
  intros Hkey (Htracks & Htimers & Hopen).
  destruct (started_then_granted key s h Hkey)
    as (Hst & Hs & Hfi & Hic & Hoc & Hlt & Hat & Hoc').
  destruct (stopped_while_connecting key s h Hkey)
    as (Xst & Xv & Xc & Xoc & Xlt & Xat & Xopen).
  cbn [trace run fold_left step].
  split; [| split; [| split]].
  - split; [| split; [| split]].
    + repeat constructor.
      * unfold startStream. rewrite Hkey. cbn. discriminate.
      * rewrite Hst. discriminate.
      * rewrite Xst. discriminate.
      * rewrite stopStream_inputClosed_react, Xst. discriminate.
      * rewrite stopStream_outputClosed_state. discriminate.
    + apply stopStream_outputClosed_state.
    + change (noDeviceResources (stopStream (startStream_granted s (startStream key h)))).
      unfold noDeviceResources.
      rewrite stopStream_tracks, stopStream_timers, stopStream_open.
      rewrite Hs, Hfi, Hic, Hoc, Hlt, Hat, Hoc', Htracks, Htimers, Hopen.
      split; [apply all_removed |]. split.
      * destruct (frameIntervalRef (refs h)); [apply empty_without |]; reflexivity.
      * apply pair_removed.
    + unfold stopStream. reflexivity.
  - split; [apply onopen_state |]. split; [apply stopStream_outputClosed_state |].
    intros v Hv Hc (_ & Hnone & _).
    rewrite stopStream_outputClosed_timers, stopStream_inputClosed_timers in Hnone.
    eapply (not_elem_of_empty (C := gset positive)). rewrite <- Hnone.
    eapply onopen_starts_timer.
    + rewrite Xv, Hv. reflexivity.
    + rewrite Xc. exact Hc.
  - split; [apply onopen_state |]. split; [apply stopStream_outputClosed_state |].
    intros v Hv Hc (_ & Hnone & _).
    rewrite stopStream_outputClosed_timers in Hnone.
    eapply (not_elem_of_empty (C := gset positive)). rewrite <- Hnone.
    eapply onopen_starts_timer.
    + rewrite stopStream_inputClosed_refs, Xv, Hv. reflexivity.
    + rewrite stopStream_inputClosed_refs, Xc. exact Hc.
  - apply onopen_state.
Qed.

Lemma stop_before_open_witness :
  streamState
    (react (run [CallStart "key"; MediaGranted {| getTracks := [1; 2]%positive |};
                 StopCalled; InputContextClosed; OutputContextClosed]
              mountedHook)) = IDLE /\
  noDeviceResources
    (run [CallStart "key"; MediaGranted {| getTracks := [1; 2]%positive |};
          StopCalled; InputContextClosed; OutputContextClosed]
       mountedHook).
Proof.
  destruct (stop_before_open "key" {| getTracks := [1; 2]%positive |} environment
              mountedHook eq_refl (conj eq_refl (conj eq_refl eq_refl)))
    as ((_ & Hidle & Hnone & _) & _).
  exact (conj Hidle Hnone).
Defined.

(** C2, counterexample.  Start, media granted, stop, and then the open
    callback of the session that was being connected: the stream
    state becomes Active and a frame timer is running again. *)
Lemma open_after_stop_goes_active :
  streamState
    (react (run [CallStart "key"; MediaGranted {| getTracks := [1; 2]%positive |};
                 CallStop; SessionOpen environment] mountedHook)) = ACTIVE /\
  In ACTIVE
    (map (fun x => streamState (react x))
       (trace [CallStart "key"; MediaGranted {| getTracks := [1; 2]%positive |};
               CallStop; SessionOpen environment] mountedHook)) /\
  activeTimers
    (browser (run [CallStart "key"; MediaGranted {| getTracks := [1; 2]%positive |};
                   CallStop; SessionOpen environment] mountedHook)) = {[4%positive]} /\
  ~ noDeviceResources
      (run [CallStart "key"; MediaGranted {| getTracks := [1; 2]%positive |};
            CallStop; SessionOpen environment] mountedHook).
Proof.
  split; [reflexivity |]. split; [cbn; tauto |]. split; [reflexivity |].
  intros (_ & Htimers & _). vm_compute in Htimers. discriminate.
Qed.

(** The open callback fires while [stopStream] waits for the input
    context to close: the state passes through Active and ends Idle,
    with the frame timer 4 running and held. *)
Example open_during_stop_leaves_timer_running :
  let events := [CallStart "key"; MediaGranted {| getTracks := [1; 2]%positive |};
                 StopCalled; SessionOpen environment;
                 InputContextClosed; OutputContextClosed] in
  map (fun x => streamState (react x)) (trace events mountedHook) =
    [CONNECTING; CONNECTING; CONNECTING; ACTIVE; ACTIVE; IDLE] /\
  frameIntervalRef (refs (run events mountedHook)) = Some 4%positive /\
  activeTimers (browser (run events mountedHook)) = {[4%positive]} /\
  liveTracks (browser (run events mountedHook)) = ∅ /\
  openContexts (browser (run events mountedHook)) = ∅.
Proof. repeat split; vm_compute; reflexivity. Qed.

(** A stop that arrives while [getUserMedia] is still pending releases
    nothing of the stream that is granted afterwards. *)
Example stop_while_media_pending :
  let h := run [CallStart "key"; CallStop;
                MediaGranted {| getTracks := [1; 2]%positive |}] mountedHook in
  streamState (react h) = IDLE /\
  streamRef (refs h) = Some {| getTracks := [1; 2]%positive |} /\
  liveTracks (browser h) = list_to_set [1; 2]%positive.
Proof. repeat split. Qed.

(** ** Playback scheduler *)

Lemma gapless_snoc l s' d' :
  gapless l ->
  (forall s d, last l = Some (s, d) -> s <= s' /\ s + d <= s') ->
  gapless (l ++ [(s', d')]).
Proof.
  induction l as [|[s1 d1] rest IH]; intros Hg Hlast; cbn [app gapless].
  - split; exact I.
  - cbn [gapless] in Hg. destruct Hg as [Hhead Hrest].
    destruct rest as [|[s2 d2] rest'].
    + cbn [app]. split; [apply (Hlast s1 d1); reflexivity | split; exact I].
    + split; [exact Hhead |]. apply IH; [exact Hrest |].
      intros s d Hl. apply Hlast. exact Hl.
Qed.

Lemma gapless_sorted l : gapless l -> Sorted Z.le (map fst l).
Proof.
  induction l as [|[s1 d1] rest IH]; intros Hg; cbn [map fst].
  - constructor.
  - cbn [gapless] in Hg. destruct Hg as [Hhead Hrest].
    constructor; [apply IH; exact Hrest |].
    destruct rest as [|[s2 d2] rest']; cbn [map fst]; constructor.
    apply Hhead.
Qed.

Lemma schedulerOf_stopStream h : schedulerOf (stopStream h) = schedulerOf h.
Proof.
  unfold schedulerOf. rewrite stopStream_refs. cbn. f_equal.
  open_stop. unfold closeContext.
  destruct h as [r [v cv sp st fi ct ic oc ns] b]; cbn.
  destruct st, v, fi, ic, oc; cbn;
    repeat (match goal with |- context [decide ?P] => destruct (decide P) end; cbn);
    reflexivity.
Qed.

Lemma schedulerOf_closeContext ctx h : schedulerOf (closeContext ctx h) = schedulerOf h.
Proof.
  unfold closeContext. destruct ctx as [c|]; [| reflexivity].
  destruct (decide _); reflexivity.
Qed.

Lemma schedulerOf_stopStream_called h : schedulerOf (stopStream_called h) = schedulerOf h.
Proof.
  unfold stopStream_called. rewrite schedulerOf_closeContext.
  by_cases.
Qed.

Lemma schedulerOf_processCall fc h :
  schedulerOf (final (processCall fc h)) = schedulerOf h.
Proof.
  unfold processCall. destruct (isKnown fc); [| reflexivity].
  destruct (fc_args fc); [| reflexivity]. cbn [final].
  unfold schedulerOf, sendToolResponse, recordDetection.
  destruct (_ || _); cbn; destruct (sessionPromiseRef (refs h)); reflexivity.
Qed.

Lemma schedulerOf_forEachCall calls : forall h,
  schedulerOf (final (forEachCall calls h)) = schedulerOf h.
Proof.
  induction calls as [|fc rest IH]; intros h; cbn [forEachCall]; [reflexivity |].
  pose proof (schedulerOf_processCall fc h) as Hstep.
  destruct (processCall fc h) as [h'|h']; cbn [final] in *.
  - rewrite IH. exact Hstep.
  - exact Hstep.
Qed.

Lemma schedulerOf_onTranscript msg h : schedulerOf (onTranscript msg h) = schedulerOf h.
Proof.
  unfold onTranscript.
  by_cases.
Qed.

Lemma schedulerOf_startVideoProcessing h :
  schedulerOf (startVideoProcessing h) = schedulerOf h.
Proof.
  unfold startVideoProcessing.
  by_cases.
Qed.

(** What the audio part does to the scheduler cells. *)
Lemma schedulerOf_onAudio msg t decoded h :
  schedulerOf (onAudio msg t decoded h) =
  match audioData msg, outputAudioContextRef (refs h) with
  | Some data, Some _ =>
      if String.eqb data "" then schedulerOf h
      else
        match decoded with
        | Some d =>
            (Z.max (nextStartTimeRef (refs h)) t + d,
             started (browser h) ++ [(Z.max (nextStartTimeRef (refs h)) t, d)])
        | None => (Z.max (nextStartTimeRef (refs h)) t, started (browser h))
        end
  | _, _ => schedulerOf h
  end.
Proof.
  unfold onAudio.
  destruct (audioData msg) as [data|]; [| reflexivity].
  destruct (outputAudioContextRef (refs h)); [| reflexivity].
  destruct (String.eqb data ""); [reflexivity |].
  destruct decoded; reflexivity.
Qed.

(** One step as seen by the scheduler: nothing, or a raise of the
    cursor to some reading [t], or the start of a buffer at the cursor
    raised to some reading [t]. *)
Lemma step_scheduler e h :
  schedulerOf (step e h) = schedulerOf h \/
  (exists t, schedulerOf (step e h) =
             (Z.max (nextStartTimeRef (refs h)) t, started (browser h))) \/
  (exists t d, nonnegDuration e = (0 <=? d) /\
               schedulerOf (step e h) =
               (Z.max (nextStartTimeRef (refs h)) t + d,
                started (browser h) ++ [(Z.max (nextStartTimeRef (refs h)) t, d)])).
Proof.
  destruct e; cbn [step].
  - left. unfold startStream. destruct (usableKey apiKey); [reflexivity |].
    unfold startFailed. rewrite schedulerOf_stopStream. reflexivity.
  - left. unfold startStream_granted. cbn. destruct (videoRef (refs h)); reflexivity.
  - left. unfold startStream_denied, startFailed.
    rewrite schedulerOf_stopStream. reflexivity.
  - left. unfold onopen. rewrite schedulerOf_startVideoProcessing. reflexivity.
  - unfold onmessage.
    assert (Hc : schedulerOf
                   (final match toolCall msg with
                          | Some functionCalls => processToolCall functionCalls h
                          | None => Normal h
                          end) = schedulerOf h).
    { destruct (toolCall msg) as [[calls|]|]; cbn [processToolCall final];
        [apply schedulerOf_forEachCall | reflexivity | reflexivity]. }
    destruct (match toolCall msg with Some _ => _ | None => _ end) as [h1|h1];
      cbn [final] in Hc; [| left; exact Hc].
    rewrite schedulerOf_onAudio.
    pose proof (schedulerOf_onTranscript msg h1) as Ht.
    rewrite Hc in Ht. unfold schedulerOf in Ht. injection Ht as Hn Hs.
    rewrite Hn, Hs.
    destruct (audioData msg) as [data|];
      [| left; unfold schedulerOf; rewrite Hn, Hs; reflexivity].
    destruct (outputAudioContextRef (refs (onTranscript msg h1)));
      [| left; unfold schedulerOf; rewrite Hn, Hs; reflexivity].
    destruct (String.eqb data "");
      [left; unfold schedulerOf; rewrite Hn, Hs; reflexivity |].
    destruct decoded as [d|].
    + right. right. exists currentTime, d. split; reflexivity.
    + right. left. exists currentTime. reflexivity.
  - right. right. exists (nextStartTimeRef (refs h)), duration.
    rewrite Z.max_id. split; reflexivity.
  - left. reflexivity.
  - left. unfold onerror. rewrite schedulerOf_stopStream. reflexivity.
  - left. apply schedulerOf_stopStream.
  - left. apply schedulerOf_stopStream_called.
  - left. apply schedulerOf_closeContext.
  - left. reflexivity.
  - left. reflexivity.
  - left. reflexivity.
Qed.

Lemma step_keeps_sequence e h :
  nonnegDuration e = true ->
  gapless (started (browser h)) -> clockCovers h ->
  gapless (started (browser (step e h))) /\
  clockCovers (step e h) /\
  nextStartTimeRef (refs h) <= nextStartTimeRef (refs (step e h)).
Proof.
  intros Hdur Hg Hcov. unfold clockCovers in *.
  destruct (step_scheduler e h) as [Hsame | [(t & Hraise) | (t & d & Hd & Hplay)]];
    unfold schedulerOf in *.
  - injection Hsame as Hn Hs. rewrite Hn, Hs.
    split; [exact Hg |]. split; [exact Hcov | lia].
  - injection Hraise as Hn Hs. rewrite Hn, Hs.
    split; [exact Hg |]. split; [| lia].
    intros s d Hl. specialize (Hcov s d Hl). lia.
  - injection Hplay as Hn Hs. rewrite Hn, Hs.
    rewrite Hdur in Hd. symmetry in Hd. apply Z.leb_le in Hd.
    split; [| split; [| lia]].
    + apply gapless_snoc; [exact Hg |].
      intros s d0 Hl. specialize (Hcov s d0 Hl). lia.
    + intros s d0 Hl. rewrite last_snoc in Hl. injection Hl as <- <-. lia.
Qed.

Lemma run_keeps_sequence events : forall h,
  forallb nonnegDuration events = true ->
  gapless (started (browser h)) -> clockCovers h ->
  gapless (started (browser (run events h))) /\
  clockCovers (run events h) /\
  nextStartTimeRef (refs h) <= nextStartTimeRef (refs (run events h)).
Proof.
  induction events as [|e rest IH]; intros h Hall Hg Hcov.
  - cbn. split; [exact Hg |]. split; [exact Hcov | lia].
  - cbn [forallb] in Hall. apply andb_prop in Hall as [He Hrest].
    destruct (step_keeps_sequence e h He Hg Hcov) as (Hg1 & Hcov1 & Hle1).
    destruct (IH (step e h) Hrest Hg1 Hcov1) as (Hg2 & Hcov2 & Hle2).
    change (run (e :: rest) h) with (run rest (step e h)).
    split; [exact Hg2 |]. split; [exact Hcov2 | lia].
Qed.

Lemma step_chunkArrives chunk h c :
  outputAudioContextRef (refs h) = Some c ->
  step (chunkArrives chunk) h = schedulePlay (snd chunk) (scheduleArrival (fst chunk) h).
Proof.
  intros Hc. unfold chunkArrives. cbn [step]. unfold onmessage. cbn.
  unfold onAudio. cbn. rewrite Hc. reflexivity.
Qed.

Lemma run_chunks_follow_spec chunks : forall h c,
  outputAudioContextRef (refs h) = Some c ->
  started (browser (run (map chunkArrives chunks) h)) =
  started (browser h) ++ specSchedule (nextStartTimeRef (refs h)) chunks.
Proof.
  induction chunks as [|[t d] rest IH]; intros h c Hc; cbn [map specSchedule].
  - cbn. rewrite app_nil_r. reflexivity.
  - change (run (chunkArrives (t, d) :: map chunkArrives rest) h)
      with (run (map chunkArrives rest) (step (chunkArrives (t, d)) h)).
    rewrite (step_chunkArrives (t, d) h c Hc).
    rewrite (IH _ c) by exact Hc. cbn. rewrite <- app_assoc. reflexivity.
Qed.

(** C8 (as amended).  A chunk that arrives raises the playback clock
    [nextStartTimeRef] to the reading of the output clock, if that is
    later, and starts nothing.  When its decoding settles, the buffer
    starts at the playback clock as it is then, and the playback clock
    moves to the end of the buffer.  So a chunk whose decoding settles
    before anything else runs starts at the larger of the playback
    clock and the clock reading at its arrival, and chunks that each
    are decoded before the next arrives are started in arrival order,
    as the schedule of the specification says.  In every run of the
    hook from its initial state, with decoded durations that are not
    negative, the start times are, in the order of the starts,
    non-decreasing, and each buffer starts no earlier than the end of
    the one started before it.  No operation of the hook moves the
    playback clock backwards. *)
Theorem playback_is_sequential events video canvas now :
  forallb nonnegDuration events = true ->
  (forall msg t h data c,
      audioData msg = Some data -> data <> "" ->
      outputAudioContextRef (refs h) = Some c ->
      started (browser (onAudio msg t None h)) = started (browser h) /\
      nextStartTimeRef (refs (onAudio msg t None h)) =
        Z.max (nextStartTimeRef (refs h)) t) /\
  (forall d h,
      started (browser (step (AudioDecoded d) h)) =
        started (browser h) ++ [(nextStartTimeRef (refs h), d)] /\
      nextStartTimeRef (refs (step (AudioDecoded d) h)) =
        nextStartTimeRef (refs h) + d) /\
  (forall msg t d h data c,
      audioData msg = Some data -> data <> "" ->
      outputAudioContextRef (refs h) = Some c ->
      onAudio msg t (Some d) h = step (AudioDecoded d) (onAudio msg t None h) /\
      started (browser (onAudio msg t (Some d) h)) =
        started (browser h) ++ [(Z.max (nextStartTimeRef (refs h)) t, d)] /\
      nextStartTimeRef (refs (onAudio msg t (Some d) h)) =
        Z.max (nextStartTimeRef (refs h)) t + d) /\
  (forall chunks h c,
      outputAudioContextRef (refs h) = Some c ->
      started (browser (run (map chunkArrives chunks) h)) =
      started (browser h) ++ specSchedule (nextStartTimeRef (refs h)) chunks) /\
  StronglySorted Z.le
    (map fst (started (browser (run events (initialHook video canvas now))))) /\
  gapless (started (browser (run events (initialHook video canvas now)))) /\
  (forall e h,
      nonnegDuration e = true ->
      nextStartTimeRef (refs h) <= nextStartTimeRef (refs (step e h))).
Proof.
  intros Hall.
  assert (Hinit : clockCovers (initialHook video canvas now)).
  { intros s d Hl. discriminate Hl. }
  destruct (run_keeps_sequence events (initialHook video canvas now) Hall
              (I : gapless []) Hinit) as (Hg & _ & _).
  split; [| split; [| split; [| split; [| split; [| split]]]]].
  - intros msg t h data c Hdata Hne Hc.
    pose proof (schedulerOf_onAudio msg t None h) as Hs.
    rewrite Hdata, Hc in Hs.
    destruct (String.eqb_spec data ""); [contradiction |].
    unfold schedulerOf in Hs. injection Hs as Hn Hst. split; assumption.
  - intros d h. split; reflexivity.
  - intros msg t d h data c Hdata Hne Hc.
    pose proof (schedulerOf_onAudio msg t (Some d) h) as Hs.
    rewrite Hdata, Hc in Hs.
    destruct (String.eqb_spec data "") as [|Hne']; [contradiction |].
    unfold schedulerOf in Hs. injection Hs as Hn Hst.
    split; [| split; assumption].
    unfold onAudio. rewrite Hdata, Hc.
    destruct (String.eqb_spec data ""); [contradiction | reflexivity].
  - exact run_chunks_follow_spec.
  - apply Sorted_StronglySorted; [| apply gapless_sorted; exact Hg].
    intros x y z. apply Z.le_trans.
  - exact Hg.
  - intros e h He.
    destruct (step_scheduler e h) as [Hsame | [(t & Hraise) | (t & d & Hd & Hplay)]];
      unfold schedulerOf in *.
    + injection Hsame as Hn _. lia.
    + injection Hraise as Hn _. lia.
    + injection Hplay as Hn _. rewrite He in Hd. symmetry in Hd.
      apply Z.leb_le in Hd. lia.
Qed.

Lemma playback_is_sequential_witness :
  gapless (started (browser (run threeChunks mountedHook))) /\
  started (browser (run threeChunks mountedHook)) =
    [(0, 24000); (30000, 12000); (42000, 6000)].
Proof.
  split; [| reflexivity].
  exact (proj1 (proj2 (proj2 (proj2 (proj2 (proj2
           (playback_is_sequential threeChunks
              (Some {| srcObject := None |}) (Some {| context2d := true |}) 0
              eq_refl))))))).
Defined.

(** C8, counterexample.  On a connected session whose playback clock
    is at 0, a chunk of 24000 frames arrives at clock reading 0 and a
    chunk of 6000 frames at reading 12000; the second is decoded at
    once and the first afterwards.  The second chunk starts at 12000
    and the first at 18000: the chunk that arrived first starts last,
    and not at the larger of the playback clock and the clock reading
    of its arrival, which was 0. *)
Lemma pending_decode_reorders_playback :
  nextStartTimeRef (refs connectedHook) = 0 /\
  started (browser connectedHook) = [] /\
  started (browser (run slowFirstDecode connectedHook)) =
    [(12000, 6000); (18000, 24000)] /\
  specSchedule 0 [(0, 24000); (12000, 6000)] = [(0, 24000); (24000, 6000)] /\
  started (browser (run slowFirstDecode connectedHook)) <>
    specSchedule (nextStartTimeRef (refs connectedHook)) [(0, 24000); (12000, 6000)] /\
  ~ (forall start, In (start, 24000) (started (browser (run slowFirstDecode connectedHook))) ->
                   start = Z.max (nextStartTimeRef (refs connectedHook)) 0).
Proof.
  split; [reflexivity |]. split; [reflexivity |]. split; [reflexivity |].
  split; [reflexivity |]. split; [vm_compute; discriminate |].
  intros H. specialize (H 18000). vm_compute in H.
  assert (E : 18000 = 0) by (apply H; right; left; reflexivity).
  discriminate E.
Qed.

(** With both decodings pending, the chunk that arrived first starts
    at the clock reading of the arrival of the second. *)
Example both_decodes_pending :
  started
    (browser
       (run [SessionMessage audioChunk 0 None; SessionMessage audioChunk 12000 None;
             AudioDecoded 24000; AudioDecoded 6000] connectedHook)) =
  [(12000, 24000); (36000, 6000)].
Proof. reflexivity. Qed.

(** * Further properties of the hook *)

(** ** The log is bounded and the Error state does not last *)

Lemma react_onAudio msg t d h : react (onAudio msg t d h) = react h.
Proof. unfold onAudio. by_cases. Qed.

Lemma addLog_length m t h :
  length (logs (react (addLog m t h))) = S (Nat.min 49 (length (logs (react h)))).
Proof. cbn. rewrite length_take. reflexivity. Qed.

Lemma addLog_bounded m t h : logBounded (addLog m t h).
Proof. unfold logBounded. rewrite addLog_length. lia. Qed.

Lemma stopStream_bounded h : logBounded (stopStream h).
Proof. unfold logBounded. rewrite stopStream_react. cbn. rewrite length_take. lia. Qed.

Lemma recordDetection_bounded n2 n3 n4 nh d desc h :
  logBounded h -> logBounded (recordDetection n2 n3 n4 nh d desc h).
Proof.
  intros Hb. unfold recordDetection. destruct (_ || _); [apply addLog_bounded | exact Hb].
Qed.

Lemma recordDetection_state n2 n3 n4 nh d desc h :
  streamState (react (recordDetection n2 n3 n4 nh d desc h)) = streamState (react h).
Proof. unfold recordDetection. destruct (_ || _); reflexivity. Qed.

Lemma processCall_bounded fc h :
  logBounded h -> logBounded (final (processCall fc h)).
Proof.
  intros Hb. unfold processCall. destruct (isKnown fc); [| exact Hb].
  destruct (fc_args fc); [| exact Hb]. cbn [final].
  unfold logBounded. rewrite react_sendToolResponse.
  apply recordDetection_bounded. exact Hb.
Qed.

Lemma processCall_state fc h :
  streamState (react (final (processCall fc h))) = streamState (react h).
Proof.
  unfold processCall. destruct (isKnown fc); [| reflexivity].
  destruct (fc_args fc); [| reflexivity]. cbn [final].
  rewrite react_sendToolResponse. apply recordDetection_state.
Qed.

Lemma forEachCall_bounded calls : forall h,
  logBounded h -> logBounded (final (forEachCall calls h)).
Proof.
  induction calls as [|fc rest IH]; intros h Hb; cbn [forEachCall]; [exact Hb |].
  pose proof (processCall_bounded fc h Hb) as Hstep.
  destruct (processCall fc h) as [h'|h']; cbn [final] in *; [apply IH |]; exact Hstep.
Qed.

Lemma forEachCall_state calls : forall h,
  streamState (react (final (forEachCall calls h))) = streamState (react h).
Proof.
  induction calls as [|fc rest IH]; intros h; cbn [forEachCall]; [reflexivity |].
  pose proof (processCall_state fc h) as Hstep.
  destruct (processCall fc h) as [h'|h']; cbn [final] in *; [rewrite IH |]; exact Hstep.
Qed.

Lemma onTranscript_bounded msg h : logBounded h -> logBounded (onTranscript msg h).
Proof.
  intros Hb. unfold onTranscript.
  destruct (outputTranscriptionText msg) as [text|]; [destruct (String.eqb text "") |];
    (destruct (_ && _); [| exact Hb]);
    (destruct (String.eqb (trim _) ""); [exact Hb |]);
    unfold logBounded; cbn; rewrite length_take; lia.
Qed.

Lemma onTranscript_state msg h :
  streamState (react (onTranscript msg h)) = streamState (react h).
Proof. unfold onTranscript. by_cases. Qed.

Lemma onmessage_bounded msg t d h : logBounded h -> logBounded (onmessage msg t d h).
Proof.
  intros Hb. unfold onmessage.
  destruct (toolCall msg) as [[calls|]|]; cbn [processToolCall].
  - pose proof (forEachCall_bounded calls h Hb) as Hc.
    destruct (forEachCall calls h) as [h1|h1]; cbn [final] in Hc; [| exact Hc].
    unfold logBounded. rewrite react_onAudio. apply onTranscript_bounded. exact Hc.
  - unfold logBounded. rewrite react_onAudio. apply onTranscript_bounded. exact Hb.
  - unfold logBounded. rewrite react_onAudio. apply onTranscript_bounded. exact Hb.
Qed.

Lemma onmessage_state msg t d h :
  streamState (react (onmessage msg t d h)) = streamState (react h).
Proof.
  unfold onmessage.
  destruct (toolCall msg) as [[calls|]|]; cbn [processToolCall].
  - pose proof (forEachCall_state calls h) as Hc.
    destruct (forEachCall calls h) as [h1|h1]; cbn [final] in Hc; [| exact Hc].
    rewrite react_onAudio, onTranscript_state. exact Hc.
  - rewrite react_onAudio. apply onTranscript_state.
  - rewrite react_onAudio. apply onTranscript_state.
Qed.

Lemma step_bounded e h : logBounded h -> logBounded (step e h).
Proof.
  intros Hb. destruct e; cbn [step].
  - unfold startStream. destruct (usableKey apiKey); [exact Hb |].
    apply stopStream_bounded.
  - unfold startStream_granted, logBounded. cbn.
    destruct (videoRef (refs h)); exact Hb.
  - apply stopStream_bounded.
  - unfold onopen, logBounded. rewrite react_startVideoProcessing.
    apply addLog_bounded.
  - apply onmessage_bounded. exact Hb.
  - exact Hb.
  - exact Hb.
  - apply stopStream_bounded.
  - apply stopStream_bounded.
  - unfold logBounded. rewrite stopStream_called_react. exact Hb.
  - unfold logBounded. rewrite stopStream_inputClosed_react. exact Hb.
  - apply addLog_bounded.
  - apply addLog_bounded.
  - exact Hb.
Qed.

(** X1.  The log never holds more than 50 entries: [addLog] keeps the
    49 newest entries behind the new one, and an entry can only be
    added through it. *)
Theorem log_never_exceeds_fifty events video canvas now :
  (length (logs (react (run events (initialHook video canvas now)))) <= 50)%nat /\
  (forall m t h,
      length (logs (react (addLog m t h))) = S (Nat.min 49 (length (logs (react h)))) /\
      drop 1 (logs (react (addLog m t h))) = take 49 (logs (react h))).
Proof.
  split.
  - assert (Hinit : logBounded (initialHook video canvas now)) by (unfold logBounded; cbn; lia).
    revert Hinit. generalize (initialHook video canvas now).
    induction events as [|e rest IH]; intros h Hb; [exact Hb |].
    change (run (e :: rest) h) with (run rest (step e h)).
    apply IH, step_bounded. exact Hb.
  - intros m t h. split; [apply addLog_length | reflexivity].
Qed.

Lemma step_leaves_error e h :
  streamState (react h) <> ERROR -> streamState (react (step e h)) <> ERROR.
Proof.
  intros Hne. destruct e; cbn [step].
  - unfold startStream. destruct (usableKey apiKey); [cbn; discriminate |].
    unfold startFailed. rewrite stopStream_react. cbn. discriminate.
  - unfold startStream_granted. cbn. destruct (videoRef (refs h)); exact Hne.
  - unfold startStream_denied, startFailed. rewrite stopStream_react. cbn. discriminate.
  - unfold onopen. rewrite react_startVideoProcessing. cbn. discriminate.
  - rewrite onmessage_state. exact Hne.
  - exact Hne.
  - cbn. discriminate.
  - unfold onerror. rewrite stopStream_react. cbn. discriminate.
  - rewrite stopStream_react. cbn. discriminate.
  - rewrite stopStream_called_react. exact Hne.
  - rewrite stopStream_inputClosed_react. exact Hne.
  - rewrite stopStream_outputClosed_state. discriminate.
  - exact Hne.
  - exact Hne.
Qed.

(** X2.  Once the callback of an event has run to its end, the stream
    state is never Error: every path that sets Error ([onerror] and the
    [catch] of [startStream]) goes on to [stopStream], which sets Idle.
    So the Connection Error panel of the camera overlay, which is
    rendered in state Error only, is never what a finished event
    leaves on screen. *)
Theorem error_state_never_lasts events video canvas now :
  streamState (react (run events (initialHook video canvas now))) <> ERROR /\
  (forall text,
      cameraOverlay
        (streamState (react (run events (initialHook video canvas now))))
        (error (react (run events (initialHook video canvas now))))
      <> ConnectionError text) /\
  (forall state err,
      (exists text, cameraOverlay state err = ConnectionError text) <-> state = ERROR).
Proof.
  assert (Hrun : streamState (react (run events (initialHook video canvas now))) <> ERROR).
  { assert (Hinit : streamState (react (initialHook video canvas now)) <> ERROR)
      by (cbn; discriminate).
    revert Hinit. generalize (initialHook video canvas now).
    induction events as [|e rest IH]; intros h Hne; [exact Hne |].
    change (run (e :: rest) h) with (run rest (step e h)).
    apply IH, step_leaves_error. exact Hne. }
  split; [exact Hrun |]. split.
  - intros text.
    destruct (streamState (react (run events (initialHook video canvas now))));
      cbn; try discriminate. contradiction.
  - intros state err. split.
    + intros [text Ht]. destruct state; cbn in Ht; try discriminate. reflexivity.
    + intros ->. eexists. reflexivity.
Qed.

(** ** Transcripts *)

Lemma append_empty_r (s : string) : s +:+ "" = s.
Proof.
  induction s as [|c s IH]; [reflexivity |].
  change (String c (s +:+ "") = String c s). f_equal. exact IH.
Qed.

Lemma append_assoc3 (a b c : string) : (a +:+ b) +:+ c = a +:+ (b +:+ c).
Proof.
  induction a as [|x a IH]; [reflexivity |].
  change (String x ((a +:+ b) +:+ c) = String x (a +:+ (b +:+ c))). f_equal. exact IH.
Qed.

(** A fragment only grows the buffer. *)
Lemma step_fragment text h :
  react (step (fragmentArrives text) h) = react h /\
  browser (step (fragmentArrives text) h) = browser h /\
  currentTranscriptRef (refs (step (fragmentArrives text) h)) =
    currentTranscriptRef (refs h) +:+ text.
Proof.
  unfold fragmentArrives, fragment. cbn [step]. unfold onmessage, onAudio, onTranscript.
  cbn. destruct (String.eqb_spec text "") as [-> | Hne]; cbn.
  - repeat split. symmetry. apply append_empty_r.
  - repeat split.
Qed.

Lemma run_fragments texts : forall h,
  react (run (map fragmentArrives texts) h) = react h /\
  browser (run (map fragmentArrives texts) h) = browser h /\
  currentTranscriptRef (refs (run (map fragmentArrives texts) h)) =
    currentTranscriptRef (refs h) +:+ concatAll texts.
Proof.
  induction texts as [|text rest IH]; intros h; cbn [map concatAll].
  - cbn. rewrite append_empty_r. repeat split.
  - change (run (fragmentArrives text :: map fragmentArrives rest) h)
      with (run (map fragmentArrives rest) (step (fragmentArrives text) h)).
    destruct (IH (step (fragmentArrives text) h)) as (Hr & Hb & Hc).
    destruct (step_fragment text h) as (Hr1 & Hb1 & Hc1).
    rewrite Hr, Hb, Hc, Hr1, Hb1, Hc1, append_assoc3. repeat split.
Qed.

Lemma run_snoc events e h : run (events ++ [e]) h = step e (run events h).
Proof. unfold run. rewrite fold_left_app. reflexivity. Qed.

(** The end of a turn empties the buffer and logs what it held. *)
Lemma step_turnEnds h :
  currentTranscriptRef (refs (step (SessionMessage turnEnds 0 None) h)) = "" /\
  logs (react (step (SessionMessage turnEnds 0 None) h)) =
    (if String.eqb (trim (currentTranscriptRef (refs h))) "" then logs (react h)
     else {| log_id := randomDraws (browser h); log_time := wallClock (browser h);
             log_message := Text (trim (currentTranscriptRef (refs h)));
             log_type := LogTranscript |}
          :: take 49 (logs (react h))).
Proof.
  destruct h as [r [v cv sp st fi ct ic oc ns] b].
  cbn [step]. unfold onmessage, onAudio, onTranscript.
  cbn -[trim String.eqb].
  destruct (String.eqb_spec ct "") as [-> | Hne]; cbn -[trim String.eqb].
  - split; reflexivity.
  - destruct (String.eqb (trim ct) ""); split; reflexivity.
Qed.

(** X3.  The fragments of a transcript are gathered in arrival order
    without touching the log; the end of the turn empties the buffer
    and writes their concatenation, trimmed, as one transcript entry,
    or writes nothing when only white space was gathered. *)
Theorem transcript_is_flushed_once texts h :
  currentTranscriptRef (refs h) = "" ->
  logs (react (run (map fragmentArrives texts) h)) = logs (react h) /\
  currentTranscriptRef (refs (run (map fragmentArrives texts) h)) = concatAll texts /\
  currentTranscriptRef
    (refs (run (map fragmentArrives texts ++ [SessionMessage turnEnds 0 None]) h)) = "" /\
  logs (react (run (map fragmentArrives texts ++ [SessionMessage turnEnds 0 None]) h)) =
    (if String.eqb (trim (concatAll texts)) "" then logs (react h)
     else {| log_id := randomDraws (browser h); log_time := wallClock (browser h);
             log_message := Text (trim (concatAll texts)); log_type := LogTranscript |}
          :: take 49 (logs (react h))).
Proof.
  intros Hempty.
  destruct (run_fragments texts h) as (Hr & Hb & Hc).
  rewrite Hempty in Hc. change ("" +:+ concatAll texts) with (concatAll texts) in Hc.
  split; [rewrite Hr; reflexivity |]. split; [exact Hc |].
  rewrite run_snoc.
  destruct (step_turnEnds (run (map fragmentArrives texts) h)) as (Hcur & Hlogs).
  split; [exact Hcur |].
  rewrite Hlogs, Hc, Hr, Hb. reflexivity.
Qed.

Lemma transcript_is_flushed_once_witness :
  logs (react (run (map fragmentArrives ["  Two bikes"; " and a bus. "] ++
                      [SessionMessage turnEnds 0 None]) connectedHook)) =
  {| log_id := randomDraws (browser connectedHook);
     log_time := wallClock (browser connectedHook);
     log_message := Text "Two bikes and a bus."; log_type := LogTranscript |}
  :: take 49 (logs (react connectedHook)).
Proof.
  exact (proj2 (proj2 (proj2
           (transcript_is_flushed_once ["  Two bikes"; " and a bus. "] connectedHook
              eq_refl)))).
Defined.

(** A turn whose transcript is one no-break space and a line feed
    writes nothing. *)
Example blank_transcript_is_dropped :
  let nbsp := String (ascii_of_nat 194) (String (ascii_of_nat 160) EmptyString) in
  logs (react (run [fragmentArrives nbsp; fragmentArrives (String (ascii_of_nat 10) " ");
                    SessionMessage turnEnds 0 None] connectedHook)) =
  logs (react connectedHook).
Proof. vm_compute. reflexivity. Qed.

(** ** The frame timer *)

Lemma only_owned_left (A : gset positive) (held : option positive) (t : positive) :
  (forall x, x ∈ A -> held = Some x) ->
  {[t]} ∪ match held with Some old => A ∖ {[old]} | None => A end = ({[t]} : gset positive).
Proof.
  intros Hown. apply set_eq. intros x.
  rewrite elem_of_union, elem_of_singleton. split; [| tauto].
  intros [Hx | Hx]; [exact Hx | exfalso].
  destruct held as [old|].
  - apply elem_of_difference in Hx as [Hin Hout].
    specialize (Hown x Hin). injection Hown as <-.
    apply Hout, elem_of_singleton. reflexivity.
  - specialize (Hown x Hx). discriminate.
Qed.

Lemma startVideoProcessing_single h v :
  videoRef (refs h) = Some v ->
  canvasRef (refs h) = Some {| context2d := true |} ->
  timersOwned h ->
  activeTimers (browser (startVideoProcessing h)) = {[nextHandle (browser h)]} /\
  frameIntervalRef (refs (startVideoProcessing h)) = Some (nextHandle (browser h)) /\
  nextHandle (browser (startVideoProcessing h)) = Pos.succ (nextHandle (browser h)) /\
  videoRef (refs (startVideoProcessing h)) = Some v /\
  canvasRef (refs (startVideoProcessing h)) = Some {| context2d := true |}.
Proof.
  intros Hv Hc Hown. unfold startVideoProcessing. rewrite Hv, Hc. cbn [context2d].
  pose proof (only_owned_left _ _ (nextHandle (browser h)) Hown) as Hset.
  destruct (frameIntervalRef (refs h)) as [old|]; cbn; repeat split; assumption.
Qed.

(** X4.  Starting the frame sampler while one is running cancels the
    running timer first: when the only timer that can fire is the one
    the hook holds, one call, and two calls in a row, leave exactly
    one timer that can fire, the one whose handle the hook holds. *)
Theorem frame_sampler_restart_is_safe h v :
  videoRef (refs h) = Some v ->
  canvasRef (refs h) = Some {| context2d := true |} ->
  timersOwned h ->
  activeTimers (browser (startVideoProcessing h)) = {[nextHandle (browser h)]} /\
  frameIntervalRef (refs (startVideoProcessing h)) = Some (nextHandle (browser h)) /\
  activeTimers (browser (startVideoProcessing (startVideoProcessing h))) =
    {[Pos.succ (nextHandle (browser h))]} /\
  frameIntervalRef (refs (startVideoProcessing (startVideoProcessing h))) =
    Some (Pos.succ (nextHandle (browser h))) /\
  size (activeTimers (browser (startVideoProcessing (startVideoProcessing h)))) = 1%nat.
Proof.
  intros Hv Hc Hown.
  destruct (startVideoProcessing_single h v Hv Hc Hown) as (Ha & Hf & Hn & Hv1 & Hc1).
  assert (Hown1 : timersOwned (startVideoProcessing h)).
  { intros t Ht. rewrite Ha in Ht. apply elem_of_singleton in Ht. subst t. exact Hf. }
  destruct (startVideoProcessing_single _ v Hv1 Hc1 Hown1) as (Ha2 & Hf2 & _).
  rewrite Hn in Ha2, Hf2.
  split; [exact Ha |]. split; [exact Hf |]. split; [exact Ha2 |]. split; [exact Hf2 |].
  rewrite Ha2. apply size_singleton.
Qed.

Lemma timersOwned_connected : timersOwned connectedHook.
Proof.
  intros t Ht. change (activeTimers (browser connectedHook)) with ({[4%positive]} : gset positive) in Ht.
  apply elem_of_singleton in Ht. subst t. reflexivity.
Qed.

Lemma frame_sampler_restart_is_safe_witness :
  activeTimers (browser (startVideoProcessing connectedHook)) = {[5%positive]} /\
  activeTimers (browser (startVideoProcessing (startVideoProcessing connectedHook))) =
    {[6%positive]}.
Proof.
  destruct (frame_sampler_restart_is_safe connectedHook {| srcObject := Some {| getTracks := [1; 2]%positive |} |}
              eq_refl eq_refl timersOwned_connected) as (H1 & _ & H2 & _).
  exact (conj H1 H2).
Defined.

Lemma timersOwned_on_refs f h :
  (forall r, frameIntervalRef (f r) = frameIntervalRef r) ->
  timersOwned h -> timersOwned (on_refs f h).
Proof.
  intros Hf Hown t Ht. unfold on_refs in *. cbn [browser refs] in *.
  rewrite Hf. apply Hown. exact Ht.
Qed.

Lemma timersOwned_withoutVideo : timersOwned (withoutVideo connectedHook).
Proof.
  unfold withoutVideo. apply timersOwned_on_refs; [reflexivity |].
  exact timersOwned_connected.
Qed.

Lemma timersOwned_withoutContext2d : timersOwned (withoutContext2d connectedHook).
Proof.
  unfold withoutContext2d. apply timersOwned_on_refs; [reflexivity |].
  exact timersOwned_connected.
Qed.

(** X5.  The open callback sets the state to Active even when no frame
    can be sampled, and then starts no timer.  When the video or the
    canvas element is missing, [startVideoProcessing] returns before it
    touches any timer: a frame timer that was running keeps running.
    When the canvas gives no 2D context, the timer held before has
    been cancelled by then: being the only one, no frame timer can
    fire afterwards, while its stale handle stays in the ref. *)
Theorem open_without_canvas_starts_no_timer mode h :
  timersOwned h ->
  videoRef (refs h) = None \/ canvasRef (refs h) = None \/
  canvasRef (refs h) = Some {| context2d := false |} ->
  streamState (react (onopen mode h)) = ACTIVE /\
  frameIntervalRef (refs (onopen mode h)) = frameIntervalRef (refs h) /\
  nextHandle (browser (onopen mode h)) = nextHandle (browser h) /\
  (videoRef (refs h) = None \/ canvasRef (refs h) = None ->
   activeTimers (browser (onopen mode h)) = activeTimers (browser h) /\
   (forall t, t ∈ activeTimers (browser h) -> t ∈ activeTimers (browser (onopen mode h)))) /\
  (videoRef (refs h) <> None ->
   canvasRef (refs h) = Some {| context2d := false |} ->
   activeTimers (browser (onopen mode h)) = ∅).
Proof.
  intros Hown Hmissing. unfold onopen.
  split; [rewrite react_startVideoProcessing; reflexivity |].
  unfold startVideoProcessing. cbn.
  destruct (videoRef (refs h)) as [v|] eqn:Hv.
  - destruct (canvasRef (refs h)) as [[has2d]|] eqn:Hc.
    + destruct has2d.
      * exfalso. destruct Hmissing as [H | [H | H]]; discriminate.
      * cbn. destruct (frameIntervalRef (refs h)) as [old|] eqn:Hf; cbn.
        -- split; [first [reflexivity | symmetry; exact Hf | exact Hf] |].
           split; [reflexivity |].
           split; [intros [H | H]; discriminate |].
           intros _ _. apply set_eq. intros x. rewrite elem_of_difference, elem_of_singleton.
           split; [| intros Hx; exfalso; exact (not_elem_of_empty x Hx)].
           intros [Hin Hout]. exfalso. apply Hout.
           specialize (Hown x Hin). rewrite Hf in Hown. injection Hown as ->. reflexivity.
        -- split; [first [reflexivity | symmetry; exact Hf | exact Hf] |].
           split; [reflexivity |].
           split; [intros [H | H]; discriminate |].
           intros _ _. apply set_eq. intros x.
           split; [| intros Hx; exfalso; exact (not_elem_of_empty x Hx)].
           intros Hin. specialize (Hown x Hin). rewrite Hf in Hown. discriminate.
    + cbn. split; [reflexivity |]. split; [reflexivity |].
      split; [intros _; split; [reflexivity | tauto] |]. intros _ H. discriminate.
  - cbn. split; [reflexivity |]. split; [reflexivity |].
    split; [intros _; split; [reflexivity | tauto] |]. intros H. contradiction.
Qed.

Lemma open_without_canvas_starts_no_timer_witness :
  (streamState (react (onopen environment (withoutVideo connectedHook))) = ACTIVE /\
   frameIntervalRef (refs (withoutVideo connectedHook)) = Some 4%positive /\
   4%positive ∈ activeTimers (browser (onopen environment (withoutVideo connectedHook)))) /\
  (streamState (react (onopen environment (withoutContext2d connectedHook))) = ACTIVE /\
   frameIntervalRef (refs (onopen environment (withoutContext2d connectedHook)))
   = Some 4%positive /\
   activeTimers (browser (onopen environment (withoutContext2d connectedHook))) = ∅).
Proof.
  split.
  - destruct (open_without_canvas_starts_no_timer environment (withoutVideo connectedHook)
                timersOwned_withoutVideo (or_introl eq_refl))
      as (Hs & _ & _ & Hkeep & _).
    split; [exact Hs |]. split; [reflexivity |].
    apply (proj2 (Hkeep (or_introl eq_refl))).
    unfold withoutVideo, on_refs. cbn [browser].
    change (activeTimers (browser connectedHook)) with ({[4%positive]} : gset positive).
    apply elem_of_singleton. reflexivity.
  - destruct (open_without_canvas_starts_no_timer environment
                (withoutContext2d connectedHook)
                timersOwned_withoutContext2d (or_intror (or_intror eq_refl)))
      as (Hs & Hf & _ & _ & Hnone).
    split; [exact Hs |]. split; [rewrite Hf; reflexivity |].
    apply Hnone; [discriminate | reflexivity].
Defined.

(** ** Starting and stopping *)

Lemma nothing_minus (X Y : gset positive) : X = ∅ -> X ∖ Y = ∅.
Proof. apply empty_without. Qed.

Lemma noDeviceResources_stop_idle h :
  noDeviceResources h -> noDeviceResources (stopStream h).
Proof.
  intros (Ht & Hi & Hc). unfold noDeviceResources.
  rewrite stopStream_tracks, stopStream_timers, stopStream_open, Ht, Hi, Hc.
  split; [destruct (streamRef (refs h)); [apply nothing_minus |]; reflexivity |].
  split; [destruct (frameIntervalRef (refs h)); [apply nothing_minus |]; reflexivity |].
  destruct (inputAudioContextRef (refs h)), (outputAudioContextRef (refs h));
    repeat apply nothing_minus; reflexivity.
Qed.

(** The cells of the browser that [stopStream] does not write. *)
Lemma stopStream_untouched h :
  nextHandle (browser (stopStream h)) = nextHandle (browser h) /\
  toolResponses (browser (stopStream h)) = toolResponses (browser h) /\
  wallClock (browser (stopStream h)) = wallClock (browser h).
Proof.
  open_stop. unfold closeContext.
  destruct h as [r [v cv sp st fi ct ic oc ns] b]; cbn.
  destruct st, v, fi, ic, oc; cbn;
    repeat (match goal with |- context [decide ?P] => destruct (decide P) end; cbn);
    repeat split.
Qed.

(** X6.  A start without a usable key (empty, the text undefined or
    two double quotes) acquires nothing: no audio context is created,
    no session is requested, and since the [catch] block ends in
    [stopStream] the hook is left Idle with the error message cleared;
    the log gets the line "Failed to start: ..." and then
    "Analysis stopped". *)
Theorem start_without_key_acquires_nothing key h :
  usableKey key = false ->
  noDeviceResources h ->
  noDeviceResources (startStream key h) /\
  streamState (react (startStream key h)) = IDLE /\
  error (react (startStream key h)) = None /\
  sessionPromiseRef (refs (startStream key h)) = sessionPromiseRef (refs h) /\
  nextHandle (browser (startStream key h)) = nextHandle (browser h) /\
  (exists e1 e2,
      logs (react (startStream key h)) = e2 :: take 49 (e1 :: take 49 (logs (react h))) /\
      (log_type e1, log_message e1) =
        (LogError, Text ("Failed to start: " +:+ API_KEY_MISSING)) /\
      (log_type e2, log_message e2) = (LogInfo, Text "Analysis stopped")).
Proof.
  intros Hkey Hnone. unfold startStream. rewrite Hkey. unfold startFailed.
  split; [apply noDeviceResources_stop_idle; exact Hnone |].
  rewrite stopStream_react, stopStream_refs. cbn.
  split; [reflexivity |]. split; [reflexivity |]. split; [reflexivity |].
  split.
  - apply (stopStream_untouched
             (setStreamState ERROR
                (setError (Some (messageOr API_KEY_MISSING "Failed to start. Check API Key."))
                   (addLog (Text ("Failed to start: " +:+
                                    messageOr API_KEY_MISSING "Failed to start. Check API Key."))
                      LogError (setStreamState CONNECTING (setError None h)))))).
  - eexists. eexists. repeat split.
Qed.

Lemma start_without_key_acquires_nothing_witness :
  noDeviceResources (startStream "undefined" mountedHook) /\
  streamState (react (startStream "undefined" mountedHook)) = IDLE /\
  error (react (startStream "undefined" mountedHook)) = None.
Proof.
  destruct (start_without_key_acquires_nothing "undefined" mountedHook eq_refl
              (conj eq_refl (conj eq_refl eq_refl))) as (Hn & Hs & He & _).
  exact (conj Hn (conj Hs He)).
Defined.

Lemma startStream_acquires key h :
  usableKey key = true ->
  streamState (react (startStream key h)) = CONNECTING /\
  error (react (startStream key h)) = None /\
  streamRef (refs (startStream key h)) = streamRef (refs h) /\
  frameIntervalRef (refs (startStream key h)) = frameIntervalRef (refs h) /\
  inputAudioContextRef (refs (startStream key h)) = Some (nextHandle (browser h)) /\
  outputAudioContextRef (refs (startStream key h)) =
    Some (Pos.succ (nextHandle (browser h))) /\
  liveTracks (browser (startStream key h)) = liveTracks (browser h) /\
  activeTimers (browser (startStream key h)) = activeTimers (browser h) /\
  openContexts (browser (startStream key h)) =
    {[Pos.succ (nextHandle (browser h))]} ∪
      ({[nextHandle (browser h)]} ∪ openContexts (browser h)) /\
  nextHandle (browser (startStream key h)) = Pos.succ (Pos.succ (nextHandle (browser h))).
Proof. intros Hkey. unfold startStream. rewrite Hkey. cbn. repeat split. Qed.

(** X7.  When [getUserMedia] rejects after a start with a usable key,
    the two audio contexts the start created are closed again: in a
    browser that held no device before, none is held afterwards.  The
    hook is left Idle with the error message cleared, and the log
    carries "Failed to start: " followed by the message of the
    rejection (or the fallback text when it is empty). *)
Theorem media_denied_releases_contexts key message h :
  usableKey key = true ->
  noDeviceResources h ->
  noDeviceResources (run [CallStart key; MediaDenied message] h) /\
  streamState (react (run [CallStart key; MediaDenied message] h)) = IDLE /\
  error (react (run [CallStart key; MediaDenied message] h)) = None /\
  sessionPromiseRef (refs (run [CallStart key; MediaDenied message] h)) =
    sessionPromiseRef (refs h) /\
  (exists e1 e2,
      logs (react (run [CallStart key; MediaDenied message] h)) =
        e2 :: take 49 (e1 :: take 49 (logs (react h))) /\
      (log_type e1, log_message e1) =
        (LogError,
         Text ("Failed to start: " +:+
               messageOr message "Failed to start. Check API Key.")) /\
      (log_type e2, log_message e2) = (LogInfo, Text "Analysis stopped")).
Proof.
  intros Hkey (Ht & Hi & Hc).
  destruct (startStream_acquires key h Hkey) as (Hst & Her & Hs & Hf & Hic & Hoc & Hlt & Hat & Hop & Hn).
  cbn [run fold_left step]. unfold startStream_denied, startFailed.
  split.
  - unfold noDeviceResources.
    rewrite stopStream_tracks, stopStream_timers, stopStream_open. cbn.
    rewrite Hs, Hf, Hic, Hoc, Hlt, Hat, Hop, Ht, Hi, Hc.
    split; [destruct (streamRef (refs h)); [apply nothing_minus |]; reflexivity |].
    split; [destruct (frameIntervalRef (refs h)); [apply nothing_minus |]; reflexivity |].
    apply pair_removed.
  - assert (Hlogs : logs (react (startStream key h)) = logs (react h))
      by (unfold startStream; rewrite Hkey; reflexivity).
    assert (Hsess : sessionPromiseRef (refs (startStream key h)) = sessionPromiseRef (refs h))
      by (unfold startStream; rewrite Hkey; reflexivity).
    rewrite stopStream_react, stopStream_refs. cbn -[take].
    rewrite Hlogs, Hsess.
    split; [reflexivity |]. split; [reflexivity |]. split; [reflexivity |].
    eexists. eexists. repeat split.
Qed.

Lemma media_denied_releases_contexts_witness :
  noDeviceResources (run [CallStart "key"; MediaDenied "Permission denied"] mountedHook) /\
  streamState (react (run [CallStart "key"; MediaDenied "Permission denied"] mountedHook))
    = IDLE.
Proof.
  destruct (media_denied_releases_contexts "key" "Permission denied" mountedHook eq_refl
              (conj eq_refl (conj eq_refl eq_refl))) as (Hn & Hs & _).
  exact (conj Hn Hs).
Defined.

(** Equations between sets of handles, by membership. *)
Ltac by_membership :=
  apply set_eq; intros ?;
  repeat first [ rewrite elem_of_difference | rewrite elem_of_union
               | rewrite elem_of_singleton | rewrite elem_of_empty ];
  tauto.

Lemma session_opened key s mode v h :
  usableKey key = true ->
  noDeviceResources h ->
  videoRef (refs h) = Some v ->
  canvasRef (refs h) = Some {| context2d := true |} ->
  let opened := run [CallStart key; MediaGranted s; SessionOpen mode] h in
  let n := nextHandle (browser h) in
  streamState (react opened) = ACTIVE /\
  liveTracks (browser opened) = list_to_set (getTracks s) /\
  openContexts (browser opened) = {[n; Pos.succ n]} /\
  activeTimers (browser opened) = {[Pos.succ (Pos.succ (Pos.succ n))]} /\
  sessionPromiseRef (refs opened) = Some (Pos.succ (Pos.succ n)) /\
  streamRef (refs opened) = Some s /\
  frameIntervalRef (refs opened) = Some (Pos.succ (Pos.succ (Pos.succ n))) /\
  inputAudioContextRef (refs opened) = Some n /\
  outputAudioContextRef (refs opened) = Some (Pos.succ n).
Proof.
  intros Hkey (Ht & Hi & Hc) Hv Hcv.
  destruct h as [r [vr cv sp st fi ct ic oc ns] [lt tm op nh tr sd wc rd]].
  cbn in Ht, Hi, Hc, Hv, Hcv. subst lt tm op vr cv.
  cbn [run fold_left step]. unfold startStream. rewrite Hkey.
  unfold onopen, startVideoProcessing, startStream_granted. cbn.
  destruct fi; cbn; repeat split; by_membership.
Qed.

(** X8.  A session from start to stop, in a browser that held no
    device before and with the video and canvas elements in place:
    once the session is open the state is Active and the hook holds
    exactly the tracks of the granted stream, one frame timer and its
    two audio contexts; after [stopStream] it holds none of them and
    the state is Idle. *)
Theorem session_acquires_and_releases key s mode v h :
  usableKey key = true ->
  noDeviceResources h ->
  videoRef (refs h) = Some v ->
  canvasRef (refs h) = Some {| context2d := true |} ->
  let opened := run [CallStart key; MediaGranted s; SessionOpen mode] h in
  let n := nextHandle (browser h) in
  streamState (react opened) = ACTIVE /\
  liveTracks (browser opened) = list_to_set (getTracks s) /\
  openContexts (browser opened) = {[n; Pos.succ n]} /\
  activeTimers (browser opened) = {[Pos.succ (Pos.succ (Pos.succ n))]} /\
  sessionPromiseRef (refs opened) = Some (Pos.succ (Pos.succ n)) /\
  streamState (react (stopStream opened)) = IDLE /\
  noDeviceResources (stopStream opened).
Proof.
  intros Hkey Hnone Hv Hcv opened n.
  destruct (session_opened key s mode v h Hkey Hnone Hv Hcv)
    as (Hst & Hlt & Hop & Hat & Hse & Hs & Hf & Hic & Hoc).
  fold opened n in Hst, Hlt, Hop, Hat, Hse, Hs, Hf, Hic, Hoc.
  split; [exact Hst |]. split; [exact Hlt |]. split; [exact Hop |].
  split; [exact Hat |]. split; [exact Hse |].
  split; [rewrite stopStream_react; reflexivity |].
  unfold noDeviceResources.
  rewrite stopStream_tracks, stopStream_timers, stopStream_open.
  rewrite Hs, Hf, Hic, Hoc, Hlt, Hop, Hat.
  split; [by_membership | split; by_membership].
Qed.

Lemma session_acquires_and_releases_witness :
  streamState (react connectedHook) = ACTIVE /\
  liveTracks (browser connectedHook) = list_to_set [1; 2]%positive /\
  noDeviceResources (stopStream connectedHook).
Proof.
  destruct (session_acquires_and_releases "key" {| getTracks := [1; 2]%positive |}
              environment {| srcObject := None |} mountedHook eq_refl
              (conj eq_refl (conj eq_refl eq_refl)) eq_refl eq_refl)
    as (Hs & Hl & _ & _ & _ & _ & Hn).
  exact (conj Hs (conj Hl Hn)).
Defined.

Lemma startStream_granted_cells s h :
  react (startStream_granted s h) = react h /\
  streamRef (refs (startStream_granted s h)) = Some s /\
  sessionPromiseRef (refs (startStream_granted s h)) = Some (nextHandle (browser h)) /\
  liveTracks (browser (startStream_granted s h)) =
    list_to_set (getTracks s) ∪ liveTracks (browser h) /\
  openContexts (browser (startStream_granted s h)) = openContexts (browser h) /\
  activeTimers (browser (startStream_granted s h)) = activeTimers (browser h).
Proof.
  unfold startStream_granted. cbn. destruct (videoRef (refs h)); repeat split.
Qed.

Lemma nextHandle_stopStream h :
  nextHandle (browser (stopStream h)) = nextHandle (browser h).
Proof. apply stopStream_untouched. Qed.

(** X9.  A [stopStream] that runs while [getUserMedia] is still
    pending cancels nothing of the start: it closes the two audio
    contexts and sets Idle, but when the stream is granted afterwards
    the start goes on, so that the stream is held with its tracks live
    and a session is requested while the state stays Idle. *)
Theorem stop_does_not_cancel_pending_start key s h :
  usableKey key = true ->
  noDeviceResources h ->
  let late := run [CallStart key; CallStop; MediaGranted s] h in
  streamState (react late) = IDLE /\
  streamRef (refs late) = Some s /\
  liveTracks (browser late) = list_to_set (getTracks s) /\
  openContexts (browser late) = ∅ /\
  sessionPromiseRef (refs late) = Some (Pos.succ (Pos.succ (nextHandle (browser h)))) /\
  (getTracks s <> [] -> ~ noDeviceResources late).
Proof.
  intros Hkey (Ht & Hi & Hc) late.
  destruct (startStream_acquires key h Hkey)
    as (Hst & Her & Hs & Hf & Hic & Hoc & Hlt & Hat & Hop & Hn).
  destruct (startStream_granted_cells s (stopStream (startStream key h)))
    as (Gr & Gs & Gse & Gl & Go & Ga).
  change (startStream_granted s (stopStream (startStream key h))) with late
    in Gr, Gs, Gse, Gl, Go, Ga.
  rewrite stopStream_tracks, Hs, Hlt, Ht in Gl.
  rewrite stopStream_open, Hic, Hoc, Hop, Hc in Go.
  rewrite nextHandle_stopStream, Hn in Gse.
  assert (Hlive : liveTracks (browser late) = list_to_set (getTracks s)).
  { rewrite Gl. destruct (streamRef (refs h)); by_membership. }
  split; [rewrite Gr, stopStream_react; reflexivity |].
  split; [exact Gs |]. split; [exact Hlive |].
  split; [rewrite Go; by_membership |]. split; [exact Gse |].
  intros Hne (Hnone & _). rewrite Hlive in Hnone.
  destruct (getTracks s) as [|t rest]; [contradiction |].
  assert (Hin : t ∈ (list_to_set (t :: rest) : gset positive))
    by (apply elem_of_list_to_set; left).
  rewrite Hnone in Hin. exact (not_elem_of_empty t Hin).
Qed.

Lemma stop_does_not_cancel_pending_start_witness :
  streamState
    (react (run [CallStart "key"; CallStop; MediaGranted {| getTracks := [1; 2]%positive |}]
              mountedHook)) = IDLE /\
  liveTracks
    (browser (run [CallStart "key"; CallStop; MediaGranted {| getTracks := [1; 2]%positive |}]
                mountedHook)) = list_to_set [1; 2]%positive.
Proof.
  destruct (stop_does_not_cancel_pending_start "key" {| getTracks := [1; 2]%positive |}
              mountedHook eq_refl (conj eq_refl (conj eq_refl eq_refl)))
    as (Hs & _ & Hl & _).
  exact (conj Hs Hl).
Defined.

(** X10.  [startStream] does not release what an earlier start
    created: after two starts in a row, a [stopStream] closes the audio
    contexts of the second start only, and the two of the first start
    stay open, out of reach of the hook. *)
Theorem second_start_leaks_contexts key h :
  usableKey key = true ->
  noDeviceResources h ->
  let n := nextHandle (browser h) in
  openContexts (browser (run [CallStart key; CallStart key; CallStop] h)) =
    {[n; Pos.succ n]} /\
  inputAudioContextRef (refs (run [CallStart key; CallStart key; CallStop] h)) =
    Some (Pos.succ (Pos.succ n)) /\
  outputAudioContextRef (refs (run [CallStart key; CallStart key; CallStop] h)) =
    Some (Pos.succ (Pos.succ (Pos.succ n))) /\
  ~ noDeviceResources (run [CallStart key; CallStart key; CallStop] h).
Proof.
  intros Hkey (Ht & Hi & Hc) n.
  destruct (startStream_acquires key h Hkey)
    as (_ & _ & _ & _ & _ & _ & _ & _ & Hop1 & Hn1).
  destruct (startStream_acquires key (startStream key h) Hkey)
    as (_ & _ & _ & _ & Hic & Hoc & _ & _ & Hop2 & _).
  rewrite Hn1 in Hic, Hoc, Hop2. rewrite Hop1, Hc in Hop2. fold n in Hic, Hoc, Hop2.
  assert (Hopen : openContexts (browser (run [CallStart key; CallStart key; CallStop] h)) =
                  {[n; Pos.succ n]}).
  { cbn [run fold_left step]. rewrite stopStream_open, Hic, Hoc, Hop2.
    apply set_eq. intros x.
    repeat first [ rewrite elem_of_difference | rewrite elem_of_union
                 | rewrite elem_of_singleton | rewrite elem_of_empty ].
    split; [tauto |]. intros [-> | ->]; (split; [split; [tauto | lia] | lia]). }
  split; [exact Hopen |].
  cbn [run fold_left step]. rewrite stopStream_refs. cbn.
  split; [exact Hic |]. split; [exact Hoc |].
  intros (_ & _ & Hnone). cbn [run fold_left step] in Hopen. rewrite Hopen in Hnone.
  assert (Hin : n ∈ ({[n; Pos.succ n]} : gset positive))
    by (apply elem_of_union; left; apply elem_of_singleton; reflexivity).
  rewrite Hnone in Hin. exact (not_elem_of_empty n Hin).
Qed.

Lemma second_start_leaks_contexts_witness :
  openContexts (browser (run [CallStart "key"; CallStart "key"; CallStop] mountedHook)) =
    {[1%positive; 2%positive]}.
Proof.
  exact (proj1 (second_start_leaks_contexts "key" mountedHook eq_refl
                  (conj eq_refl (conj eq_refl eq_refl)))).
Defined.

(** ** The interpreter and the stream state *)

Lemma ledgerOf_processCall fc h1 h2 :
  ledgerOf h1 = ledgerOf h2 ->
  ledgerOf (final (processCall fc h1)) = ledgerOf (final (processCall fc h2)) /\
  isNormal (processCall fc h1) = isNormal (processCall fc h2).
Proof.
  unfold ledgerOf. intros Heq. injection Heq as Hs Hp Hw Ht.
  unfold processCall. destruct (isKnown fc); [| cbn; rewrite Hs, Hp, Hw, Ht; split; reflexivity].
  destruct (fc_args fc) as [args|]; [| cbn; rewrite Hs, Hp, Hw, Ht; split; reflexivity].
  cbn [final isNormal]. split; [| reflexivity].
  unfold sendToolResponse. rewrite !refs_recordDetection, Hp.
  unfold recordDetection.
  destruct (sessionPromiseRef (refs h2)) eqn:Hp2; destruct (_ || _); cbn;
    rewrite ?Hs, ?Hw, ?Ht, ?Hp, ?Hp2; reflexivity.
Qed.

Lemma ledgerOf_forEachCall calls : forall h1 h2,
  ledgerOf h1 = ledgerOf h2 ->
  ledgerOf (final (forEachCall calls h1)) = ledgerOf (final (forEachCall calls h2)) /\
  isNormal (forEachCall calls h1) = isNormal (forEachCall calls h2).
Proof.
  induction calls as [|fc rest IH]; intros h1 h2 Heq; cbn [forEachCall].
  - split; [exact Heq | reflexivity].
  - destruct (ledgerOf_processCall fc h1 h2 Heq) as [Hl Hn].
    destruct (processCall fc h1) as [h1'|h1'], (processCall fc h2) as [h2'|h2'];
      cbn [final isNormal] in *; try discriminate.
    + apply IH. exact Hl.
    + split; [exact Hl | reflexivity].
Qed.

Lemma ledgerOf_stopStream h : ledgerOf (stopStream h) = ledgerOf h.
Proof.
  destruct (stopStream_untouched h) as (_ & Ht & Hw).
  unfold ledgerOf. rewrite stopStream_react, stopStream_refs, Ht, Hw. reflexivity.
Qed.

(** X11.  The interpreter looks neither at the stream state nor at
    the devices, and [stopStream] keeps the session handle: a batch
    that arrives after a stop changes the statistics and is
    acknowledged exactly as it would have been without the stop, and
    it fails on the same calls. *)
Theorem tool_calls_are_handled_after_stop functionCalls h :
  stats (react (final (processToolCall functionCalls (stopStream h)))) =
    stats (react (final (processToolCall functionCalls h))) /\
  toolResponses (browser (final (processToolCall functionCalls (stopStream h)))) =
    toolResponses (browser (final (processToolCall functionCalls h))) /\
  isNormal (processToolCall functionCalls (stopStream h)) =
    isNormal (processToolCall functionCalls h) /\
  sessionPromiseRef (refs (stopStream h)) = sessionPromiseRef (refs h).
Proof.
  assert (Hsim : ledgerOf (final (processToolCall functionCalls (stopStream h))) =
                 ledgerOf (final (processToolCall functionCalls h)) /\
                 isNormal (processToolCall functionCalls (stopStream h)) =
                 isNormal (processToolCall functionCalls h)).
  { destruct functionCalls as [calls|]; cbn [processToolCall final isNormal].
    - apply ledgerOf_forEachCall, ledgerOf_stopStream.
    - split; [apply ledgerOf_stopStream | reflexivity]. }
  destruct Hsim as [Hl Hn]. unfold ledgerOf in Hl. injection Hl as Hs Hp Hw Ht.
  split; [exact Hs |]. split; [exact Ht |]. split; [exact Hn |].
  rewrite stopStream_refs. reflexivity.
Qed.

(** ** Log lines of a detection *)

Lemma rendered_all (texts : list string) : rendered (map Some texts) = Some texts.
Proof.
  induction texts as [|p rest IH]; [reflexivity |].
  cbn. rewrite IH. reflexivity.
Qed.

Lemma part_safe n label :
  isSafe n = true ->
  part (Num n) label = if n =? 0 then [] else [Some (Z_to_string n +:+ label)].
Proof.
  intros Hn. unfold part, number_to_string. cbn. rewrite Hn.
  destruct (n =? 0); reflexivity.
Qed.

(** X12.  For counts that are integers within 2^53, the line of a
    detection names exactly the classes whose count is not zero, each
    by its count and its label, in the order two-, three-,
    four-wheelers, heavy vehicles, separated by commas behind
    "Detected: "; a class with a negative count is named as well. *)
Theorem detection_line_names_nonzero_classes n2 n3 n4 nh d h :
  isSafe n2 = true -> isSafe n3 = true -> isSafe n4 = true -> isSafe nh = true ->
  detectionParts (Num n2) (Num n3) (Num n4) (Num nh) =
    map (fun class => Some (Z_to_string (fst class) +:+ snd class))
      (List.filter (fun class => negb (fst class =? 0)) (labelled n2 n3 n4 nh)) /\
  (0 < n2 \/ 0 < n3 \/ 0 < n4 \/ 0 < nh ->
   option_map log_message
     (head (logs (react (recordDetection (Num n2) (Num n3) (Num n4) (Num nh)
                           d JUndefined h)))) =
   Some (Text ("Detected: " +:+
               join ", "
                 (map (fun class => Z_to_string (fst class) +:+ snd class)
                    (List.filter (fun class => negb (fst class =? 0))
                       (labelled n2 n3 n4 nh)))))).
Proof.
  intros S2 S3 S4 Sh.
  assert (Hparts :
    detectionParts (Num n2) (Num n3) (Num n4) (Num nh) =
    map Some
      (map (fun class => Z_to_string (fst class) +:+ snd class)
         (List.filter (fun class => negb (fst class =? 0)) (labelled n2 n3 n4 nh)))).
  { unfold detectionParts, labelled.
    rewrite !part_safe by assumption. cbn.
    destruct (n2 =? 0), (n3 =? 0), (n4 =? 0), (nh =? 0); reflexivity. }
  split.
  - rewrite Hparts, map_map. reflexivity.
  - intros Hpos.
    rewrite recordDetection_positive.
    2:{ cbn. destruct Hpos as [H | [H | [H | H]]]; apply Z.ltb_lt in H; rewrite H;
        rewrite ?orb_true_r; reflexivity. }
    cbn [addLog setLogs on_react on_browser react logs set_logs head option_map log_message].
    unfold detectionMessage. rewrite Hparts, rendered_all. reflexivity.
Qed.

Lemma detection_line_names_nonzero_classes_witness :
  detectionParts (Num (-1)) (Num 3) (Num 2) (Num 0) =
    [Some "-1 Bike(s)"; Some "3 Auto(s)"; Some "2 Car(s)"] /\
  option_map log_message
    (head (logs (react (recordDetection (Num (-1)) (Num 3) (Num 2) (Num 0)
                          (JString "LOW") JUndefined connectedHook)))) =
  Some (Text "Detected: -1 Bike(s), 3 Auto(s), 2 Car(s)").
Proof.
  destruct (detection_line_names_nonzero_classes (-1) 3 2 0 (JString "LOW") connectedHook
              eq_refl eq_refl eq_refl eq_refl) as (Hparts & Hline).
  split; [exact Hparts |].
  apply Hline. right. left. reflexivity.
Defined.

(** ** [toggleCamera] *)

Lemma otherFacing_involutive m : otherFacing (otherFacing m) = m.
Proof. destruct m; reflexivity. Qed.

Lemma otherFacing_differs m : otherFacing m <> m.
Proof. destruct m; discriminate. Qed.

Lemma toggleCamera_facing h :
  facingMode (react (fst (toggleCamera h))) = otherFacing (facingMode (react h)).
Proof.
  unfold toggleCamera. destruct (streamState (react h)); cbn [fst];
    rewrite ?stopStream_react; reflexivity.
Qed.

(** X13.  [toggleCamera] always flips the facing mode, so two toggles
    give back the mode one started from.  While the hook is Idle or in
    Error it changes nothing else and schedules no start.  While the
    hook is Connecting or Active it logs "Switching camera...", tears
    the session down through [stopStream] and schedules a start in the
    new mode; a second toggle before that start runs finds the hook
    Idle, so it only flips the mode back, and the start that was
    scheduled still uses the first new mode. *)
Theorem toggle_camera_flips_and_restarts h :
  facingMode (react (fst (toggleCamera h))) = otherFacing (facingMode (react h)) /\
  facingMode (react (fst (toggleCamera (fst (toggleCamera h))))) = facingMode (react h) /\
  (streamState (react h) = IDLE \/ streamState (react h) = ERROR ->
   toggleCamera h = (setFacingMode (otherFacing (facingMode (react h))) h, None)) /\
  (streamState (react h) = ACTIVE \/ streamState (react h) = CONNECTING ->
   snd (toggleCamera h) = Some (otherFacing (facingMode (react h))) /\
   tornDown (fst (toggleCamera h)) /\
   (exists e1 e2,
       logs (react (fst (toggleCamera h))) = e2 :: take 49 (e1 :: take 49 (logs (react h))) /\
       (log_type e1, log_message e1) = (LogInfo, Text "Switching camera...") /\
       (log_type e2, log_message e2) = (LogInfo, Text "Analysis stopped")) /\
   snd (toggleCamera (fst (toggleCamera h))) = None /\
   snd (toggleCamera h) <> Some (facingMode (react (fst (toggleCamera (fst (toggleCamera h))))))).
Proof.
  split; [apply toggleCamera_facing |].
  split; [rewrite !toggleCamera_facing; apply otherFacing_involutive |].
  split.
  - intros [Hs | Hs]; unfold toggleCamera; rewrite Hs; reflexivity.
  - intros Hs.
    assert (Hrun : toggleCamera h =
                   (stopStream (addLog (Text "Switching camera...") LogInfo
                                  (setFacingMode (otherFacing (facingMode (react h))) h)),
                    Some (otherFacing (facingMode (react h)))))
      by (destruct Hs as [Hs | Hs]; unfold toggleCamera; rewrite Hs; reflexivity).
    assert (Hidle : streamState (react (fst (toggleCamera h))) = IDLE)
      by (rewrite Hrun; cbn [fst]; rewrite stopStream_react; reflexivity).
    split; [rewrite Hrun; reflexivity |].
    split; [rewrite Hrun; apply stopStream_tornDown |].
    split; [rewrite Hrun; cbn [fst]; rewrite stopStream_react; cbn;
            eexists; eexists; repeat split |].
    split; [unfold toggleCamera at 1; rewrite Hidle; reflexivity |].
    rewrite !toggleCamera_facing, otherFacing_involutive, Hrun. cbn [snd].
    intros Heq. injection Heq as Heq. exact (otherFacing_differs _ Heq).
Qed.

Lemma toggle_camera_flips_and_restarts_witness :
  snd (toggleCamera connectedHook) = Some user /\
  tornDown (fst (toggleCamera connectedHook)).
Proof.
  destruct (proj2 (proj2 (proj2 (toggle_camera_flips_and_restarts connectedHook)))
              (or_introl eq_refl)) as (Hs & Ht & _).
  exact (conj Hs Ht).
Defined.

(** ** The chart history *)

Lemma appendPoint_length prev p :
  (length prev <= 30)%nat -> (length (appendPoint prev p) <= 30)%nat.
Proof.
  intros Hlen. unfold appendPoint.
  destruct (Nat.ltb_spec 30 (length (prev ++ [p]))) as [Hlt | Hge]; [| exact Hge].
  rewrite length_app in Hlt. cbn in Hlt.
  destruct prev as [|q prev]; cbn in *; [lia |]. rewrite length_app. cbn. lia.
Qed.

Lemma appendPoint_drop prev p :
  (length prev <= 30)%nat ->
  appendPoint prev p = drop (length (prev ++ [p]) - 30) (prev ++ [p]).
Proof.
  intros Hlen. unfold appendPoint.
  destruct (Nat.ltb_spec 30 (length (prev ++ [p]))) as [Hlt | Hge].
  - rewrite length_app in *. cbn in *.
    replace (length prev + 1 - 30)%nat with 1%nat by lia.
    destruct prev; reflexivity.
  - replace (length (prev ++ [p]) - 30)%nat with 0%nat by lia. reflexivity.
Qed.

Lemma history_drop pts : forall prev,
  (length prev <= 30)%nat ->
  fold_left appendPoint pts prev = drop (length (prev ++ pts) - 30) (prev ++ pts).
Proof.
  induction pts as [|p rest IH]; intros prev Hlen; cbn [fold_left].
  - rewrite app_nil_r. replace (length prev - 30)%nat with 0%nat by lia. reflexivity.
  - rewrite (IH _ (appendPoint_length prev p Hlen)), (appendPoint_drop prev p Hlen).
    replace (prev ++ p :: rest) with ((prev ++ [p]) ++ rest)
      by (rewrite <- app_assoc; reflexivity).
    generalize (prev ++ [p]). intros l.
    destruct (Nat.le_gt_cases (length l) 30) as [Hle | Hgt].
    + replace (length l - 30)%nat with 0%nat by lia. reflexivity.
    + assert (Hk : drop (length l - 30) l ++ rest = drop (length l - 30) (l ++ rest))
        by (symmetry; apply drop_app_le; lia).
      rewrite Hk, drop_drop, length_drop, length_app. f_equal. lia.
Qed.

(** X14.  The chart history of [App] holds the newest 30 points, oldest
    first: whatever the points appended since it was emptied, it is
    their last 30, so it never holds more than 30. *)
Theorem chart_history_keeps_last_thirty pts :
  fold_left appendPoint pts [] = drop (length pts - 30) pts /\
  (length (fold_left appendPoint pts []) <= 30)%nat /\
  (forall p, pts <> [] -> last pts = Some p -> last (fold_left appendPoint pts []) = Some p).
Proof.
  assert (Hdrop : fold_left appendPoint pts [] = drop (length pts - 30) pts)
    by (apply (history_drop pts []); cbn; lia).
  split; [exact Hdrop |]. split.
  - rewrite Hdrop, length_drop. lia.
  - intros p Hne Hlast. rewrite Hdrop.
    rewrite <- (take_drop (length pts - 30) pts) in Hlast.
    rewrite last_app in Hlast.
    destruct (last (drop (length pts - 30) pts)) as [q|] eqn:Hq; [exact Hlast |].
    exfalso. apply last_None in Hq.
    assert (Hl : length (drop (length pts - 30) pts) = 0%nat) by (rewrite Hq; reflexivity).
    rewrite length_drop in Hl. destruct pts; [contradiction | cbn in Hl; lia].
Qed.

(** ** Messages that are dropped *)

Lemma refs_forEachCall calls : forall h, refs (final (forEachCall calls h)) = refs h.
Proof.
  induction calls as [|fc rest IH]; intros h; cbn [forEachCall]; [reflexivity |].
  pose proof (refs_processCall fc h) as Hstep.
  destruct (processCall fc h) as [h'|h']; cbn [final] in *; [rewrite IH |]; exact Hstep.
Qed.

(** X15.  What [onmessage] drops.  Audio without payload, with an empty
    payload, or received while the hook has no output context leaves
    the hook as it is.  A chunk whose decoding fails starts no buffer
    and only raises the playback clock to the clock reading of its
    arrival.  When a call of the batch raises (a known call without
    arguments), the rest of the message is skipped: no transcript is
    gathered or flushed and no audio is scheduled, while the calls
    before the failing one stay applied. *)
Theorem dropped_messages_leave_the_schedule msg t decoded h :
  (audioData msg = None \/ audioData msg = Some "" \/
   outputAudioContextRef (refs h) = None ->
   onAudio msg t decoded h = h) /\
  (forall data c,
      audioData msg = Some data -> data <> "" ->
      outputAudioContextRef (refs h) = Some c ->
      started (browser (onAudio msg t None h)) = started (browser h) /\
      nextStartTimeRef (refs (onAudio msg t None h)) =
        Z.max (nextStartTimeRef (refs h)) t) /\
  (forall calls,
      toolCall msg = Some (Some calls) ->
      isNormal (forEachCall calls h) = false ->
      onmessage msg t decoded h = final (forEachCall calls h) /\
      refs (onmessage msg t decoded h) = refs h /\
      started (browser (onmessage msg t decoded h)) = started (browser h)).
Proof.
  split; [| split].
  - unfold onAudio. intros [Hn | [He | Hc]].
    + rewrite Hn. reflexivity.
    + rewrite He. destruct (outputAudioContextRef (refs h)); reflexivity.
    + rewrite Hc. destruct (audioData msg); reflexivity.
  - intros data c Hdata Hne Hc.
    pose proof (schedulerOf_onAudio msg t None h) as Hs.
    rewrite Hdata, Hc in Hs.
    destruct (String.eqb_spec data ""); [contradiction |].
    unfold schedulerOf in Hs. injection Hs as Hn Hst. split; assumption.
  - intros calls Hcalls Hthrow.
    assert (Hrun : onmessage msg t decoded h = final (forEachCall calls h)).
    { unfold onmessage. rewrite Hcalls. cbn [processToolCall].
      destruct (forEachCall calls h); [discriminate | reflexivity]. }
    rewrite Hrun. split; [reflexivity |].
    split; [apply refs_forEachCall |].
    pose proof (schedulerOf_forEachCall calls h) as Hs.
    unfold schedulerOf in Hs. injection Hs as _ Hst. exact Hst.
Qed.

Lemma dropped_messages_leave_the_schedule_witness :
  started (browser (onmessage mixedMessage 0 (Some 24000) connectedHook)) = [] /\
  refs (onmessage mixedMessage 0 (Some 24000) connectedHook) = refs connectedHook /\
  counters (stats (react (onmessage mixedMessage 0 (Some 24000) connectedHook))) =
    (Counted 2, Counted 0, Counted 1, Counted 0).
Proof.
  destruct (proj2 (proj2 (dropped_messages_leave_the_schedule mixedMessage 0
                            (Some 24000) connectedHook))
              [scenarioFirst (Some "call-1"); noArguments] eq_refl eq_refl)
    as (_ & Hr & Hs).
  split; [exact Hs |]. split; [exact Hr | reflexivity].
Defined.

(** ** What changes the statistics *)

(** X16.  Only a message from the session and the reset change the
    statistics: starting, stopping, the settling of the media request,
    the opening, closing and failing of the session and the passing of
    time leave every counter, the density and the timestamp as they
    are.  A message that carries no tool call leaves them as well. *)
Theorem only_tool_calls_and_reset_change_statistics e h :
  (forall msg t d, e <> SessionMessage msg t d) ->
  e <> CallReset ->
  stats (react (step e h)) = stats (react h) /\
  (forall msg t d,
      toolCall msg = None \/ toolCall msg = Some None \/ toolCall msg = Some (Some []) ->
      stats (react (onmessage msg t d h)) = stats (react h)).
Proof.
  intros Hmsg Hreset. split.
  - destruct e; cbn [step].
    + apply stats_startStream.
    + apply stats_startStream_granted.
    + unfold startStream_denied. apply stats_startFailed.
    + unfold onopen. rewrite stats_startVideoProcessing. reflexivity.
    + exfalso. exact (Hmsg _ _ _ eq_refl).
    + reflexivity.
    + reflexivity.
    + unfold onerror. rewrite stats_stopStream. reflexivity.
    + apply stats_stopStream.
    + apply stats_stopStream_called.
    + apply stats_stopStream_inputClosed.
    + reflexivity.
    + contradiction.
    + reflexivity.
  - intros msg t d Hnone. unfold onmessage.
    destruct Hnone as [-> | [-> | ->]]; cbn [processToolCall forEachCall];
      rewrite stats_onAudio, stats_onTranscript; reflexivity.
Qed.

Lemma only_tool_calls_and_reset_change_statistics_witness :
  stats (react (step (SessionError "boom") playingHook)) = stats (react playingHook).
Proof.
  refine (proj1 (only_tool_calls_and_reset_change_statistics
                   (SessionError "boom") playingHook _ _)).
  - intros msg t d. discriminate.
  - discriminate.
Defined.
